(** * gdeep.data.preprocessing_pipes: a shallow embedding

    The module [preprocessing_pipes.py] defines preprocessing stages
    (classes deriving from [AbstractPreprocessing]) that are fitted once
    on a dataset and then applied datum by datum, and a pipeline that
    chains them.  Stages are Python objects mutated in place, they write
    and read JSON snapshots of themselves and they emit warnings.  The
    embedding therefore threads an explicit world through every method: a
    heap of objects addressed by reference, a file system and a trace of
    the observable events, inside a state-and-exception monad. *)

From Stdlib Require Import ZArith List Lia Bool Ascii String.
From Stdlib Require Import Floats.SpecFloat.
From stdpp Require Import base option list strings gmap.

Local Open Scope string_scope.
Local Open Scope Z_scope.

(** ** Single precision numbers

    [torch.mean] and [torch.std] are applied to [data.float()], so the
    fitted statistics are IEEE 754 binary32 tensors.  [SpecFloat] gives
    the arithmetic for any precision; binary32 has 24 bits of precision
    and exponents below 128. *)

Module F32.

Definition prec : Z := 24.
Definition emax : Z := 128.

Definition t : Type := spec_float.

Definition zero : t := S754_zero false.
Definition nan : t := S754_nan.
Definition inf : t := S754_infinity false.

Definition add (x y : t) : t := SFadd prec emax x y.
Definition sub (x y : t) : t := SFsub prec emax x y.
Definition div (x y : t) : t := SFdiv prec emax x y.

(** [x > 0], false on a NaN as every IEEE comparison is. *)
Definition gt0 (x : t) : bool := SFltb zero x.

(** [x >= 0]: a zero of either sign, a positive number or [+inf]. *)
Definition ge0 (x : t) : bool := SFleb zero x.

(** The numbers a tensor can hold: a finite one has a mantissa of at
    most [prec] bits and an exponent in the range of the format. *)
Definition valid (x : t) : bool := valid_binary prec emax x.

(** [torch.isfinite]. *)
Definition is_finite (x : t) : bool :=
  match x with
  | S754_zero _ | S754_finite _ _ _ => true
  | S754_infinity _ | S754_nan => false
  end.

Definition is_zero (x : t) : bool :=
  match x with S754_zero _ => true | _ => false end.

(** The literal [1e-7] once it is converted to the tensor's dtype:
    the binary32 number nearest to 10^-7, 14073749 * 2^-47. *)
Definition eps : t := S754_finite false 14073749 (-47).

(** The powers of two, for the examples. *)
Definition pow2 (e : Z) : t := S754_finite false 8388608 (e - 23).

End F32.

(** ** Python values *)

(** The values the stages store in their attributes, receive as data and
    return.  A tuple and a list behave alike everywhere in this module
    (the code tests [isinstance(x, tuple) or isinstance(x, list)]), so
    both are a [VSeq].  Float tensors are single precision and have
    rank 0 ([VFloat]), 1 ([VTensor]) or 2 ([VMatrix], a list of rows of
    one length; what the module does with a tensor of higher rank it
    does with a matrix already); tensors of whole numbers have rank 0
    ([VLong]) or 1 ([VIds]).  A [VIds] holds the values of its entries:
    the tensor of token ids is an int64 tensor, and [torch.cat] makes a
    single precision tensor of it when it joins it with the padding,
    which rounds every entry to 24 significant bits ([float32_of_int]
    below) and leaves it a whole number. *)
#[warnings="-register-all"]
Inductive value : Type :=
| VNone
| VBool (b : bool)
| VInt (n : Z)
| VStr (s : string)
| VSeq (vs : list value)
| VTensor (xs : list F32.t)
| VMatrix (rows : list (list F32.t))
| VFloat (x : F32.t)
| VIds (ids : list Z)
| VLong (n : Z)
| VTokenizer (tok : string -> list string)
| VVocab (stoi : string -> Z).

(** An object is its class and its [__dict__]. *)
Record obj : Type := Obj {
  class_name : string;
  attrs : gmap string value
}.

Definition loc : Type := positive.

(** What a file holds: the JSON text [jsonpickle] made of an object,
    kept as the snapshot it encodes (the encoding itself is the
    library's), or text that [json.load] refuses, as the empty file
    [open(..., "w")] leaves before anything is written.  The files of a
    world are regular files that the process may read and write, each
    under the path the module opens it with. *)
Inductive file : Type :=
| Encoded (o : obj)
| Undecodable.

Inductive event : Type :=
| EvOpenRead (path : string)
| EvOpenWrite (path : string)
| EvWarn (msg : string).

Record world : Type := World {
  heap : gmap loc obj;
  fs : gmap string file;
  trace : list event
}.

(** ** Exceptions and the monad *)

Inductive exn : Type :=
| FileNotFoundError
| NotADirectoryError
| OSError
| JSONDecodeError
| AttributeError
| TypeError
| ValueError
| IndexError
| RuntimeError
| DanglingReference.

Inductive result (A : Type) : Type :=
| Ok (a : A)
| Raise (e : exn).
Arguments Ok {A} a.
Arguments Raise {A} e.

(** A computation runs in a world and leaves a world, also when it
    raises: what was mutated before the exception stays mutated. *)
Definition M (A : Type) : Type := world -> result A * world.

Definition ret {A} (a : A) : M A := fun w => (Ok a, w).

Definition bind {A B} (m : M A) (k : A -> M B) : M B :=
  fun w => match m w with
           | (Ok a, w') => k a w'
           | (Raise e, w') => (Raise e, w')
           end.

Definition raise {A} (e : exn) : M A := fun w => (Raise e, w).

Definition lift {A} (r : result A) : M A := fun w => (r, w).

#[global] Instance exn_eq_dec : EqDecision exn.
Proof. solve_decision. Defined.

(** [try: body except e: handler] *)
Definition try_except {A} (body : M A) (e : exn) (handler : M A) : M A :=
  fun w => match body w with
           | (Raise e', w') =>
               if decide (e' = e) then handler w' else (Raise e', w')
           | r => r
           end.

Declare Scope py_scope.
Delimit Scope py_scope with py.
Notation "x <- c ;; k" := (bind c (fun x => k))
  (at level 100, c at next level, right associativity) : py_scope.
Notation "c ;; k" := (bind c (fun _ => k))
  (at level 100, right associativity) : py_scope.
Local Open Scope py_scope.

Definition when (b : bool) (m : M unit) : M unit :=
  if b then m else ret tt.

(** ** The heap, the files and the warnings *)

Definition get_obj (self : loc) : M obj :=
  fun w => match heap w !! self with
           | Some o => (Ok o, w)
           | None => (Raise DanglingReference, w)
           end.

Definition put_obj (self : loc) (o : obj) : M unit :=
  fun w => (Ok tt, World (<[self := o]> (heap w)) (fs w) (trace w)).

(** A new object lives at a reference no object has yet. *)
Definition alloc (o : obj) : M loc :=
  fun w => let l := fresh (dom (heap w)) in
           (Ok l, World (<[l := o]> (heap w)) (fs w) (trace w)).

(** [self.name] *)
Definition getattr (self : loc) (name : string) : M value :=
  o <- get_obj self ;;
  match attrs o !! name with
  | Some v => ret v
  | None => raise AttributeError
  end.

(** [self.name = v] *)
Definition setattr (self : loc) (name : string) (v : value) : M unit :=
  o <- get_obj self ;;
  put_obj self (Obj (class_name o) (<[name := v]> (attrs o))).

Definition log (e : event) : M unit :=
  fun w => (Ok tt, World (heap w) (fs w) (trace w ++ [e])).

(** [warnings.warn(msg)] *)
Definition warn (msg : string) : M unit := log (EvWarn msg).

(** *** Paths that cannot be opened

    Directories are not part of the world: a name that a path passes
    through is taken for a directory, unless a regular file is there, so
    that of the exceptions below none is missed.  When nothing is at a
    path, [open] does not always answer [FileNotFoundError].  Python
    refuses a path with a NUL character with [ValueError] before it
    asks the system.  The system refuses a path of 4096 bytes or more
    with [OSError] (file name too long); then it walks the path name by
    name, from the left: a name of more than 255 bytes is refused with
    [OSError], and a name that is to be entered and is a regular file
    is refused with [NotADirectoryError].  Only a path that passes all
    this is reported as missing. *)

(** The names of a path, between its ["/"]. *)
Fixpoint components (s : string) : list string :=
  match s with
  | EmptyString => [EmptyString]
  | String c s' =>
      if Ascii.eqb c "/" then EmptyString :: components s'
      else match components s' with
           | [] => [String c EmptyString]
           | name :: names => String c name :: names
           end
  end.

(** Two paths spell one file when they are the same after empty names
    and names ["."] are dropped and a name [".."] takes back the name
    before it, as [os.path.normpath] does: ["./model"], ["model/"] and
    ["data/../model"] spell ["model"].  The names are kept from the last
    to the first. *)
Definition enter (absolute : bool) (entered : list string) (name : string)
  : list string :=
  if String.eqb name "" || String.eqb name "." then entered
  else if String.eqb name ".." then
    match entered with
    | last :: before =>
        if String.eqb last ".." then name :: entered else before
    | [] => if absolute then [] else [name]
    end
  else name :: entered.

Definition spelled (path : string) : bool * list string :=
  let absolute := String.prefix "/" path in
  (absolute, foldl (enter absolute) [] (components path)).

(** A file of [files] is at [path], under some spelling of it. *)
Definition spelled_in (files : gmap string file) (path : string) : bool :=
  existsb (fun entry => bool_decide (spelled (fst entry) = spelled path))
          (map_to_list files).

(** The names that are directories whatever the files are: the root
    (the empty name before a leading ["/"]), ["."] and [".."]. *)
Definition always_directory (name : string) : bool :=
  String.eqb name "" || String.eqb name "." || String.eqb name "..".

Fixpoint resolve (files : gmap string file) (prefix : string)
    (names : list string) : exn :=
  match names with
  | [] => FileNotFoundError
  | name :: rest =>
      if (255 <? String.length name)%nat then OSError
      else match rest with
           | [] => FileNotFoundError
           | _ :: _ =>
               let here := prefix +:+ name in
               if always_directory name then resolve files (here +:+ "/") rest
               else if spelled_in files here then NotADirectoryError
               else resolve files (here +:+ "/") rest
           end
  end.

Definition has_nul (s : string) : bool :=
  existsb (Ascii.eqb Ascii.zero) (list_ascii_of_string s).

(** The exception of [open(path)] when no file is at [path]. *)
Definition open_failure (files : gmap string file) (path : string) : exn :=
  if has_nul path then ValueError
  else if (4096 <=? String.length path)%nat then OSError
  else resolve files "" (components path).

(** [open(path, "r")] and reading what is there. *)
Definition open_read (path : string) : M file :=
  log (EvOpenRead path) ;;
  fun w => match fs w !! path with
           | Some f => (Ok f, w)
           | None => (Raise (open_failure (fs w) path), w)
           end.

(** [open(path, "w")] creates the file or truncates it, in a directory
    that exists: the module itself writes into the current directory
    only, every fit persists with [save_pretrained(".")]. *)
Definition open_write (path : string) : M unit :=
  log (EvOpenWrite path) ;;
  fun w => (Ok tt, World (heap w) (<[path := Undecodable]> (fs w)) (trace w)).

Definition write_file (path : string) (f : file) : M unit :=
  fun w => (Ok tt, World (heap w) (<[path := f]> (fs w)) (trace w)).

(** ** External libraries

    What the module imports and does not define: the default tokenizer
    of torchtext, the vocabulary torchtext builds from a counter of
    tokens (looked up with [vocab[token]]), the statistics of torch
    along a dimension of a batch, which take the batch as its items
    along the first dimension, and the conversion
    [torch.tensor(x, dtype=torch.long)].  The statistics are called as
    the module calls them, [torch.mean(batch.float(), dim, keep_dim)]
    and [torch.std(batch.float(), dim, keep_dim)], with three
    positional arguments: the third one is [keepdim] for [torch.mean]
    and [unbiased] for [torch.std]. *)
Class Libs : Type := {
  basic_english : string -> list string;
  Vocab : gmap string nat -> string -> Z;
  torch_mean : list value -> Z -> bool -> value;
  torch_std : list value -> Z -> bool -> value;
  torch_tensor_long : value -> result value
}.

(** ** Operations on values *)

(** Truth value of [v], as [if v:] and [not v] take it. *)
Definition truthy (v : value) : result bool :=
  match v with
  | VNone => Ok false
  | VBool b => Ok b
  | VInt n | VLong n => Ok (negb (n =? 0))
  | VStr s => Ok (negb (String.eqb s ""))
  | VSeq vs => Ok (negb (Nat.eqb (length vs) 0))
  | VTensor [x] | VMatrix [[x]] | VFloat x => Ok (negb (F32.is_zero x))
  | VIds [n] => Ok (negb (n =? 0))
  | VTensor _ | VMatrix _ | VIds _ => Raise RuntimeError
  | VTokenizer _ | VVocab _ => Ok true
  end.

(** [isinstance(v, tuple) or isinstance(v, list)] *)
Definition is_seq (v : value) : bool :=
  match v with VSeq _ => true | _ => false end.

(** *** Strings

    A Python [str] is a sequence of code points; it is kept here as its
    UTF-8 bytes, which is what a tokenizer is given and what a
    vocabulary is keyed by.  Indexing, slicing, iterating and [len]
    count code points, so they go through [code_points]: a byte
    [10xxxxxx] continues the code point that the byte before it is
    part of. *)
Definition is_continuation (c : ascii) : bool :=
  let n := N_of_ascii c in ((128 <=? n) && (n <? 192))%N.

(** The continuation bytes [s] begins with, and the code points that
    follow them. *)
Fixpoint split_utf8 (s : string) : string * list string :=
  match s with
  | EmptyString => (EmptyString, [])
  | String c s' =>
      let '(continuation, points) := split_utf8 s' in
      if is_continuation c then (String c continuation, points)
      else (EmptyString, String c continuation :: points)
  end.

Definition code_points (s : string) : list string :=
  match split_utf8 s with
  | (EmptyString, points) => points
  | (stray, points) => stray :: points
  end.

Definition str_join (points : list string) : string :=
  fold_right String.append EmptyString points.

(** [v[i]] for an index [i >= 0]. *)
Definition getitem (v : value) (i : nat) : result value :=
  match v with
  | VSeq vs =>
      match vs !! i with Some x => Ok x | None => Raise IndexError end
  | VStr s =>
      match code_points s !! i with
      | Some c => Ok (VStr c)
      | None => Raise IndexError
      end
  | VIds ids =>
      match ids !! i with Some n => Ok (VLong n) | None => Raise IndexError end
  | VTensor xs =>
      match xs !! i with Some x => Ok (VFloat x) | None => Raise IndexError end
  | VMatrix rows =>
      match rows !! i with Some row => Ok (VTensor row) | None => Raise IndexError end
  | VFloat _ | VLong _ => Raise IndexError
  | _ => Raise TypeError
  end.

(** The items [for x in v] and an unpacking [(a, b, ...) = v] go
    through. *)
Definition iter_value (v : value) : result (list value) :=
  match v with
  | VSeq vs => Ok vs
  | VStr s => Ok (map VStr (code_points s))
  | VIds ids => Ok (map VLong ids)
  | VTensor xs => Ok (map VFloat xs)
  | VMatrix rows => Ok (map VTensor rows)
  | _ => Raise TypeError
  end.

(** [(x1, ..., xn) = v] *)
Definition unpack (n : nat) (v : value) : result (list value) :=
  match iter_value v with
  | Ok vs => if Nat.eqb (length vs) n then Ok vs else Raise ValueError
  | Raise e => Raise e
  end.

(** Arithmetic of int64 tensors: the result modulo 2^64, in
    [-2^63, 2^63). *)
Definition wrap64 (z : Z) : Z := (z + 2 ^ 63) mod 2 ^ 64 - 2 ^ 63.

(** An integer where Python wants one: an [int], a [bool], or a scalar
    integer tensor through [__index__]. *)
Definition as_int (v : value) : result Z :=
  match v with
  | VInt n | VLong n => Ok n
  | VBool b => Ok (if b then 1 else 0)
  | _ => Raise TypeError
  end.

(** [s[:n]] on a string: its first [n] code points, or all but its
    last [-n] when [n] is negative. *)
Definition str_slice_to (s : string) (n : Z) : string :=
  let points := code_points s in
  let len := Z.of_nat (length points) in
  str_join (take (Z.to_nat (if n <? 0 then len + n else n)) points).

(** [v[:n]]; the stages slice strings only. *)
Definition slice_to (v n : value) : result value :=
  match v, as_int n with
  | VStr s, Ok k => Ok (VStr (str_slice_to s k))
  | _, _ => Raise TypeError
  end.

(** [tokenizer(text)]: the tokenizers take a string. *)
Definition call_tokenizer (tokenizer text : value) : result (list string) :=
  match tokenizer, text with
  | VTokenizer tok, VStr s => Ok (tok s)
  | _, _ => Raise TypeError
  end.

(** [vocabulary[token]] *)
Definition vocab_getitem (vocabulary : value) (token : string) : result Z :=
  match vocabulary with
  | VVocab stoi => Ok (stoi token)
  | _ => Raise TypeError
  end.

(** *** Float tensors *)

(** An element-wise operation of two one-dimensional tensors, with the
    broadcasting of torch: equal sizes, or one of the sizes is 1. *)
Definition broadcast2 (f : F32.t -> F32.t -> F32.t) (xs ys : list F32.t)
  : result (list F32.t) :=
  if Nat.eqb (length xs) (length ys) then Ok (zip_with f xs ys)
  else match xs, ys with
       | [x], _ => Ok (map (f x) ys)
       | _, [y] => Ok (map (fun x => f x y) xs)
       | _, _ => Raise RuntimeError
       end.

(** The results of a list, or the first exception in it. *)
Fixpoint sequence {A} (rs : list (result A)) : result (list A) :=
  match rs with
  | [] => Ok []
  | Ok a :: rs' =>
      match sequence rs' with Ok l => Ok (a :: l) | Raise e => Raise e end
  | Raise e :: _ => Raise e
  end.

(** The same along the rows of two matrices; the rows that meet are
    combined with [broadcast2]. *)
Definition broadcast_rows (f : F32.t -> F32.t -> F32.t)
    (a b : list (list F32.t)) : result (list (list F32.t)) :=
  if Nat.eqb (length a) (length b) then sequence (zip_with (broadcast2 f) a b)
  else match a, b with
       | [row], _ => sequence (map (broadcast2 f row) b)
       | _, [row] => sequence (map (fun r => broadcast2 f r row) a)
       | _, _ => Raise RuntimeError
       end.

(** An element-wise operation of two float tensors: the shapes are
    aligned at the last dimension, a scalar meets every entry. *)
Definition tensor_op (f : F32.t -> F32.t -> F32.t) (a b : value) : result value :=
  match a, b with
  | VTensor xs, VTensor ys =>
      match broadcast2 f xs ys with
      | Ok zs => Ok (VTensor zs)
      | Raise e => Raise e
      end
  | VMatrix ra, VMatrix rb =>
      match broadcast_rows f ra rb with
      | Ok rows => Ok (VMatrix rows)
      | Raise e => Raise e
      end
  | VTensor xs, VMatrix rb =>
      match broadcast_rows f [xs] rb with
      | Ok rows => Ok (VMatrix rows)
      | Raise e => Raise e
      end
  | VMatrix ra, VTensor ys =>
      match broadcast_rows f ra [ys] with
      | Ok rows => Ok (VMatrix rows)
      | Raise e => Raise e
      end
  | VFloat x, VFloat y => Ok (VFloat (f x y))
  | VFloat x, VTensor ys => Ok (VTensor (map (f x) ys))
  | VTensor xs, VFloat y => Ok (VTensor (map (fun x => f x y) xs))
  | VFloat x, VMatrix rb => Ok (VMatrix (map (map (f x)) rb))
  | VMatrix ra, VFloat y => Ok (VMatrix (map (map (fun x => f x y)) ra))
  | _, _ => Raise TypeError
  end.

(** [a - b] and [a / b] on float tensors; operands of another dtype,
    which torch would convert first, are left out. *)
Definition tensor_sub (a b : value) : result value := tensor_op F32.sub a b.

Definition tensor_div (a b : value) : result value := tensor_op F32.div a b.

(** [bool(t)] for a tensor of booleans, given as its entries: a tensor
    of one entry is that entry, any other has no truth value. *)
Definition bool_of_entries (bs : list bool) : result bool :=
  match bs with
  | [b] => Ok b
  | _ => Raise RuntimeError
  end.

(** The builtin [all]: the truth value of the items, one after the
    other, up to the first false one. *)
Fixpoint py_all {A} (truth : A -> result bool) (items : list A) : result bool :=
  match items with
  | [] => Ok true
  | x :: rest =>
      match truth x with
      | Ok true => py_all truth rest
      | Ok false => Ok false
      | Raise e => Raise e
      end
  end.

(** [all(t > 0)]: the comparison is element-wise and [all] iterates over
    the first dimension of its result.  The items of a vector are
    scalars; those of a matrix are its rows, each a tensor of which
    [all] takes the truth value; a scalar cannot be iterated over. *)
Definition all_gt0 (t : value) : result bool :=
  match t with
  | VTensor xs => Ok (forallb F32.gt0 xs)
  | VMatrix rows => py_all (fun row => bool_of_entries (map F32.gt0 row)) rows
  | _ => Raise TypeError
  end.

(** [t + 1e-7] *)
Definition add_eps (t : value) : result value :=
  match t with
  | VTensor xs => Ok (VTensor (map (fun x => F32.add x F32.eps) xs))
  | VMatrix rows =>
      Ok (VMatrix (map (map (fun x => F32.add x F32.eps)) rows))
  | VFloat x => Ok (VFloat (F32.add x F32.eps))
  | _ => Raise TypeError
  end.

(** ** os.path *)

Fixpoint endswith_sep (s : string) : bool :=
  match s with
  | EmptyString => false
  | String c EmptyString => Ascii.eqb c "/"
  | String _ s' => endswith_sep s'
  end.

(** [os.path.join(a, b)] on a POSIX system. *)
Definition os_path_join (a b : string) : string :=
  if String.prefix "/" b then b
  else if String.eqb a "" || endswith_sep a then a +:+ b
  else a +:+ "/" +:+ b.

(** ** class AbstractPreprocessing *)

(** [jsonpickle.encode(self)]: a snapshot of the object as it is now. *)
Definition jsonpickle_encode (self : loc) : M obj := get_obj self.

(** [json.load(infile)] *)
Definition json_load (infile : file) : M obj :=
  match infile with
  | Encoded o => ret o
  | Undecodable => raise JSONDecodeError
  end.

(** [jsonpickle.decode(s)] builds a new object. *)
Definition jsonpickle_decode (whole_class : obj) : M loc := alloc whole_class.

Definition save_pretrained (self : loc) (path : string) : M unit :=
  o <- get_obj self ;;
  let outfile := os_path_join path (class_name o +:+ ".json") in
  open_write outfile ;;
  whole_class <- jsonpickle_encode self ;;
  write_file outfile (Encoded whole_class).

Definition missing_file_warning : string :=
  "The transformation file does not exist; attempting to run the transformation anyway...".

(** The assignment [self = jsonpickle.decode(whole_class)] binds the
    local name [self] of the method to the new object; the name goes out
    of scope when the method returns. *)
Definition load_pretrained (self : loc) (path : string) : M unit :=
  o <- get_obj self ;;
  try_except
    (infile <- open_read (os_path_join path (class_name o +:+ ".json")) ;;
     whole_class <- json_load infile ;;
     decoded <- jsonpickle_decode whole_class ;;
     let self := decoded in
     ret tt)
    FileNotFoundError
    (warn missing_file_warning).

(** [if not self.is_fitted: self.load_pretrained(".")], the first
    statement of the transforms that need fitted state. *)
Definition load_unless_fitted (self : loc) : M unit :=
  is_fitted <- getattr self "is_fitted" ;;
  b <- lift (truthy is_fitted) ;;
  when (negb b) (load_pretrained self ".").

(** ** class Normalisation *)

Module Normalisation.

Definition name : string := "Normalisation".

(** What [fit_to_data] receives: a tensor whose first dimension is the
    batch, given as its items, or a dataset of (tensor, label) items
    that a [DataLoader] stacks into one batch. *)
Inductive data : Type :=
| Batch (items : list value)
| Dataset (items : list (value * value)).

Definition __init__ : M loc :=
  alloc (Obj name {[ "is_fitted" := VBool false ]}).

(** [next(iter(DataLoader(data, batch_size=len(data))))[0]]; a
    [DataLoader] refuses a batch size of 0. *)
Definition materialise (d : data) : M (list value) :=
  match d with
  | Batch items => ret items
  | Dataset [] => raise ValueError
  | Dataset items => ret (map fst items)
  end.

Definition _mean `{Libs} (d : data) (dim : Z) (keep_dim : bool) : M value :=
  items <- materialise d ;; ret (torch_mean items dim keep_dim).

Definition _stddev `{Libs} (d : data) (dim : Z) (keep_dim : bool) : M value :=
  items <- materialise d ;; ret (torch_std items dim keep_dim).

Definition fit_to_data `{Libs} (self : loc) (d : data) : M unit :=
  m <- _mean d 0 false ;;
  setattr self "mean" m ;;
  s <- _stddev d 0 false ;;
  setattr self "stddev" s ;;
  setattr self "is_fitted" (VBool true) ;;
  save_pretrained self ".".

Definition zeros_warning : string :=
  "The standard deviation contains zeros! Adding 1e-7".

Definition transform (self : loc) (datum : value) : M value :=
  load_unless_fitted self ;;
  stddev <- getattr self "stddev" ;;
  positive <- lift (all_gt0 stddev) ;;
  when (negb positive)
    (warn zeros_warning ;;
     stddev <- getattr self "stddev" ;;
     patched <- lift (add_eps stddev) ;;
     setattr self "stddev" patched) ;;
  mean <- getattr self "mean" ;;
  centred <- lift (tensor_sub datum mean) ;;
  stddev <- getattr self "stddev" ;;
  lift (tensor_div centred stddev).

End Normalisation.

(** ** Shared pieces of the text stages *)

(** [for x in xs: acc = body acc x] with a local variable [acc]. *)
Fixpoint fold_m {A S} (body : S -> A -> M S) (xs : list A) (acc : S) : M S :=
  match xs with
  | [] => ret acc
  | x :: xs' => acc' <- body acc x ;; fold_m body xs' acc'
  end.

(** [[f x for x in xs]] *)
Fixpoint map_m {A B} (f : A -> M B) (xs : list A) : M (list B) :=
  match xs with
  | [] => ret []
  | x :: xs' => y <- f x ;; ys <- map_m f xs' ;; ret (y :: ys)
  end.

(** [collections.Counter] and its [update] with a list of tokens. *)
Definition Counter : Type := gmap string nat.

Definition counter_update (counter : Counter) (tokens : list string) : Counter :=
  foldl (fun c token => <[token := S (default 0%nat (c !! token))]> c)
        counter tokens.

(** The tokenizer a constructor stores: the one it is given, or
    [get_tokenizer('basic_english')] when it is given [None]. *)
Definition tokenizer_or_default `{Libs} (tokenizer : value) : value :=
  match tokenizer with
  | VNone => VTokenizer basic_english
  | _ => tokenizer
  end.

(** [self.<name>(text)] for a tokenizer attribute. *)
Definition tokenize (self : loc) (name : string) (text : value)
  : M (list string) :=
  tokenizer <- getattr self name ;;
  lift (call_tokenizer tokenizer text).

(** [self.<name>(arg)] where the argument is still to be evaluated:
    Python looks the tokenizer up first. *)
Definition tokenize_arg (self : loc) (name : string) (arg : M value)
  : M (list string) :=
  tokenizer <- getattr self name ;;
  text <- arg ;;
  lift (call_tokenizer tokenizer text).

(** [if isinstance(x, tuple) or isinstance(x, list): x = x[0]] *)
Definition unwrap (x : value) : M value :=
  if is_seq x then lift (getitem x 0) else ret x.

(** [counter.update(self.<tokenizer>(text))], returning the counter as
    updated. *)
Definition update_counter (self : loc) (tokenizer : string) (counter : Counter)
    (text : value) : M Counter :=
  tokens <- tokenize self tokenizer text ;;
  ret (counter_update counter tokens).

(** [self.MAX_LENGTH = max(self.MAX_LENGTH, len(self.<tokenizer>(text)))] *)
Definition update_max_length (self : loc) (tokenizer : string) (text : value)
  : M unit :=
  max_length <- getattr self "MAX_LENGTH" ;;
  tokens <- tokenize self tokenizer text ;;
  m <- lift (as_int max_length) ;;
  setattr self "MAX_LENGTH" (VInt (Z.max m (Z.of_nat (length tokens)))).

(** [if self.<name> is None: self.<name> = Vocab(counter)] *)
Definition build_vocabulary `{Libs} (self : loc) (name : string)
    (counter : Counter) : M unit :=
  vocabulary <- getattr self name ;;
  match vocabulary with
  | VNone => setattr self name (VVocab (Vocab counter))
  | _ => ret tt
  end.

(** [lambda x: [self.<vocabulary>[token] for token in self.<tokenizer>(x)]] *)
Definition text_pipeline_of (self : loc) (tokenizer vocabulary : string)
    (x : value) : M (list Z) :=
  tokens <- tokenize self tokenizer x ;;
  map_m (fun token =>
           v <- getattr self vocabulary ;;
           lift (vocab_getitem v token))
        tokens.

(** [self.<vocabulary>["."]] *)
Definition pad_item_of (self : loc) (vocabulary : string) : M Z :=
  v <- getattr self vocabulary ;;
  lift (vocab_getitem v ".").

(** The whole number a single precision tensor holds for the int64
    [n]: [n] rounded to 24 significant bits, to the nearest, ties to
    the even mantissa.  Up to 2^24 in magnitude nothing is rounded. *)
Definition float32_of_int (n : Z) : Z :=
  let a := Z.abs n in
  let dropped := Z.log2 a - 23 in
  if dropped <=? 0 then n
  else
    let q := Z.shiftr a dropped in
    let r := Z.land a (Z.ones dropped) in
    let half := Z.shiftl 1 (dropped - 1) in
    let q' := if (half <? r) || ((r =? half) && Z.odd q) then q + 1 else q in
    Z.sgn n * Z.shiftl q' dropped.

(** The whole number a single precision number is, if it is one. *)
Definition float32_whole (x : F32.t) : option Z :=
  match x with
  | S754_zero _ => Some 0
  | S754_finite s m e =>
      let sign := if s then -1 else 1 in
      if 0 <=? e then Some (sign * Zpos m * 2 ^ e)
      else if Zpos m mod 2 ^ (- e) =? 0 then Some (sign * (Zpos m / 2 ^ (- e)))
      else None
  | _ => None
  end.

(** [torch.ones(n)]: a negative size is refused. *)
Definition torch_ones (n : Z) : result (list Z) :=
  if n <? 0 then Raise RuntimeError else Ok (replicate (Z.to_nat n) 1).

(** [torch.cat([processed, pad_item * torch.ones(self.MAX_LENGTH -
    processed.shape[0])])]: [torch.ones] is a single precision tensor,
    so the padding holds [pad_item] as single precision has it, and
    [torch.cat] converts the int64 ids to single precision too. *)
Definition pad_to_max_length (self : loc) (processed : list Z) (pad_item : value)
  : M value :=
  max_length <- getattr self "MAX_LENGTH" ;;
  m <- lift (as_int max_length) ;;
  ones <- lift (torch_ones (m - Z.of_nat (length processed))) ;;
  p <- lift (as_int pad_item) ;;
  ret (VIds (map float32_of_int processed
             ++ map (Z.mul (float32_of_int p)) ones)).

(** ** class PreprocessTextData *)

Module PreprocessTextData.

Definition name : string := "PreprocessTextData".

Definition __init__ `{Libs} (tokenizer vocabulary : value) : M loc :=
  alloc (Obj name {[ "tokenizer" := tokenizer_or_default tokenizer;
                     "vocabulary" := vocabulary;
                     "MAX_LENGTH" := VInt 0;
                     "is_fitted" := VBool false ]}).

Definition fit_to_data `{Libs} (self : loc) (data : list value) : M unit :=
  counter <- fold_m (fun counter item =>
      fields <- lift (unpack 2 item) ;;
      text <- unwrap (nth 1 fields VNone) ;;
      counter <- update_counter self "tokenizer" counter text ;;
      update_max_length self "tokenizer" text ;;
      ret counter)
    data (∅ : Counter) ;;
  build_vocabulary self "vocabulary" counter ;;
  setattr self "is_fitted" (VBool true) ;;
  save_pretrained self ".".

Definition text_pipeline (self : loc) : value -> M (list Z) :=
  text_pipeline_of self "tokenizer" "vocabulary".

Definition transform (self : loc) (datum : value) : M value :=
  load_unless_fitted self ;;
  pad_item <- pad_item_of self "vocabulary" ;;
  _text <- unwrap datum ;;
  processed_text <- text_pipeline self _text ;;
  pad_to_max_length self processed_text (VInt pad_item).

End PreprocessTextData.

(** ** class PreprocessTextLabel *)

Module PreprocessTextLabel.

Definition name : string := "PreprocessTextLabel".

Definition __init__ : M loc := alloc (Obj name ∅).

Definition fit_to_data (self : loc) (dataset : list value) : M unit := ret tt.

(** [lambda x: torch.tensor(x, dtype=torch.long) - 1]: the
    subtraction is that of int64 tensors, which wraps around. *)
Definition label_pipeline `{Libs} (x : value) : M value :=
  t <- lift (torch_tensor_long x) ;;
  match t with
  | VLong n => ret (VLong (wrap64 (n - 1)))
  | VIds ids => ret (VIds (map (fun n => wrap64 (n - 1)) ids))
  | _ => raise TypeError
  end.

Definition transform `{Libs} (self : loc) (datum : value) : M value :=
  _label <- try_except (label_pipeline datum ;; ret datum) TypeError
              (unwrap datum) ;;
  label_pipeline _label.

End PreprocessTextLabel.

(** ** class PreprocessTextTranslation *)

Module PreprocessTextTranslation.

Definition name : string := "PreprocessTextTranslation".

Definition __init__ `{Libs}
    (vocabulary vocabulary_target tokenizer tokenizer_target : value) : M loc :=
  alloc (Obj name {[ "tokenizer" := tokenizer_or_default tokenizer;
                     "tokenizer_target" := tokenizer_or_default tokenizer_target;
                     "vocabulary" := vocabulary;
                     "vocabulary_target" := vocabulary_target;
                     "MAX_LENGTH" := VInt 0;
                     "is_fitted" := VBool false ]}).

(** [self.MAX_LENGTH = max(self.MAX_LENGTH, len(self.<tokenizer>(text[i])))] *)
Definition update_max_length_item (self : loc) (tokenizer : string)
    (text : value) (i : nat) : M unit :=
  max_length <- getattr self "MAX_LENGTH" ;;
  tokens <- tokenize_arg self tokenizer (lift (getitem text i)) ;;
  m <- lift (as_int max_length) ;;
  setattr self "MAX_LENGTH" (VInt (Z.max m (Z.of_nat (length tokens)))).

Definition fit_to_data `{Libs} (self : loc) (data : list value) : M unit :=
  counters <- fold_m (fun '(counter, counter_target) text =>
      tokens <- tokenize_arg self "tokenizer" (lift (getitem text 0)) ;;
      let counter := counter_update counter tokens in
      tokens_target <-
        tokenize_arg self "tokenizer_target" (lift (getitem text 1)) ;;
      let counter_target := counter_update counter_target tokens_target in
      update_max_length_item self "tokenizer" text 0 ;;
      update_max_length_item self "tokenizer_target" text 1 ;;
      ret (counter, counter_target))
    data ((∅ : Counter), (∅ : Counter)) ;;
  build_vocabulary self "vocabulary" (fst counters) ;;
  build_vocabulary self "vocabulary_target" (snd counters) ;;
  setattr self "is_fitted" (VBool true) ;;
  save_pretrained self ".".

Definition text_pipeline (self : loc) : value -> M (list Z) :=
  text_pipeline_of self "tokenizer" "vocabulary".

(** Defined by [transform] and used nowhere in it. *)
Definition text_pipeline_target (self : loc) : value -> M (list Z) :=
  text_pipeline_of self "tokenizer_target" "vocabulary_target".

Definition transform (self : loc) (datum : value) : M value :=
  load_unless_fitted self ;;
  pad_item <- pad_item_of self "vocabulary" ;;
  pad_item_target <- pad_item_of self "vocabulary_target" ;;
  source <- lift (getitem datum 0) ;;
  processed_text <- text_pipeline self source ;;
  target <- lift (getitem datum 1) ;;
  processed_text_target <- text_pipeline self target ;;
  out <- pad_to_max_length self processed_text (VInt pad_item) ;;
  out_target <-
    pad_to_max_length self processed_text_target (VInt pad_item_target) ;;
  ret (VSeq [out; out_target]).

End PreprocessTextTranslation.

(** ** class PreprocessTextQA *)

Module PreprocessTextQA.

Definition name : string := "PreprocessTextQA".

Definition __init__ `{Libs} (vocabulary tokenizer : value) : M loc :=
  alloc (Obj name {[ "tokenizer" := tokenizer_or_default tokenizer;
                     "vocabulary" := vocabulary;
                     "MAX_LENGTH" := VInt 0;
                     "is_fitted" := VBool false ]}).

Definition fit_to_data `{Libs} (self : loc) (data : list value) : M unit :=
  counter <- fold_m (fun counter item =>
      fields <- lift (unpack 4 item) ;;
      context <- unwrap (nth 0 fields VNone) ;;
      counter <- update_counter self "tokenizer" counter context ;;
      update_max_length self "tokenizer" context ;;
      question <- unwrap (nth 1 fields VNone) ;;
      counter <- update_counter self "tokenizer" counter question ;;
      update_max_length self "tokenizer" question ;;
      ret counter)
    data (∅ : Counter) ;;
  build_vocabulary self "vocabulary" counter ;;
  pad_item <- pad_item_of self "vocabulary" ;;
  setattr self "pad_item" (VInt pad_item) ;;
  setattr self "is_fitted" (VBool false) ;;
  save_pretrained self ".".

Definition text_pipeline (self : loc) : value -> M (list Z) :=
  text_pipeline_of self "tokenizer" "vocabulary".

Definition transform (self : loc) (datum : value) : M value :=
  load_unless_fitted self ;;
  context <- lift (getitem datum 0) ;;
  processed_context <- text_pipeline self context ;;
  pad_item <- getattr self "pad_item" ;;
  out_context <- pad_to_max_length self processed_context pad_item ;;
  question <- lift (getitem datum 1) ;;
  processed_question <- text_pipeline self question ;;
  pad_item <- getattr self "pad_item" ;;
  out_question <- pad_to_max_length self processed_question pad_item ;;
  ret (VSeq [out_context; out_question]).

End PreprocessTextQA.

(** ** class PreprocessTextQATarget *)

Module PreprocessTextQATarget.

Definition name : string := "PreprocessTextQATarget".

Definition __init__ `{Libs} (tokenizer : value) : M loc :=
  alloc (Obj name {[ "tokenizer" := tokenizer_or_default tokenizer;
                     "MAX_LENGTH" := VInt 0;
                     "is_fitted" := VBool false ]}).

Definition fit_to_data (self : loc) (data : list value) : M unit := ret tt.

Definition transform (self : loc) (datum : value) : M value :=
  positions <- lift (getitem datum 3) ;;
  pos_init_char <- lift (getitem positions 0) ;;
  tokens <- tokenize_arg self "tokenizer"
              (context <- lift (getitem datum 0) ;;
               lift (slice_to context pos_init_char)) ;;
  let pos_init := Z.of_nat (length tokens) in
  answer_tokens <- tokenize_arg self "tokenizer"
                     (answers <- lift (getitem datum 2) ;;
                      lift (getitem answers 0)) ;;
  let pos_end := pos_init + Z.of_nat (length answer_tokens) in
  ret (VSeq [VLong pos_init; VLong pos_end]).

End PreprocessTextQATarget.

(** ** class PreprocessingPipeline *)

Module PreprocessingPipeline.

(** [list_of_cls] pairs each stage, held by reference, with the dataset
    class that re-wraps the data after the stage is fitted.  The stages
    of a pipeline are any objects with the two methods, so the methods
    of the pipeline take the dispatch as an argument. *)
Record t (Marker : Type) : Type := Pipeline {
  list_of_cls : list (loc * Marker)
}.
Arguments Pipeline {Marker} list_of_cls.
Arguments list_of_cls {Marker} _.

Section Methods.

Context {Data Batch Marker : Type}.
Variable stage_fit_to_data : loc -> Data -> M unit.
Variable data_type_class : Marker -> Data -> loc -> M Data.
Variable stage_transform : loc -> Batch -> M Batch.

Definition fit_to_data (self : t Marker) (data : Data) : M unit :=
  fold_m (fun data '(preproc_cls, dt) =>
            stage_fit_to_data preproc_cls data ;;
            data_type_class dt data preproc_cls)
         (list_of_cls self) data ;;
  ret tt.

Definition transform (self : t Marker) (batch : Batch) : M Batch :=
  fold_m (fun batch '(cls, _) => stage_transform cls batch)
         (list_of_cls self) batch.

Definition __len__ (self : t Marker) : nat := length (list_of_cls self).

(** [self.list_of_cls[index]], where a negative index counts from the
    end. *)
Definition __getitem__ (self : t Marker) (index : Z) : result (loc * Marker) :=
  let n := Z.of_nat (length (list_of_cls self)) in
  let i := if index <? 0 then index + n else index in
  if (i <? 0) || (n <=? i) then Raise IndexError
  else match list_of_cls self !! Z.to_nat i with
       | Some p => Ok p
       | None => Raise IndexError
       end.

Definition __iter__ (self : t Marker) : list (loc * Marker) := list_of_cls self.

Definition __add__ (self other : t Marker) : t Marker :=
  Pipeline (list_of_cls self ++ list_of_cls other).

End Methods.

End PreprocessingPipeline.

(** [cls.transform(batch)] for a stage of one of the classes above. *)
Definition stage_transform `{Libs} (cls : loc) (batch : value) : M value :=
  o <- get_obj cls ;;
  let c := class_name o in
  if String.eqb c Normalisation.name then Normalisation.transform cls batch
  else if String.eqb c PreprocessTextData.name
       then PreprocessTextData.transform cls batch
  else if String.eqb c PreprocessTextLabel.name
       then PreprocessTextLabel.transform cls batch
  else if String.eqb c PreprocessTextTranslation.name
       then PreprocessTextTranslation.transform cls batch
  else if String.eqb c PreprocessTextQA.name
       then PreprocessTextQA.transform cls batch
  else if String.eqb c PreprocessTextQATarget.name
       then PreprocessTextQATarget.transform cls batch
  else raise AttributeError.

(** ** Reading a world *)

(** The attribute [name] of the object at [l], if both exist. *)
Definition attr_of (w : world) (l : loc) (name : string) : option value :=
  o ← heap w !! l; attrs o !! name.

(** The object at [l]; an object without class where there is none. *)
Definition object_at (w : world) (l : loc) : obj :=
  default (Obj "" ∅) (heap w !! l).

Definition warnings_of (w : world) : list string :=
  omap (fun e => match e with EvWarn m => Some m | _ => None end) (trace w).

Definition empty_world : world := World ∅ ∅ [].

(** ** Vocabulary of the statements *)

(** The text of a datum, plain or wrapped in a tuple or a list. *)
Definition text_of (datum : value) : option string :=
  match datum with
  | VStr s => Some s
  | VSeq (VStr s :: _) => Some s
  | _ => None
  end.

(** [out] is [n] real entries followed by [pad] up to the length
    [max_length]. *)
Definition padded (n : nat) (max_length pad : Z) (out : list Z) : Prop :=
  Z.of_nat (length out) = max_length /\
  forall i : nat, (n <= i)%nat -> (i < length out)%nat -> out !! i = Some pad.

(** [m] keeps [P]: from a world where [P] holds it leaves a world
    where [P] holds, whether it returns or raises. *)
Definition keeps {A} (P : world -> Prop) (m : M A) : Prop :=
  forall w, P w -> P (snd (m w)).

(** The attribute [name] of [self] has the value [v], or does not exist
    when [v] is [None]. *)
Definition attr_is (self : loc) (name : string) (v : option value)
  : world -> Prop :=
  fun w => attr_of w self name = v.

(** The reload [load_pretrained(".")] of [self] returns: the file it
    opens holds a snapshot, or nothing is there and [open] says so with
    [FileNotFoundError]. *)
Definition snapshot_readable (w : world) (self : loc) : Prop :=
  forall o, heap w !! self = Some o ->
    let file := os_path_join "." (class_name o +:+ ".json") in
    match fs w !! file with
    | Some (Encoded _) => True
    | Some Undecodable => False
    | None => spelled_in (fs w) file = false /\
              open_failure (fs w) file = FileNotFoundError
    end.


(** The id of a token as the padded tensor holds it. *)
Definition float32_id (stoi : string -> Z) (token : string) : Z :=
  float32_of_int (stoi token).

(** The ids of a text and the padding that follows them. *)
Definition pad_ids (ids : list Z) (max_length pad : Z) : list Z :=
  ids ++ replicate (Z.to_nat (max_length - Z.of_nat (length ids))) pad.

(** What [PreprocessTextQA.fit_to_data] leaves besides the tokenizer
    and [MAX_LENGTH]: a vocabulary, and its id of ["."] in the attribute
    [pad_item]. *)
Definition qa_fitted (w : world) (self : loc) (stoi : string -> Z) : Prop :=
  attr_of w self "vocabulary" = Some (VVocab stoi) /\
  attr_of w self "pad_item" = Some (VInt (stoi ".")).

(** [stddev + 1e-7] on the entries. *)
Definition patch (sd : list F32.t) : list F32.t :=
  map (fun x => F32.add x F32.eps) sd.

(** [(datum - mean) / stddev] on the entries. *)
Definition normalise (xs mu sd : list F32.t) : result value :=
  match tensor_sub (VTensor xs) (VTensor mu) with
  | Ok centred => tensor_div centred (VTensor sd)
  | Raise e => Raise e
  end.

(** [MAX_LENGTH] holds an integer. *)
Definition max_length_int (self : loc) : world -> Prop :=
  fun w => exists m, attr_of w self "MAX_LENGTH" = Some (VInt m).

(** The trace begins with the events [t]. *)
Definition trace_from (t : list event) : world -> Prop :=
  fun w => t `prefix_of` trace w.

(** [m] only reads: it leaves the world it runs in, whether it returns
    or raises. *)
Definition readonly {A} (m : M A) : Prop := forall w, snd (m w) = w.

(** The text of a (label, text) sample, plain or wrapped. *)
Definition sample_text (item : value) : option string :=
  match item with
  | VSeq [_; text] => text_of text
  | _ => None
  end.

(** The greatest number of tokens among the texts and [m]. *)
Definition max_tokens (tok : string -> list string) (m : Z) (texts : list string)
  : Z :=
  foldl (fun m s => Z.max m (Z.of_nat (length (tok s)))) m texts.

(** The counter after the tokens of the texts are counted. *)
Definition count_tokens (tok : string -> list string) (counter : Counter)
    (texts : list string) : Counter :=
  foldl (fun c s => counter_update c (tok s)) counter texts.

(** Between [w] and [w'] the stage [self] got [MAX_LENGTH = m] and
    nothing else happened to it, to the files and to the trace. *)
Definition max_length_set (self : loc) (w : world) (m : Z) (w' : world) : Prop :=
  attr_of w' self "MAX_LENGTH" = Some (VInt m) /\
  (forall name, name <> "MAX_LENGTH" ->
                attr_of w' self name = attr_of w self name) /\
  fs w' = fs w /\ trace w' = trace w.

(** The vocabulary a fit leaves: the one that was there, or a new one
    built from the counter where there was [None]. *)
Definition fitted_vocabulary `{Libs} (before : value) (counter : Counter)
  : value :=
  match before with
  | VNone => VVocab (Vocab counter)
  | _ => before
  end.

(** The snapshot persisted for [self] in the current directory is the
    stage as it is in memory. *)
Definition persisted (w : world) (self : loc) : Prop :=
  exists o, heap w !! self = Some o /\
            fs w !! os_path_join "." (class_name o +:+ ".json") = Some (Encoded o).

(** The batch [Normalisation.fit_to_data] takes its statistics of: the
    tensor it is given, or the first components of the items of a
    dataset. *)
Definition batch_of (d : Normalisation.data) : list value :=
  match d with
  | Normalisation.Batch items => items
  | Normalisation.Dataset items => map fst items
  end.

(** The source and the target text of a translation pair. *)
Definition pair_texts (item : value) : option (string * string) :=
  match item with
  | VSeq (VStr a :: VStr b :: _) => Some (a, b)
  | _ => None
  end.

(** The context and the question of a (context, question, answer,
    position) sample, each plain or wrapped. *)
Definition qa_texts (item : value) : option (string * string) :=
  match item with
  | VSeq [context; question; _; _] =>
      match text_of context, text_of question with
      | Some c, Some q => Some (c, q)
      | _, _ => None
      end
  | _ => None
  end.

(** The greatest number of tokens among [m], the first texts of the
    pairs under [tok] and the second texts under [tok_target]. *)
Definition max_pair_tokens (tok tok_target : string -> list string) (m : Z)
    (pairs : list (string * string)) : Z :=
  foldl (fun m '(a, b) =>
           Z.max (Z.max m (Z.of_nat (length (tok a))))
                 (Z.of_nat (length (tok_target b))))
        m pairs.

(** One counter after the tokens of both texts of every pair are
    counted. *)
Definition count_pair_tokens (tok : string -> list string) (counter : Counter)
    (pairs : list (string * string)) : Counter :=
  foldl (fun c '(a, b) => counter_update (counter_update c (tok a)) (tok b))
        counter pairs.

(** ** Concrete libraries and stages for the examples *)

Module Examples.

(** A stand-in for the libraries, enough to run the methods: the
    tokenizer splits at white space and a vocabulary numbers the tokens
    of the counter from 2 on and sends every other token to 0.  The
    statistics, which the module asks for along the first dimension
    only, are those of the batches the examples use, whose rows agree
    wherever they hold numbers: the mean is the first row, and the
    standard deviation (the module passes [False] for [unbiased], so
    one row is enough) is zero where the rows hold a number and NaN
    where a row holds NaN or an infinity. *)
Definition toy_vocab (counter : gmap string nat) (token : string) : Z :=
  match list_find (String.eqb token) (map fst (map_to_list counter)) with
  | Some (i, _) => Z.of_nat i + 2
  | None => 0
  end.

Definition toy_tensor_long (v : value) : result value :=
  match v with
  | VInt n | VLong n => Ok (VLong n)
  | VIds ids => Ok (VIds ids)
  | _ => Raise TypeError
  end.

Definition constant_like (x : F32.t) (item : value) : value :=
  match item with
  | VTensor xs => VTensor (map (fun _ => x) xs)
  | VMatrix rows => VMatrix (map (map (fun _ => x)) rows)
  | VFloat _ => VFloat x
  | v => v
  end.

Definition toy_mean (items : list value) : value := hd VNone items.

Definition zero_or_nan (x : F32.t) : F32.t :=
  if F32.is_finite x then F32.zero else F32.nan.

Definition keep_nan (x y : F32.t) : F32.t :=
  if F32.is_finite y then x else F32.nan.

Definition spread_of (item : value) : value :=
  match item with
  | VTensor xs => VTensor (map zero_or_nan xs)
  | VMatrix rows => VMatrix (map (map zero_or_nan) rows)
  | VFloat x => VFloat (zero_or_nan x)
  | v => v
  end.

Definition spread_with (spread item : value) : value :=
  match spread, item with
  | VTensor xs, VTensor ys => VTensor (zip_with keep_nan xs ys)
  | VMatrix ra, VMatrix rb => VMatrix (zip_with (zip_with keep_nan) ra rb)
  | VFloat x, VFloat y => VFloat (keep_nan x y)
  | v, _ => v
  end.

Definition toy_std (items : list value) : value :=
  match items with
  | [] => VNone
  | item :: rest => foldl spread_with (spread_of item) rest
  end.

#[global] Instance toy_libs : Libs := {
  basic_english := String.words;
  Vocab := toy_vocab;
  torch_mean items _ _ := toy_mean items;
  torch_std items _ _ := toy_std items;
  torch_tensor_long := toy_tensor_long
}.

(** Two vocabularies that disagree on every token. *)
Definition en_vocab (token : string) : Z :=
  if String.eqb token "." then 1
  else if String.eqb token "the" then 2
  else if String.eqb token "cat" then 3
  else 0.

Definition fr_vocab (token : string) : Z :=
  if String.eqb token "." then 11
  else if String.eqb token "le" then 12
  else if String.eqb token "chat" then 13
  else 10.

(** The state of a run: a computation started in the empty world. *)
Definition run {A} (m : M A) : result A * world := m empty_world.

(** Two (label, text) samples; the longer text has four tokens. *)
Definition reviews : list value :=
  [VSeq [VStr "1"; VStr "the cat sat"]; VSeq [VStr "2"; VStr "a dog ran fast"]].

(** A stage fitted on the reviews and saved, then a new stage of the
    same class that loads from the same directory. *)
Definition save_then_load : M (loc * loc) :=
  saved <- PreprocessTextData.__init__ VNone VNone ;;
  PreprocessTextData.fit_to_data saved reviews ;;
  save_pretrained saved "/tmp/model" ;;
  fresh <- PreprocessTextData.__init__ VNone VNone ;;
  load_pretrained fresh "/tmp/model" ;;
  ret (saved, fresh).

(** The counter and the vocabulary of the reviews. *)
Definition reviews_counter : Counter :=
  counter_update (counter_update ∅ (String.words "the cat sat"))
                 (String.words "a dog ran fast").

Definition reviews_vocab : string -> Z := toy_vocab reviews_counter.

(** The world after the reviews are fitted; the stage is at the first
    reference. *)
Definition fitted_reviews : world :=
  snd (run (self <- PreprocessTextData.__init__ VNone VNone ;;
            PreprocessTextData.fit_to_data self reviews)).

(** A translation stage with the two vocabularies, fitted on one pair of
    three tokens each. *)
Definition fitted_translation : world :=
  snd (run (self <- PreprocessTextTranslation.__init__
                      (VVocab en_vocab) (VVocab fr_vocab) VNone VNone ;;
            PreprocessTextTranslation.fit_to_data self
              [VSeq [VStr "the cat ."; VStr "le chat ."]])).

(** A question-answering sample and a stage before and after it is
    fitted on it. *)
Definition squad : list value :=
  [VSeq [VStr "the quick brown fox"; VStr "which fox"; VSeq [VStr "brown"];
         VSeq [VInt 10]]].

Definition new_qa : world :=
  snd (run (PreprocessTextQA.__init__ (VVocab en_vocab) VNone)).

Definition fitted_qa : world :=
  snd (PreprocessTextQA.fit_to_data 1%positive squad new_qa).

Definition new_qa_target : world :=
  snd (run (PreprocessTextQATarget.__init__ VNone)).

(** A text stage built with a vocabulary and never fitted; nothing is
    persisted. *)
Definition unfitted_text : world :=
  snd (run (PreprocessTextData.__init__ VNone (VVocab en_vocab))).

(** A [Normalisation] stage fitted on two rows of zeros, and one fitted
    on two rows of which the first holds a NaN. *)
Definition fitted_constant : world :=
  snd (run (self <- Normalisation.__init__ ;;
            Normalisation.fit_to_data self
              (Normalisation.Batch [VTensor [F32.zero; F32.zero];
                                    VTensor [F32.zero; F32.zero]]))).

(** The same on two images of two rows and two columns, all zeros. *)
Definition fitted_images : world :=
  snd (run (self <- Normalisation.__init__ ;;
            Normalisation.fit_to_data self
              (Normalisation.Batch
                 [VMatrix [[F32.zero; F32.zero]; [F32.zero; F32.zero]];
                  VMatrix [[F32.zero; F32.zero]; [F32.zero; F32.zero]]]))).

Definition fitted_with_nan : world :=
  snd (run (self <- Normalisation.__init__ ;;
            Normalisation.fit_to_data self
              (Normalisation.Batch [VTensor [F32.nan; F32.pow2 0];
                                    VTensor [F32.zero; F32.pow2 0]]))).






(** Stages as their constructors leave them. *)
Definition new_normalisation : world := snd (run Normalisation.__init__).

Definition new_text : world :=
  snd (run (PreprocessTextData.__init__ VNone VNone)).

Definition new_translation : world :=
  snd (run (PreprocessTextTranslation.__init__
              (VVocab en_vocab) (VVocab fr_vocab) VNone VNone)).

(** Two stages of one class: the first was given a vocabulary. *)
Definition two_text_stages : world :=
  snd (run (PreprocessTextData.__init__ VNone (VVocab en_vocab) ;;
            PreprocessTextData.__init__ VNone VNone)).

(** A new [Normalisation] stage beside a snapshot that does not
    decode. *)
Definition corrupt_snapshot : world :=
  World (heap new_normalisation) {[ "./Normalisation.json" := Undecodable ]} [].

(** One translation pair of three tokens on each side. *)
Definition translations : list value :=
  [VSeq [VStr "the cat ."; VStr "le chat ."]].

(** Two rows, 1 and 3 in both dimensions: their mean is 2 and their
    standard deviation, which the module asks for with [unbiased]
    false, is 1.  The stand-in below gives these statistics. *)
Definition two_rows : list value :=
  [VTensor [F32.pow2 0; F32.pow2 0];
   VTensor [F32.add (F32.pow2 0) (F32.pow2 1); F32.add (F32.pow2 0) (F32.pow2 1)]].

Definition two_rows_libs : Libs := {|
  basic_english := String.words;
  Vocab := toy_vocab;
  torch_mean items _ _ := constant_like (F32.pow2 1) (hd VNone items);
  torch_std items _ _ := constant_like (F32.pow2 0) (hd VNone items);
  torch_tensor_long := toy_tensor_long
|}.

Definition fitted_two_rows : world :=
  snd (@Normalisation.fit_to_data two_rows_libs 1%positive
         (Normalisation.Batch two_rows) new_normalisation).

(** Two images of two rows and two columns, all zeros. *)
Definition images : list value :=
  [VMatrix [[F32.zero; F32.zero]; [F32.zero; F32.zero]];
   VMatrix [[F32.zero; F32.zero]; [F32.zero; F32.zero]]].

End Examples.

(** * Properties *)

(** ** Running computations *)

(** Unfolds the operations of the monad and projects the worlds built
    on the way. *)
Ltac mrun :=
  cbv [bind ret raise lift when log warn open_read open_write write_file
       try_except get_obj put_obj alloc json_load jsonpickle_decode
       jsonpickle_encode];
  cbn [heap fs trace fst snd].

Lemma bind_ok {A B} (m : M A) (k : A -> M B) w a w' :
  m w = (Ok a, w') -> bind m k w = k a w'.
Proof. unfold bind. now intros ->. Qed.

Lemma bind_raise {A B} (m : M A) (k : A -> M B) w e w' :
  m w = (Raise e, w') -> bind m k w = (Raise e, w').
Proof. unfold bind. now intros ->. Qed.

(** A bind that succeeds went through both of its parts. *)
Lemma bind_inv_ok {A B} (m : M A) (k : A -> M B) w b w' :
  bind m k w = (Ok b, w') ->
  exists a w1, m w = (Ok a, w1) /\ k a w1 = (Ok b, w').
Proof.
  unfold bind. destruct (m w) as [[a|e] w1]; intros E.
  - eauto.
  - discriminate.
Qed.

Lemma get_obj_ok w self o :
  heap w !! self = Some o -> get_obj self w = (Ok o, w).
Proof. unfold get_obj. now intros ->. Qed.

Lemma getattr_ok w self o name v :
  heap w !! self = Some o -> attrs o !! name = Some v ->
  getattr self name w = (Ok v, w).
Proof.
  intros Ho Hv. unfold getattr. rewrite (bind_ok _ _ _ _ _ (get_obj_ok _ _ _ Ho)).
  now rewrite Hv.
Qed.

Lemma getattr_attr_of w self name v :
  attr_of w self name = Some v -> getattr self name w = (Ok v, w).
Proof.
  unfold attr_of. destruct (heap w !! self) as [o|] eqn:Ho; simpl; [|discriminate].
  intros Hv. eapply getattr_ok; eauto.
Qed.

Lemma setattr_ok w self o name v :
  heap w !! self = Some o ->
  setattr self name v w =
    (Ok tt, World (<[self := Obj (class_name o) (<[name := v]> (attrs o))]> (heap w))
                  (fs w) (trace w)).
Proof.
  intros Ho. unfold setattr. now rewrite (bind_ok _ _ _ _ _ (get_obj_ok _ _ _ Ho)).
Qed.

(** The reference [alloc] picks is new. *)
Lemma fresh_loc_None (h : gmap loc obj) : h !! fresh (dom h) = None.
Proof. apply not_elem_of_dom, is_fresh. Qed.

Lemma fresh_loc_ne (h : gmap loc obj) (l : loc) o :
  h !! l = Some o -> fresh (dom h) <> l.
Proof. intros Hl <-. rewrite fresh_loc_None in Hl. discriminate. Qed.

(** ** [load_pretrained] *)

Arguments os_path_join : simpl never.

(** What [load_pretrained] does in each case: one equation per state of
    the file. *)
Lemma load_pretrained_absent w self o path :
  heap w !! self = Some o ->
  fs w !! os_path_join path (class_name o +:+ ".json") = None ->
  open_failure (fs w) (os_path_join path (class_name o +:+ ".json"))
  = FileNotFoundError ->
  load_pretrained self path w =
    (Ok tt, World (heap w) (fs w)
              (trace w ++ [EvOpenRead (os_path_join path (class_name o +:+ ".json"));
                           EvWarn missing_file_warning])).
Proof.
  intros Ho Hf He. unfold load_pretrained.
  rewrite (bind_ok _ _ _ _ _ (get_obj_ok _ _ _ Ho)).
  mrun. rewrite Hf, He. destruct (decide _); [|done]. mrun.
  now rewrite <- app_assoc.
Qed.


(** Nothing is at the path and [open] raises another exception than
    [FileNotFoundError]: it goes through the [except] clause. *)
Lemma load_pretrained_blocked w self o path :
  heap w !! self = Some o ->
  fs w !! os_path_join path (class_name o +:+ ".json") = None ->
  open_failure (fs w) (os_path_join path (class_name o +:+ ".json"))
  <> FileNotFoundError ->
  load_pretrained self path w =
    (Raise (open_failure (fs w) (os_path_join path (class_name o +:+ ".json"))),
     World (heap w) (fs w)
       (trace w ++ [EvOpenRead (os_path_join path (class_name o +:+ ".json"))])).
Proof.
  intros Ho Hf He. unfold load_pretrained.
  rewrite (bind_ok _ _ _ _ _ (get_obj_ok _ _ _ Ho)).
  mrun. rewrite Hf. now destruct (decide _).
Qed.

Lemma load_pretrained_encoded w self o path snapshot :
  heap w !! self = Some o ->
  fs w !! os_path_join path (class_name o +:+ ".json") = Some (Encoded snapshot) ->
  load_pretrained self path w =
    (Ok tt, World (<[fresh (dom (heap w)) := snapshot]> (heap w)) (fs w)
              (trace w ++ [EvOpenRead (os_path_join path (class_name o +:+ ".json"))])).
Proof.
  intros Ho Hf. unfold load_pretrained.
  rewrite (bind_ok _ _ _ _ _ (get_obj_ok _ _ _ Ho)).
  mrun. now rewrite Hf.
Qed.

Lemma load_pretrained_undecodable w self o path :
  heap w !! self = Some o ->
  fs w !! os_path_join path (class_name o +:+ ".json") = Some Undecodable ->
  load_pretrained self path w =
    (Raise JSONDecodeError,
     World (heap w) (fs w)
       (trace w ++ [EvOpenRead (os_path_join path (class_name o +:+ ".json"))])).
Proof.
  intros Ho Hf. unfold load_pretrained.
  rewrite (bind_ok _ _ _ _ _ (get_obj_ok _ _ _ Ho)).
  mrun. now rewrite Hf.
Qed.

Lemma load_pretrained_dangling w self path :
  heap w !! self = None ->
  load_pretrained self path w = (Raise DanglingReference, w).
Proof.
  intros Ho. unfold load_pretrained, bind, get_obj. now rewrite Ho.
Qed.

(** Whatever the file, the objects that exist stay as they are and the
    files are not written; at most a new object appears. *)
Lemma load_pretrained_heap w self path :
  heap w ⊆ heap (snd (load_pretrained self path w)) /\
  fs (snd (load_pretrained self path w)) = fs w.
Proof.
  destruct (heap w !! self) as [o|] eqn:Ho.
  - destruct (fs w !! os_path_join path (class_name o +:+ ".json")) as [[s|]|] eqn:Hf.
    + rewrite (load_pretrained_encoded _ _ _ _ _ Ho Hf). simpl. split; [|done].
      apply insert_subseteq, fresh_loc_None.
    + rewrite (load_pretrained_undecodable _ _ _ _ Ho Hf). done.
    + destruct (decide (open_failure (fs w)
                          (os_path_join path (class_name o +:+ ".json"))
                        = FileNotFoundError)) as [He|He].
      * rewrite (load_pretrained_absent _ _ _ _ Ho Hf He). done.
      * rewrite (load_pretrained_blocked _ _ _ _ Ho Hf He). done.
  - rewrite (load_pretrained_dangling _ _ _ Ho). done.
Qed.

Lemma load_pretrained_lookup w self path :
  heap (snd (load_pretrained self path w)) !! self = heap w !! self.
Proof.
  destruct (load_pretrained_heap w self path) as [Hsub _].
  destruct (heap w !! self) as [o|] eqn:Ho.
  - eapply lookup_weaken; eauto.
  - rewrite (load_pretrained_dangling _ _ _ Ho). done.
Qed.

Lemma load_pretrained_attr_of w self path name :
  attr_of (snd (load_pretrained self path w)) self name = attr_of w self name.
Proof. unfold attr_of. now rewrite load_pretrained_lookup. Qed.

(** C9: in every case (the file absent, present and decodable, or not
    decodable) [load_pretrained] leaves the object it is called on as it
    was, with all its fields: the decoded snapshot becomes a new object
    that only the local name [self] refers to.  No other object changes
    either, and no file is written. *)
Theorem load_pretrained_leaves_receiver (w : world) (self : loc) (path : string) :
  let w' := snd (load_pretrained self path w) in
  heap w' !! self = heap w !! self /\
  (forall name, attr_of w' self name = attr_of w self name) /\
  heap w ⊆ heap w' /\
  fs w' = fs w.
Proof.
  intros w'. destruct (load_pretrained_heap w self path) as [Hsub Hfs].
  repeat split; try done.
  - apply load_pretrained_lookup.
  - intros name. apply load_pretrained_attr_of.
Qed.

(** ** Reading attributes *)

Lemma attr_of_Some w self name v :
  attr_of w self name = Some v ->
  exists o, heap w !! self = Some o /\ attrs o !! name = Some v.
Proof.
  unfold attr_of. destruct (heap w !! self) as [o|]; simpl; [eauto|discriminate].
Qed.

Lemma attr_of_setattr_eq w self o name v :
  heap w !! self = Some o ->
  attr_of (snd (setattr self name v w)) self name = Some v.
Proof.
  intros Ho. rewrite (setattr_ok _ _ _ _ _ Ho). unfold attr_of. simpl.
  rewrite lookup_insert_eq. simpl. apply lookup_insert_eq.
Qed.

Lemma attr_of_setattr_ne w self name name' v :
  name <> name' ->
  attr_of (snd (setattr self name v w)) self name' = attr_of w self name'.
Proof.
  intros Hne. unfold attr_of. destruct (heap w !! self) as [o|] eqn:Ho.
  - rewrite (setattr_ok _ _ _ _ _ Ho). simpl. rewrite lookup_insert_eq. simpl.
    now apply lookup_insert_ne.
  - unfold setattr, bind, get_obj. rewrite Ho. simpl. now rewrite Ho.
Qed.

(** ** The lazy reload *)

(** The three ways [if not self.is_fitted: self.load_pretrained(".")]
    returns: the stage is fitted and nothing happens; it is not and no
    file is there, which costs a warning; it is not and a snapshot is
    decoded into an object nobody keeps. *)
Lemma load_unless_fitted_fitted w self v :
  attr_of w self "is_fitted" = Some v -> truthy v = Ok true ->
  load_unless_fitted self w = (Ok tt, w).
Proof.
  intros Hv Ht. unfold load_unless_fitted.
  rewrite (bind_ok _ _ _ _ _ (getattr_attr_of _ _ _ _ Hv)).
  unfold lift, bind. now rewrite Ht.
Qed.

Lemma load_unless_fitted_absent w self o v :
  heap w !! self = Some o ->
  attrs o !! "is_fitted" = Some v -> truthy v = Ok false ->
  fs w !! os_path_join "." (class_name o +:+ ".json") = None ->
  open_failure (fs w) (os_path_join "." (class_name o +:+ ".json"))
  = FileNotFoundError ->
  load_unless_fitted self w =
    (Ok tt, World (heap w) (fs w)
              (trace w ++ [EvOpenRead (os_path_join "." (class_name o +:+ ".json"));
                           EvWarn missing_file_warning])).
Proof.
  intros Ho Hv Ht Hf He. unfold load_unless_fitted.
  rewrite (bind_ok _ _ _ _ _ (getattr_ok _ _ _ _ _ Ho Hv)).
  unfold lift, bind at 1. rewrite Ht. simpl.
  now apply load_pretrained_absent.
Qed.

Lemma load_unless_fitted_encoded w self o v snapshot :
  heap w !! self = Some o ->
  attrs o !! "is_fitted" = Some v -> truthy v = Ok false ->
  fs w !! os_path_join "." (class_name o +:+ ".json") = Some (Encoded snapshot) ->
  load_unless_fitted self w =
    (Ok tt, World (<[fresh (dom (heap w)) := snapshot]> (heap w)) (fs w)
              (trace w ++ [EvOpenRead (os_path_join "." (class_name o +:+ ".json"))])).
Proof.
  intros Ho Hv Ht Hf. unfold load_unless_fitted.
  rewrite (bind_ok _ _ _ _ _ (getattr_ok _ _ _ _ _ Ho Hv)).
  unfold lift, bind at 1. rewrite Ht. simpl.
  now apply load_pretrained_encoded.
Qed.

(** When the reload does not raise, the stage goes on with the
    attributes it had. *)
Lemma load_unless_fitted_attrs w self w' :
  load_unless_fitted self w = (Ok tt, w') ->
  forall name, attr_of w' self name = attr_of w self name.
Proof.
  unfold load_unless_fitted. intros E name.
  apply bind_inv_ok in E as (v & w1 & E1 & E).
  assert (w1 = w) as ->.
  { revert E1. unfold getattr, bind, get_obj.
    destruct (heap w !! self); [|discriminate].
    destruct (attrs o !! "is_fitted"); now inversion 1. }
  apply bind_inv_ok in E as (b & w2 & E2 & E).
  unfold lift in E2. inversion E2; subst w2. clear E2.
  destruct b; simpl in E.
  - now inversion E.
  - pose proof (load_pretrained_attr_of w self "." name) as Ha.
    now rewrite E in Ha.
Qed.

(** ** Tokens, ids and padding *)

Lemma unwrap_text datum s w :
  text_of datum = Some s -> unwrap datum w = (Ok (VStr s), w).
Proof.
  destruct datum as [| | | |[|[] ?]| | | | | | |]; simpl; try discriminate;
    now inversion 1.
Qed.

Lemma tokenize_ok w self name tok s :
  attr_of w self name = Some (VTokenizer tok) ->
  tokenize self name (VStr s) w = (Ok (tok s), w).
Proof.
  intros Ht. unfold tokenize.
  now rewrite (bind_ok _ _ _ _ _ (getattr_attr_of _ _ _ _ Ht)).
Qed.

Lemma tokenize_arg_ok w self name tok arg s :
  attr_of w self name = Some (VTokenizer tok) ->
  arg w = (Ok (VStr s), w) ->
  tokenize_arg self name arg w = (Ok (tok s), w).
Proof.
  intros Ht Ha. unfold tokenize_arg.
  rewrite (bind_ok _ _ _ _ _ (getattr_attr_of _ _ _ _ Ht)).
  now rewrite (bind_ok _ _ _ _ _ Ha).
Qed.

Lemma map_m_vocab w self vocabulary stoi tokens :
  attr_of w self vocabulary = Some (VVocab stoi) ->
  map_m (fun token => v <- getattr self vocabulary ;; lift (vocab_getitem v token))
        tokens w = (Ok (map stoi tokens), w).
Proof.
  intros Hv. induction tokens as [|token tokens IH]; simpl; [done|].
  erewrite bind_ok.
  2:{ rewrite (bind_ok _ _ _ _ _ (getattr_attr_of _ _ _ _ Hv)). reflexivity. }
  now rewrite (bind_ok _ _ _ _ _ IH).
Qed.

Lemma text_pipeline_of_ok w self tokenizer vocabulary tok stoi s :
  attr_of w self tokenizer = Some (VTokenizer tok) ->
  attr_of w self vocabulary = Some (VVocab stoi) ->
  text_pipeline_of self tokenizer vocabulary (VStr s) w
  = (Ok (map stoi (tok s)), w).
Proof.
  intros Ht Hv. unfold text_pipeline_of.
  rewrite (bind_ok _ _ _ _ _ (tokenize_ok _ _ _ _ _ Ht)).
  now apply map_m_vocab.
Qed.

Lemma pad_item_of_ok w self vocabulary stoi :
  attr_of w self vocabulary = Some (VVocab stoi) ->
  pad_item_of self vocabulary w = (Ok (stoi "."), w).
Proof.
  intros Hv. unfold pad_item_of.
  now rewrite (bind_ok _ _ _ _ _ (getattr_attr_of _ _ _ _ Hv)).
Qed.


(** [float32_of_int] against the rounding of [SpecFloat], at whole
    numbers that are kept, that are rounded down, that are rounded up
    and that lie half way, of both signs and up to the ends of the
    int64 range. *)
Lemma float32_of_int_rounds :
  Forall (fun n =>
            float32_whole (binary_normalize F32.prec F32.emax n 0 false)
            = Some (float32_of_int n))
    [0; 1; -7; 8388607; 16777215; 16777216; 16777217; 16777218; 16777219;
     -16777217; -16777219; 33554434; 33554438; 2 ^ 40 + 2 ^ 16;
     2 ^ 40 + 2 ^ 16 + 1; 2 ^ 40 + 3 * 2 ^ 16; 2 ^ 53 + 1;
     2 ^ 62 + 2 ^ 38; 2 ^ 63 - 1; - 2 ^ 63].
Proof. repeat constructor. Qed.

(** Slicing counts code points, not bytes: the first five characters
    of a text whose fourth character takes two bytes. *)
Lemma str_slice_to_code_points :
  str_slice_to "café au lait" 5 = "café " /\
  String.length "café " = 6%nat /\
  length (code_points "café au lait") = 12%nat /\
  getitem (VStr "café") 3 = Ok (VStr "é") /\
  str_slice_to "café au lait" (-8) = "café".
Proof. split_and!; reflexivity. Qed.

Lemma scale_ones (p : Z) (k : nat) : map (Z.mul p) (replicate k 1) = replicate k p.
Proof. induction k as [|k IH]; simpl; [done|]. now rewrite IH, Z.mul_1_r. Qed.

Lemma pad_to_max_length_ok w self ids pad_item p m :
  attr_of w self "MAX_LENGTH" = Some (VInt m) ->
  as_int pad_item = Ok p ->
  Z.of_nat (length ids) <= m ->
  pad_to_max_length self ids pad_item w
  = (Ok (VIds (pad_ids (map float32_of_int ids) m (float32_of_int p))), w).
Proof.
  intros Hm Hp Hle. unfold pad_to_max_length.
  rewrite (bind_ok _ _ _ _ _ (getattr_attr_of _ _ _ _ Hm)).
  unfold lift, bind, torch_ones, ret. simpl.
  destruct (Z.ltb_spec (m - Z.of_nat (length ids)) 0) as [Hlt|_]; [lia|].
  rewrite Hp, scale_ones. unfold pad_ids. now rewrite length_map.
Qed.

(** A sequence too long for [MAX_LENGTH] asks [torch.ones] for a
    negative size. *)
Lemma pad_to_max_length_too_long w self ids pad_item m :
  attr_of w self "MAX_LENGTH" = Some (VInt m) ->
  m < Z.of_nat (length ids) ->
  pad_to_max_length self ids pad_item w = (Raise RuntimeError, w).
Proof.
  intros Hm Hlt. unfold pad_to_max_length.
  rewrite (bind_ok _ _ _ _ _ (getattr_attr_of _ _ _ _ Hm)).
  unfold lift, bind, torch_ones. simpl.
  destruct (Z.ltb_spec (m - Z.of_nat (length ids)) 0) as [_|Hge]; [done|lia].
Qed.

Lemma padded_app (ids : list Z) (m pad : Z) :
  Z.of_nat (length ids) <= m ->
  padded (length ids) m pad (pad_ids ids m pad).
Proof.
  intros Hle. unfold pad_ids. split.
  - rewrite length_app, length_replicate. lia.
  - intros i Hi Hlt. rewrite lookup_app_r by lia.
    apply lookup_replicate_2. rewrite length_app, length_replicate in Hlt. lia.
Qed.

(** ** What a computation keeps *)

Section Keeps.

Context (P : world -> Prop).

Lemma keeps_ret {A} (a : A) : keeps P (ret a).
Proof. now intros w. Qed.

Lemma keeps_raise {A} e : keeps P (@raise A e).
Proof. now intros w. Qed.

Lemma keeps_lift {A} (r : result A) : keeps P (lift r).
Proof. now intros w. Qed.

Lemma keeps_bind {A B} (m : M A) (k : A -> M B) :
  keeps P m -> (forall a, keeps P (k a)) -> keeps P (bind m k).
Proof.
  intros Hm Hk w Hw. unfold bind. specialize (Hm w Hw).
  destruct (m w) as [[a|e] w1]; simpl in *; [now apply Hk|done].
Qed.

Lemma keeps_when b (m : M unit) : keeps P m -> keeps P (when b m).
Proof. destruct b; simpl; [done|]. intros _. apply keeps_ret. Qed.

Lemma keeps_try_except {A} (body handler : M A) e :
  keeps P body -> keeps P handler -> keeps P (try_except body e handler).
Proof.
  intros Hb Hh w Hw. unfold try_except. specialize (Hb w Hw).
  destruct (body w) as [[a|e'] w1]; simpl in *; [done|].
  destruct (decide (e' = e)); [now apply Hh|done].
Qed.

Lemma keeps_fold_m {A S} (body : S -> A -> M S) xs acc :
  (forall acc x, keeps P (body acc x)) -> keeps P (fold_m body xs acc).
Proof.
  intros Hb. revert acc. induction xs as [|x xs IH]; intros acc; simpl.
  - apply keeps_ret.
  - apply keeps_bind; [apply Hb|]. intros acc'. apply IH.
Qed.

Lemma keeps_map_m {A B} (f : A -> M B) xs :
  (forall x, keeps P (f x)) -> keeps P (map_m f xs).
Proof.
  intros Hf. induction xs as [|x xs IH]; simpl.
  - apply keeps_ret.
  - apply keeps_bind; [apply Hf|]. intros y.
    apply keeps_bind; [apply IH|]. intros ys. apply keeps_ret.
Qed.

End Keeps.

(** A property is stable when it survives every step that leaves the
    heap alone and at most extends the trace: reading, logging, writing
    files. *)
Definition stable (P : world -> Prop) : Prop :=
  forall w w', heap w' = heap w -> trace w `prefix_of` trace w' -> P w -> P w'.

Lemma attr_is_stable self name v : stable (attr_is self name v).
Proof. intros w w' Hh _. unfold attr_is, attr_of. now rewrite Hh. Qed.

Lemma trace_from_stable t : stable (trace_from t).
Proof. intros w w' _ Ht Hw. unfold trace_from in *. by etrans. Qed.

Section KeepsStable.

Context (P : world -> Prop) (HP : stable P).
#[local] Set Default Proof Using "P HP".

Lemma keeps_get_obj self : keeps P (get_obj self).
Proof. intros w Hw. unfold get_obj. now destruct (heap w !! self). Qed.

Lemma keeps_getattr self name : keeps P (getattr self name).
Proof.
  apply keeps_bind; [apply keeps_get_obj|]. intros o.
  destruct (attrs o !! name); [apply keeps_ret|apply keeps_raise].
Qed.

Lemma keeps_log e : keeps P (log e).
Proof. intros w Hw. apply (HP w); [done| |done]. by apply prefix_app_r. Qed.

Lemma keeps_open_read path : keeps P (open_read path).
Proof.
  apply keeps_bind; [apply keeps_log|]. intros _ w Hw.
  now destruct (fs w !! path).
Qed.

Lemma keeps_open_write path : keeps P (open_write path).
Proof.
  apply keeps_bind; [apply keeps_log|]. intros _ w Hw. now apply (HP w).
Qed.

Lemma keeps_write_file path f : keeps P (write_file path f).
Proof. intros w Hw. now apply (HP w). Qed.

Lemma keeps_save_pretrained self path : keeps P (save_pretrained self path).
Proof.
  apply keeps_bind; [apply keeps_get_obj|]. intros o.
  apply keeps_bind; [apply keeps_open_write|]. intros _.
  apply keeps_bind; [apply keeps_get_obj|]. intros o'.
  apply keeps_write_file.
Qed.

Lemma keeps_tokenize self name text : keeps P (tokenize self name text).
Proof.
  apply keeps_bind; [apply keeps_getattr|]. intros t. apply keeps_lift.
Qed.

Lemma keeps_text_pipeline_of self tokenizer vocabulary x :
  keeps P (text_pipeline_of self tokenizer vocabulary x).
Proof.
  apply keeps_bind; [apply keeps_tokenize|]. intros tokens.
  apply keeps_map_m. intros token.
  apply keeps_bind; [apply keeps_getattr|]. intros v. apply keeps_lift.
Qed.

Lemma keeps_pad_item_of self vocabulary : keeps P (pad_item_of self vocabulary).
Proof.
  apply keeps_bind; [apply keeps_getattr|]. intros v. apply keeps_lift.
Qed.

Lemma keeps_pad_to_max_length self processed pad_item :
  keeps P (pad_to_max_length self processed pad_item).
Proof.
  apply keeps_bind; [apply keeps_getattr|]. intros v.
  apply keeps_bind; [apply keeps_lift|]. intros m.
  apply keeps_bind; [apply keeps_lift|]. intros ones.
  apply keeps_bind; [apply keeps_lift|]. intros p. apply keeps_ret.
Qed.

Lemma keeps_unwrap x : keeps P (unwrap x).
Proof. unfold unwrap. destruct (is_seq x); [apply keeps_lift|apply keeps_ret]. Qed.

Lemma keeps_update_counter self tokenizer counter text :
  keeps P (update_counter self tokenizer counter text).
Proof.
  apply keeps_bind; [apply keeps_tokenize|]. intros tokens. apply keeps_ret.
Qed.

End KeepsStable.

Lemma keeps_setattr_ne self name name' v v' :
  name <> name' -> keeps (attr_is self name' v') (setattr self name v).
Proof.
  intros Hne w Hw. unfold attr_is in *. now rewrite attr_of_setattr_ne.
Qed.

Lemma keeps_load_pretrained self path name v :
  keeps (attr_is self name v) (load_pretrained self path).
Proof. intros w Hw. unfold attr_is in *. now rewrite load_pretrained_attr_of. Qed.

Lemma keeps_load_unless_fitted self name v :
  keeps (attr_is self name v) (load_unless_fitted self).
Proof.
  pose proof (attr_is_stable self name v) as HP.
  apply keeps_bind; [now apply keeps_getattr|]. intros f.
  apply keeps_bind; [apply keeps_lift|]. intros b.
  apply keeps_when, keeps_load_pretrained.
Qed.

Lemma keeps_setattr_trace self name v t :
  keeps (trace_from t) (setattr self name v).
Proof.
  intros w Hw. unfold setattr, bind, get_obj. now destruct (heap w !! self).
Qed.

Lemma keeps_load_pretrained_trace self path t :
  keeps (trace_from t) (load_pretrained self path).
Proof.
  intros w Hw. unfold trace_from in *.
  destruct (heap w !! self) as [o|] eqn:Ho.
  - destruct (fs w !! os_path_join path (class_name o +:+ ".json")) as [[s|]|] eqn:Hf.
    + rewrite (load_pretrained_encoded _ _ _ _ _ Ho Hf). simpl.
      etrans; [done|]. by apply prefix_app_r.
    + rewrite (load_pretrained_undecodable _ _ _ _ Ho Hf). simpl.
      etrans; [done|]. by apply prefix_app_r.
    + destruct (decide (open_failure (fs w)
                          (os_path_join path (class_name o +:+ ".json"))
                        = FileNotFoundError)) as [He|He].
      * rewrite (load_pretrained_absent _ _ _ _ Ho Hf He). simpl.
        etrans; [done|]. by apply prefix_app_r.
      * rewrite (load_pretrained_blocked _ _ _ _ Ho Hf He). simpl.
        etrans; [done|]. by apply prefix_app_r.
  - now rewrite (load_pretrained_dangling _ _ _ Ho).
Qed.

(** A [setattr] that returned has set the attribute. *)
Lemma setattr_inv_ok w self name v w' :
  setattr self name v w = (Ok tt, w') -> attr_of w' self name = Some v.
Proof.
  intros E. destruct (heap w !! self) as [o|] eqn:Ho.
  - pose proof (attr_of_setattr_eq w self o name v Ho) as Ha.
    now rewrite E in Ha.
  - revert E. unfold setattr, bind, get_obj. now rewrite Ho.
Qed.

(** Every [fit_to_data] that sets the flag ends with the assignment to
    [is_fitted] and the call of [save_pretrained]. *)
Lemma flag_then_save self v w w' :
  (setattr self "is_fitted" v ;; save_pretrained self ".") w = (Ok tt, w') ->
  attr_of w' self "is_fitted" = Some v.
Proof.
  intros E. apply bind_inv_ok in E as ([] & w1 & E1 & E).
  apply setattr_inv_ok in E1.
  pose proof (keeps_save_pretrained _ (attr_is_stable self "is_fitted" (Some v))
                self "." w1 E1) as Hk.
  now rewrite E in Hk.
Qed.

Lemma hoare_bind {A B} (Q P : world -> Prop) (m : M A) (k : A -> M B) w :
  Q w -> (forall w, Q w -> P (snd (m w))) -> (forall a, keeps P (k a)) ->
  P (snd (bind m k w)).
Proof.
  intros Hw Hm Hk. unfold bind. specialize (Hm w Hw).
  destruct (m w) as [[a|e] w1]; simpl in *; [now apply Hk|done].
Qed.

(** Closes goals [keeps P m] for a stable [P] and an [m] made of steps
    that read, log or write files. *)
Ltac keeps_steps HP :=
  repeat first
    [ apply keeps_ret | apply keeps_raise | apply keeps_lift
    | apply (keeps_getattr _ HP) | apply (keeps_tokenize _ HP)
    | apply (keeps_text_pipeline_of _ HP) | apply (keeps_pad_item_of _ HP)
    | apply (keeps_pad_to_max_length _ HP) | apply (keeps_unwrap _ HP)
    | apply (keeps_update_counter _ HP) | apply (keeps_save_pretrained _ HP)
    | apply keeps_bind; [|intros ?] ].

(** ** The flag [is_fitted] *)

(** The first thing a call of [load_pretrained] on an object does is to
    open the file named after the class of the object. *)
Lemma load_pretrained_attempt w self o path :
  heap w !! self = Some o ->
  trace_from (trace w ++ [EvOpenRead (os_path_join path (class_name o +:+ ".json"))])
             (snd (load_pretrained self path w)).
Proof.
  intros Ho. unfold trace_from.
  destruct (fs w !! os_path_join path (class_name o +:+ ".json")) as [[s|]|] eqn:Hf.
  - now rewrite (load_pretrained_encoded _ _ _ _ _ Ho Hf).
  - now rewrite (load_pretrained_undecodable _ _ _ _ Ho Hf).
  - destruct (decide (open_failure (fs w)
                        (os_path_join path (class_name o +:+ ".json"))
                      = FileNotFoundError)) as [He|He].
    + rewrite (load_pretrained_absent _ _ _ _ Ho Hf He). simpl.
      now exists [EvWarn missing_file_warning]; rewrite <- app_assoc.
    + now rewrite (load_pretrained_blocked _ _ _ _ Ho Hf He).
Qed.

Lemma load_unless_fitted_attempt w self o v :
  heap w !! self = Some o ->
  attrs o !! "is_fitted" = Some v -> truthy v = Ok false ->
  trace_from (trace w ++ [EvOpenRead (os_path_join "." (class_name o +:+ ".json"))])
             (snd (load_unless_fitted self w)).
Proof.
  intros Ho Hv Ht. unfold load_unless_fitted.
  rewrite (bind_ok _ _ _ _ _ (getattr_ok _ _ _ _ _ Ho Hv)).
  unfold lift, bind at 1. rewrite Ht. simpl.
  now apply load_pretrained_attempt.
Qed.

Lemma qa_transform_keeps P self datum :
  stable P -> keeps P (load_unless_fitted self) ->
  keeps P (PreprocessTextQA.transform self datum).
Proof.
  intros HP Hl. unfold PreprocessTextQA.transform, PreprocessTextQA.text_pipeline.
  apply keeps_bind; [done|]. intros _. keeps_steps HP.
Qed.

Lemma qa_transform_attempt w self o v datum :
  heap w !! self = Some o ->
  attrs o !! "is_fitted" = Some v -> truthy v = Ok false ->
  trace_from (trace w ++ [EvOpenRead (os_path_join "." (class_name o +:+ ".json"))])
             (snd (PreprocessTextQA.transform self datum w)).
Proof.
  intros Ho Hv Ht.
  unfold PreprocessTextQA.transform, PreprocessTextQA.text_pipeline.
  apply (hoare_bind (fun w' => w' = w)); [done| |].
  - intros ? ->. eapply load_unless_fitted_attempt; eauto.
  - intros _. keeps_steps (trace_from_stable
      (trace w ++ [EvOpenRead (os_path_join "." (class_name o +:+ ".json"))])).
Qed.

(** C3: [PreprocessTextQA.fit_to_data], when it returns, leaves
    [is_fitted] equal to [False]; a [transform] of a stage in that state
    opens the persisted file before anything else and leaves the flag
    [False], so every later call does the same.  The [fit_to_data] of
    [Normalisation], [PreprocessTextData] and
    [PreprocessTextTranslation], the other ones that assign the flag,
    leave it [True]; those of [PreprocessTextLabel] and
    [PreprocessTextQATarget] do nothing. *)
Theorem fit_to_data_flag `{Libs} (self : loc) (w w' : world) :
  (forall data,
     PreprocessTextQA.fit_to_data self data w = (Ok tt, w') ->
     attr_of w' self "is_fitted" = Some (VBool false)) /\
  (forall datum o,
     heap w !! self = Some o ->
     attr_of w self "is_fitted" = Some (VBool false) ->
     let w1 := snd (PreprocessTextQA.transform self datum w) in
     trace_from
       (trace w ++ [EvOpenRead (os_path_join "." (class_name o +:+ ".json"))]) w1 /\
     attr_of w1 self "is_fitted" = Some (VBool false)) /\
  (forall d,
     Normalisation.fit_to_data self d w = (Ok tt, w') ->
     attr_of w' self "is_fitted" = Some (VBool true)) /\
  (forall data,
     PreprocessTextData.fit_to_data self data w = (Ok tt, w') ->
     attr_of w' self "is_fitted" = Some (VBool true)) /\
  (forall data,
     PreprocessTextTranslation.fit_to_data self data w = (Ok tt, w') ->
     attr_of w' self "is_fitted" = Some (VBool true)) /\
  (forall data,
     PreprocessTextLabel.fit_to_data self data w = (Ok tt, w) /\
     PreprocessTextQATarget.fit_to_data self data w = (Ok tt, w)).
Proof.
  split_and!.
  - intros data E. unfold PreprocessTextQA.fit_to_data in E.
    apply bind_inv_ok in E as (counter & w1 & _ & E).
    apply bind_inv_ok in E as ([] & w2 & _ & E).
    apply bind_inv_ok in E as (pad & w3 & _ & E).
    apply bind_inv_ok in E as ([] & w4 & _ & E).
    now apply flag_then_save in E.
  - intros datum o Ho Hf w1. split.
    + apply attr_of_Some in Hf as (o' & Ho' & Hv).
      assert (o' = o) as -> by congruence.
      eapply qa_transform_attempt; eauto.
    + apply (qa_transform_keeps (attr_is self "is_fitted" (Some (VBool false))));
        [apply attr_is_stable|apply keeps_load_unless_fitted|done].
  - intros d E. unfold Normalisation.fit_to_data in E.
    apply bind_inv_ok in E as (m & w1 & _ & E).
    apply bind_inv_ok in E as ([] & w2 & _ & E).
    apply bind_inv_ok in E as (s & w3 & _ & E).
    apply bind_inv_ok in E as ([] & w4 & _ & E).
    now apply flag_then_save in E.
  - intros data E. unfold PreprocessTextData.fit_to_data in E.
    apply bind_inv_ok in E as (counter & w1 & _ & E).
    apply bind_inv_ok in E as ([] & w2 & _ & E).
    now apply flag_then_save in E.
  - intros data E. unfold PreprocessTextTranslation.fit_to_data in E.
    apply bind_inv_ok in E as (counters & w1 & _ & E).
    apply bind_inv_ok in E as ([] & w2 & _ & E).
    apply bind_inv_ok in E as ([] & w3 & _ & E).
    now apply flag_then_save in E.
  - done.
Qed.

(** ** Pipelines *)

Lemma fold_m_app {A S} (body : S -> A -> M S) xs ys acc w :
  fold_m body (xs ++ ys) acc w
  = (acc' <- fold_m body xs acc ;; fold_m body ys acc') w.
Proof.
  revert acc w. induction xs as [|x xs IH]; intros acc w; simpl.
  - reflexivity.
  - unfold bind. destruct (body acc x w) as [[acc'|e] w1]; [|reflexivity].
    apply IH.
Qed.

Lemma pipeline_add_transform_eq {Batch Marker : Type}
    (stage_transform : loc -> Batch -> M Batch)
    (A B : PreprocessingPipeline.t Marker) (x : Batch) (w : world) :
  PreprocessingPipeline.transform stage_transform
    (PreprocessingPipeline.__add__ A B) x w
  = (y <- PreprocessingPipeline.transform stage_transform A x ;;
     PreprocessingPipeline.transform stage_transform B y) w.
Proof.
  unfold PreprocessingPipeline.transform, PreprocessingPipeline.__add__. simpl.
  apply fold_m_app.
Qed.

(** C4: the pipeline [A + B] has the stages of [A] followed by those of
    [B]; [transform] applies the stages in the order of the list; so
    transforming with [A + B] is transforming with [A] and then, if that
    returned, transforming its result with [B], in the world [A] left.
    This holds whatever the [transform] of the stages does. *)
Theorem pipeline_add_transform {Batch Marker : Type}
    (stage_transform : loc -> Batch -> M Batch)
    (A B : PreprocessingPipeline.t Marker) (x : Batch) (w : world) :
  PreprocessingPipeline.list_of_cls (PreprocessingPipeline.__add__ A B)
  = (PreprocessingPipeline.list_of_cls A ++ PreprocessingPipeline.list_of_cls B)%list /\
  (forall (cls : loc) (dt : Marker) (rest : list (loc * Marker)),
     PreprocessingPipeline.transform stage_transform
       (PreprocessingPipeline.Pipeline ((cls, dt) :: rest)) x w
     = (y <- stage_transform cls x ;;
        PreprocessingPipeline.transform stage_transform
          (PreprocessingPipeline.Pipeline rest) y) w) /\
  PreprocessingPipeline.transform stage_transform
    (PreprocessingPipeline.__add__ A B) x w
  = (y <- PreprocessingPipeline.transform stage_transform A x ;;
     PreprocessingPipeline.transform stage_transform B y) w.
Proof.
  split_and!.
  - reflexivity.
  - reflexivity.
  - apply pipeline_add_transform_eq.
Qed.

(** ** The transforms of the text stages *)


(** [PreprocessTextData.transform] once the reload is behind: the ids
    of the tokens in the vocabulary, then the id of ["."] up to
    [MAX_LENGTH]. *)
Lemma text_data_transform_spec w w1 self tok stoi m datum s :
  load_unless_fitted self w = (Ok tt, w1) ->
  attr_of w self "tokenizer" = Some (VTokenizer tok) ->
  attr_of w self "vocabulary" = Some (VVocab stoi) ->
  attr_of w self "MAX_LENGTH" = Some (VInt m) ->
  text_of datum = Some s ->
  Z.of_nat (length (tok s)) <= m ->
  PreprocessTextData.transform self datum w
  = (Ok (VIds (pad_ids (map (float32_id stoi) (tok s)) m (float32_id stoi "."))), w1).
Proof.
  intros Hl Ht Hv Hm Hs Hle.
  pose proof (load_unless_fitted_attrs _ _ _ Hl) as Ha.
  rewrite <- Ha in Ht, Hv, Hm.
  unfold PreprocessTextData.transform, PreprocessTextData.text_pipeline.
  rewrite (bind_ok _ _ _ _ _ Hl).
  rewrite (bind_ok _ _ _ _ _ (pad_item_of_ok _ _ _ _ Hv)).
  rewrite (bind_ok _ _ _ _ _ (unwrap_text _ _ _ Hs)).
  rewrite (bind_ok _ _ _ _ _ (text_pipeline_of_ok _ _ _ _ _ _ _ Ht Hv)).
  rewrite (pad_to_max_length_ok _ _ _ _ (stoi ".") m); try done.
  - now rewrite map_map.
  - now rewrite length_map.
Qed.

(** [PreprocessTextQA.transform]: the context and the question go
    through the same tokenizer and vocabulary and are padded with the
    stored [pad_item]. *)
Lemma qa_transform_spec w w1 self tok stoi m pad_item p c q rest :
  load_unless_fitted self w = (Ok tt, w1) ->
  attr_of w self "tokenizer" = Some (VTokenizer tok) ->
  attr_of w self "vocabulary" = Some (VVocab stoi) ->
  attr_of w self "MAX_LENGTH" = Some (VInt m) ->
  attr_of w self "pad_item" = Some pad_item ->
  as_int pad_item = Ok p ->
  Z.of_nat (length (tok c)) <= m ->
  Z.of_nat (length (tok q)) <= m ->
  PreprocessTextQA.transform self (VSeq (VStr c :: VStr q :: rest)) w
  = (Ok (VSeq [VIds (pad_ids (map (float32_id stoi) (tok c)) m (float32_of_int p));
               VIds (pad_ids (map (float32_id stoi) (tok q)) m (float32_of_int p))]), w1).
Proof.
  intros Hl Ht Hv Hm Hp Hpi Hc Hq.
  pose proof (load_unless_fitted_attrs _ _ _ Hl) as Ha.
  rewrite <- Ha in Ht, Hv, Hm, Hp.
  unfold PreprocessTextQA.transform, PreprocessTextQA.text_pipeline.
  rewrite (bind_ok _ _ _ _ _ Hl).
  erewrite bind_ok by reflexivity.
  rewrite (bind_ok _ _ _ _ _ (text_pipeline_of_ok _ _ _ _ _ _ _ Ht Hv)).
  rewrite (bind_ok _ _ _ _ _ (getattr_attr_of _ _ _ _ Hp)).
  erewrite bind_ok.
  2:{ apply pad_to_max_length_ok; [done|done|]. now rewrite length_map. }
  erewrite bind_ok by reflexivity.
  rewrite (bind_ok _ _ _ _ _ (text_pipeline_of_ok _ _ _ _ _ _ _ Ht Hv)).
  rewrite (bind_ok _ _ _ _ _ (getattr_attr_of _ _ _ _ Hp)).
  erewrite bind_ok.
  2:{ apply pad_to_max_length_ok; [done|done|]. now rewrite length_map. }
  now rewrite !map_map.
Qed.

(** [PreprocessTextTranslation.transform]: the target text goes through
    [text_pipeline], the tokenizer and the vocabulary of the source;
    only its padding comes from the target vocabulary. *)
Lemma translation_transform_spec w w1 self tok stoi stoi_target m a b rest :
  load_unless_fitted self w = (Ok tt, w1) ->
  attr_of w self "tokenizer" = Some (VTokenizer tok) ->
  attr_of w self "vocabulary" = Some (VVocab stoi) ->
  attr_of w self "vocabulary_target" = Some (VVocab stoi_target) ->
  attr_of w self "MAX_LENGTH" = Some (VInt m) ->
  Z.of_nat (length (tok a)) <= m ->
  Z.of_nat (length (tok b)) <= m ->
  PreprocessTextTranslation.transform self (VSeq (VStr a :: VStr b :: rest)) w
  = (Ok (VSeq [VIds (pad_ids (map (float32_id stoi) (tok a)) m (float32_id stoi "."));
               VIds (pad_ids (map (float32_id stoi) (tok b)) m (float32_id stoi_target "."))]), w1).
Proof.
  intros Hl Ht Hv Hvt Hm Hla Hlb.
  pose proof (load_unless_fitted_attrs _ _ _ Hl) as Ha.
  rewrite <- Ha in Ht, Hv, Hvt, Hm.
  unfold PreprocessTextTranslation.transform, PreprocessTextTranslation.text_pipeline.
  rewrite (bind_ok _ _ _ _ _ Hl).
  rewrite (bind_ok _ _ _ _ _ (pad_item_of_ok _ _ _ _ Hv)).
  rewrite (bind_ok _ _ _ _ _ (pad_item_of_ok _ _ _ _ Hvt)).
  erewrite bind_ok by reflexivity.
  rewrite (bind_ok _ _ _ _ _ (text_pipeline_of_ok _ _ _ _ _ _ _ Ht Hv)).
  erewrite bind_ok by reflexivity.
  rewrite (bind_ok _ _ _ _ _ (text_pipeline_of_ok _ _ _ _ _ _ _ Ht Hv)).
  erewrite bind_ok.
  2:{ apply pad_to_max_length_ok; [done|reflexivity|]. now rewrite length_map. }
  erewrite bind_ok.
  2:{ apply pad_to_max_length_ok; [done|reflexivity|]. now rewrite length_map. }
  now rewrite !map_map.
Qed.

(** A text of more tokens than [MAX_LENGTH] is not truncated: the
    padding asks [torch.ones] for a negative size and [transform]
    raises. *)
Lemma text_data_transform_too_long w w1 self tok stoi m datum s :
  load_unless_fitted self w = (Ok tt, w1) ->
  attr_of w self "tokenizer" = Some (VTokenizer tok) ->
  attr_of w self "vocabulary" = Some (VVocab stoi) ->
  attr_of w self "MAX_LENGTH" = Some (VInt m) ->
  text_of datum = Some s ->
  m < Z.of_nat (length (tok s)) ->
  PreprocessTextData.transform self datum w = (Raise RuntimeError, w1).
Proof.
  intros Hl Ht Hv Hm Hs Hlt.
  pose proof (load_unless_fitted_attrs _ _ _ Hl) as Ha.
  rewrite <- Ha in Ht, Hv, Hm.
  unfold PreprocessTextData.transform, PreprocessTextData.text_pipeline.
  rewrite (bind_ok _ _ _ _ _ Hl).
  rewrite (bind_ok _ _ _ _ _ (pad_item_of_ok _ _ _ _ Hv)).
  rewrite (bind_ok _ _ _ _ _ (unwrap_text _ _ _ Hs)).
  rewrite (bind_ok _ _ _ _ _ (text_pipeline_of_ok _ _ _ _ _ _ _ Ht Hv)).
  apply (pad_to_max_length_too_long _ _ _ _ m); [done|]. now rewrite length_map.
Qed.

Lemma padded_ids (stoi : string -> Z) (tokens : list string) (m pad : Z) :
  Z.of_nat (length tokens) <= m ->
  padded (length tokens) m pad (pad_ids (map stoi tokens) m pad) /\
  take (length tokens) (pad_ids (map stoi tokens) m pad) = map stoi tokens.
Proof.
  intros Hle. split.
  - rewrite <- (length_map stoi tokens) at 1. apply padded_app.
    now rewrite length_map.
  - unfold pad_ids. rewrite <- (length_map stoi tokens) at 1.
    now rewrite take_app_length.
Qed.

(** ** What [fit_to_data] leaves in a text stage *)

Lemma max_length_int_stable self : stable (max_length_int self).
Proof.
  intros w w' Hh _ [m Hm]. exists m. unfold attr_of in *. now rewrite Hh.
Qed.

Lemma keeps_setattr_max_length_int self name v :
  (name = "MAX_LENGTH" -> exists m, v = VInt m) ->
  keeps (max_length_int self) (setattr self name v).
Proof.
  intros Hv w [m Hm]. unfold max_length_int.
  destruct (decide (name = "MAX_LENGTH")) as [->|Hne].
  - destruct (Hv eq_refl) as [m' ->].
    apply attr_of_Some in Hm as (o & Ho & _).
    exists m'. now apply (attr_of_setattr_eq _ _ o).
  - exists m. now rewrite attr_of_setattr_ne.
Qed.

Section FitKeeps.

Context (P : world -> Prop) (HP : stable P) (self : loc).
Context (Hmax : forall m, keeps P (setattr self "MAX_LENGTH" (VInt m))).

Lemma keeps_update_max_length tokenizer text :
  keeps P (update_max_length self tokenizer text).
Proof using P HP Hmax.
  unfold update_max_length.
  apply keeps_bind; [apply (keeps_getattr _ HP)|]. intros v.
  apply keeps_bind; [apply (keeps_tokenize _ HP)|]. intros tokens.
  apply keeps_bind; [apply keeps_lift|]. intros m. apply Hmax.
Qed.

Lemma keeps_build_vocabulary `{Libs} name counter :
  (forall v, keeps P (setattr self name v)) ->
  keeps P (build_vocabulary self name counter).
Proof using P HP.
  intros Hset. unfold build_vocabulary.
  apply keeps_bind; [apply (keeps_getattr _ HP)|]. intros v.
  destruct v; first [apply Hset | apply keeps_ret].
Qed.

Lemma text_data_loop_keeps data counter :
  keeps P (fold_m (fun counter item =>
      fields <- lift (unpack 2 item) ;;
      text <- unwrap (nth 1 fields VNone) ;;
      counter <- update_counter self "tokenizer" counter text ;;
      update_max_length self "tokenizer" text ;;
      ret counter) data counter).
Proof using P HP Hmax.
  apply keeps_fold_m. intros counter' item.
  apply keeps_bind; [apply keeps_lift|]. intros fields.
  apply keeps_bind; [apply (keeps_unwrap _ HP)|]. intros text.
  apply keeps_bind; [apply (keeps_update_counter _ HP)|]. intros counter''.
  apply keeps_bind; [apply keeps_update_max_length|]. intros _.
  apply keeps_ret.
Qed.

Lemma text_data_fit_keeps `{Libs} data :
  (forall v, keeps P (setattr self "vocabulary" v)) ->
  keeps P (setattr self "is_fitted" (VBool true)) ->
  keeps P (PreprocessTextData.fit_to_data self data).
Proof using P HP Hmax.
  intros Hvoc Hflag. unfold PreprocessTextData.fit_to_data.
  apply keeps_bind; [apply text_data_loop_keeps|]. intros counter.
  apply keeps_bind; [now apply keeps_build_vocabulary|]. intros _.
  apply keeps_bind; [done|]. intros _. apply (keeps_save_pretrained _ HP).
Qed.

Lemma qa_fit_keeps `{Libs} data :
  (forall v, keeps P (setattr self "vocabulary" v)) ->
  (forall v, keeps P (setattr self "pad_item" v)) ->
  keeps P (setattr self "is_fitted" (VBool false)) ->
  keeps P (PreprocessTextQA.fit_to_data self data).
Proof using P HP Hmax.
  intros Hvoc Hpad Hflag. unfold PreprocessTextQA.fit_to_data.
  apply keeps_bind.
  { apply keeps_fold_m. intros counter item.
    apply keeps_bind; [apply keeps_lift|]. intros fields.
    apply keeps_bind; [apply (keeps_unwrap _ HP)|]. intros context.
    apply keeps_bind; [apply (keeps_update_counter _ HP)|]. intros counter1.
    apply keeps_bind; [apply keeps_update_max_length|]. intros _.
    apply keeps_bind; [apply (keeps_unwrap _ HP)|]. intros question.
    apply keeps_bind; [apply (keeps_update_counter _ HP)|]. intros counter2.
    apply keeps_bind; [apply keeps_update_max_length|]. intros _.
    apply keeps_ret. }
  intros counter.
  apply keeps_bind; [now apply keeps_build_vocabulary|]. intros _.
  apply keeps_bind; [apply (keeps_pad_item_of _ HP)|]. intros pad.
  apply keeps_bind; [apply Hpad|]. intros _.
  apply keeps_bind; [done|]. intros _. apply (keeps_save_pretrained _ HP).
Qed.

End FitKeeps.

Lemma pad_item_of_inv_ok w self name p w' :
  pad_item_of self name w = (Ok p, w') ->
  w' = w /\ exists stoi, attr_of w self name = Some (VVocab stoi) /\ p = stoi ".".
Proof.
  unfold pad_item_of, getattr, bind, get_obj, attr_of.
  destruct (heap w !! self) as [o|]; simpl; [|discriminate].
  destruct (attrs o !! name) as [v|]; simpl; [|discriminate].
  destruct v; simpl; try discriminate. inversion 1; subst. eauto.
Qed.

Lemma save_pretrained_inv_ok w self path w' :
  save_pretrained self path w = (Ok tt, w') ->
  heap w' = heap w /\
  exists o, heap w !! self = Some o /\
            fs w' !! os_path_join path (class_name o +:+ ".json") = Some (Encoded o).
Proof.
  unfold save_pretrained. mrun.
  destruct (heap w !! self) as [o|] eqn:Ho; [|discriminate].
  rewrite Ho. inversion 1; subst. simpl. split; [done|].
  exists o. split; [done|]. apply lookup_insert_eq.
Qed.

(** A stage that [PreprocessTextQA.fit_to_data] returned from has a
    vocabulary, pads with its id of ["."], is flagged as not fitted, and
    a snapshot of it is in the file the reload opens. *)
Lemma qa_fit_fitted `{Libs} w self data w' :
  PreprocessTextQA.fit_to_data self data w = (Ok tt, w') ->
  (exists stoi, qa_fitted w' self stoi) /\
  attr_of w' self "is_fitted" = Some (VBool false) /\
  snapshot_readable w' self.
Proof.
  intros E. unfold PreprocessTextQA.fit_to_data in E.
  apply bind_inv_ok in E as (counter & w1 & _ & E).
  apply bind_inv_ok in E as ([] & w2 & _ & E).
  apply bind_inv_ok in E as (pad & w3 & Epad & E).
  apply pad_item_of_inv_ok in Epad as (-> & stoi & Hv & ->).
  apply bind_inv_ok in E as ([] & w4 & Eset & E).
  pose proof (setattr_inv_ok _ _ _ _ _ Eset) as Hp.
  assert (Hv4 : attr_of w4 self "vocabulary" = Some (VVocab stoi)).
  { pose proof (keeps_setattr_ne self "pad_item" "vocabulary" (VInt (stoi "."))
                  (Some (VVocab stoi)) ltac:(done) w2 Hv) as Hk.
    now rewrite Eset in Hk. }
  pose proof (flag_then_save _ _ _ _ E) as Hflag.
  apply bind_inv_ok in E as ([] & w5 & Eflag & Esave).
  assert (Hv5 : attr_of w5 self "vocabulary" = Some (VVocab stoi) /\
                attr_of w5 self "pad_item" = Some (VInt (stoi "."))).
  { pose proof (keeps_setattr_ne self "is_fitted" "vocabulary" (VBool false)
                  _ ltac:(done) w4 Hv4) as Hk1.
    pose proof (keeps_setattr_ne self "is_fitted" "pad_item" (VBool false)
                  _ ltac:(done) w4 Hp) as Hk2.
    now rewrite Eflag in Hk1, Hk2. }
  destruct (save_pretrained_inv_ok _ _ _ _ Esave) as (Hheap & o & Ho & Hfile).
  split_and!; [exists stoi; split| |].
  - unfold attr_of in *. rewrite Hheap. apply Hv5.
  - unfold attr_of in *. rewrite Hheap. apply Hv5.
  - done.
  - intros o' Ho'. rewrite Hheap, Ho in Ho'. inversion Ho'; subst o'.
    cbv zeta. now rewrite Hfile.
Qed.

(** The same for [PreprocessTextData.fit_to_data], on a stage whose
    vocabulary was [None] or given: the tokenizer is the one it had, the
    vocabulary is the given one or a new one, [MAX_LENGTH] is an integer
    and the flag is [True]. *)
Lemma text_data_fit_fitted `{Libs} w self data w' tok v0 :
  attr_of w self "tokenizer" = Some (VTokenizer tok) ->
  max_length_int self w ->
  attr_of w self "vocabulary" = Some v0 ->
  (v0 = VNone \/ exists stoi, v0 = VVocab stoi) ->
  PreprocessTextData.fit_to_data self data w = (Ok tt, w') ->
  attr_of w' self "tokenizer" = Some (VTokenizer tok) /\
  (exists stoi, attr_of w' self "vocabulary" = Some (VVocab stoi)) /\
  max_length_int self w' /\
  attr_of w' self "is_fitted" = Some (VBool true).
Proof.
  intros Ht Hm Hv Hv0 E. split_and!.
  - pose proof (text_data_fit_keeps (attr_is self "tokenizer" (Some (VTokenizer tok)))
                  (attr_is_stable _ _ _) self
                  (fun m => keeps_setattr_ne self "MAX_LENGTH" "tokenizer" _ _ ltac:(done))
                  data
                  (fun v => keeps_setattr_ne self "vocabulary" "tokenizer" _ _ ltac:(done))
                  (keeps_setattr_ne self "is_fitted" "tokenizer" _ _ ltac:(done)) w Ht) as Hk.
    now rewrite E in Hk.
  - unfold PreprocessTextData.fit_to_data in E.
    apply bind_inv_ok in E as (counter & w1 & Eloop & E).
    pose proof (text_data_loop_keeps (attr_is self "vocabulary" (Some v0))
                  (attr_is_stable _ _ _) self
                  (fun m => keeps_setattr_ne self "MAX_LENGTH" "vocabulary" _ _ ltac:(done))
                  data ∅ w Hv) as Hv1.
    rewrite Eloop in Hv1. simpl in Hv1. unfold attr_is in Hv1.
    apply bind_inv_ok in E as ([] & w2 & Ebuild & E).
    assert (exists stoi, attr_of w2 self "vocabulary" = Some (VVocab stoi)) as [stoi Hv2].
    { unfold build_vocabulary in Ebuild.
      rewrite (bind_ok _ _ _ _ _ (getattr_attr_of _ _ _ _ Hv1)) in Ebuild.
      destruct Hv0 as [->|[stoi ->]].
      - exists (Vocab counter). now apply setattr_inv_ok in Ebuild.
      - exists stoi. now inversion Ebuild; subst. }
    exists stoi.
    pose proof (keeps_bind _ _ _
      (keeps_setattr_ne self "is_fitted" "vocabulary" (VBool true) _ ltac:(done))
      (fun _ => keeps_save_pretrained _ (attr_is_stable _ _ _) self ".") w2 Hv2) as Hk.
    now rewrite E in Hk.
  - pose proof (text_data_fit_keeps (max_length_int self)
                  (max_length_int_stable _) self
                  (fun m => keeps_setattr_max_length_int self "MAX_LENGTH" _
                              (fun _ => ex_intro _ m eq_refl))
                  data
                  (fun v => keeps_setattr_max_length_int self "vocabulary" v ltac:(done))
                  (keeps_setattr_max_length_int self "is_fitted" _ ltac:(done))
                  w Hm) as Hk.
    now rewrite E in Hk.
  - unfold PreprocessTextData.fit_to_data in E.
    apply bind_inv_ok in E as (counter & w1 & _ & E).
    apply bind_inv_ok in E as ([] & w2 & _ & E).
    now apply flag_then_save in E.
Qed.


(** ** A missing snapshot *)


(** ** The span of the answer *)

Lemma str_slice_to_nonneg (s : string) (n : Z) :
  0 <= n ->
  str_slice_to s n = str_join (take (Z.to_nat n) (code_points s)).
Proof.
  intros Hn. unfold str_slice_to.
  now destruct (Z.ltb_spec n 0) as [Hlt|_]; [lia|].
Qed.

(** C8: on a sample (context, question, answers, positions), where the
    answer text is the first of the answers and the character offset
    [pos >= 0] the first of the positions, [PreprocessTextQATarget.transform]
    returns the pair (start, end) of scalar integer tensors: start is
    the number of tokens of the first [pos] characters of the context,
    end is start plus the number of tokens of the answer. *)
Theorem qa_target_transform_span (w : world) (self : loc)
    (tok : string -> list string) (context answer : string)
    (question position : value) (answers positions rest : list value) (pos : Z) :
  attr_of w self "tokenizer" = Some (VTokenizer tok) ->
  as_int position = Ok pos ->
  0 <= pos ->
  let before := str_join (take (Z.to_nat pos) (code_points context)) in
  let start := Z.of_nat (length (tok before)) in
  PreprocessTextQATarget.transform self
    (VSeq (VStr context :: question :: VSeq (VStr answer :: answers)
             :: VSeq (position :: positions) :: rest)) w
  = (Ok (VSeq [VLong start; VLong (start + Z.of_nat (length (tok answer)))]), w).
Proof.
  intros Ht Hp Hpos before start. unfold PreprocessTextQATarget.transform.
  do 2 (erewrite bind_ok by reflexivity).
  erewrite bind_ok.
  2:{ apply (tokenize_arg_ok _ _ _ tok _ (str_slice_to context pos)); [done|].
      erewrite bind_ok by reflexivity. unfold lift, slice_to. now rewrite Hp. }
  erewrite bind_ok.
  2:{ apply (tokenize_arg_ok _ _ _ tok _ answer); [done|].
      now erewrite bind_ok by reflexivity. }
  subst start before. now rewrite str_slice_to_nonneg.
Qed.

(** A sample whose offset is a plain integer, not the first of a list,
    stops [transform] at [datum[3][0]]. *)
Lemma qa_target_transform_plain_offset (w : world) (self : loc)
    (context question answers : value) (pos : Z) (rest : list value) :
  PreprocessTextQATarget.transform self
    (VSeq (context :: question :: answers :: VInt pos :: rest)) w
  = (Raise TypeError, w).
Proof. reflexivity. Qed.

(** ** Single precision facts *)

Lemma add_zero_eps (x : F32.t) :
  F32.is_zero x = true -> F32.add x F32.eps = F32.eps.
Proof. destruct x as [[]| | |]; try discriminate; reflexivity. Qed.

Lemma gt0_eps : F32.gt0 F32.eps = true.
Proof. reflexivity. Qed.

Lemma gt0_zero (x : F32.t) : F32.is_zero x = true -> F32.gt0 x = false.
Proof. destruct x as [[]| | |]; try discriminate; reflexivity. Qed.

Lemma gt0_nan : F32.gt0 F32.nan = false.
Proof. reflexivity. Qed.

Lemma add_nan_eps : F32.add F32.nan F32.eps = F32.nan.
Proof. reflexivity. Qed.

(** A finite number minus itself is zero. *)
Lemma sub_diag (x : F32.t) :
  F32.is_finite x = true -> F32.is_zero (F32.sub x x) = true.
Proof.
  destruct x as [[]| | |s m e]; try discriminate; try reflexivity.
  intros _. unfold F32.sub, SFsub. now rewrite Z.sub_diag.
Qed.

(** Zero divided by the epsilon is zero. *)
Lemma div_zero_eps (x : F32.t) :
  F32.is_zero x = true -> F32.is_zero (F32.div x F32.eps) = true.
Proof. destruct x as [[]| | |]; try discriminate; reflexivity. Qed.

(** *** Adding the epsilon to a number that is not negative

    The sum of two positive numbers is rounded from a positive mantissa
    at an exponent that is at least [emin]; shifting such a mantissa to
    its place drops fewer bits than it has, so the rounded number is
    positive or overflows to [+inf]. *)

Lemma iter_pos_nat {A} (f : A -> A) (p : positive) (x : A) :
  SpecFloat.iter_pos f p x = Nat.iter (Pos.to_nat p) f x.
Proof.
  revert x. induction p as [p IH|p IH|]; intros x; cbn [SpecFloat.iter_pos].
  - rewrite !IH, Pos2Nat.inj_xI.
    replace (S (2 * Pos.to_nat p))%nat
      with (Pos.to_nat p + (Pos.to_nat p + 1))%nat by lia.
    now rewrite !Nat.iter_add.
  - rewrite !IH, Pos2Nat.inj_xO.
    replace (2 * Pos.to_nat p)%nat with (Pos.to_nat p + Pos.to_nat p)%nat by lia.
    now rewrite Nat.iter_add.
  - reflexivity.
Qed.

Lemma iter_shr_1_pos (n : nat) (p : positive) (r s : bool) :
  (n < Pos.to_nat (digits2_pos p))%nat ->
  exists q r' s',
    Nat.iter n shr_1 (Build_shr_record (Zpos p) r s)
    = Build_shr_record (Zpos q) r' s' /\
    Pos.to_nat (digits2_pos q) = (Pos.to_nat (digits2_pos p) - n)%nat.
Proof.
  induction n as [|n IH]; intros Hn.
  - exists p, r, s. split; [reflexivity|lia].
  - destruct IH as (q & r' & s' & E & Hd); [lia|].
    simpl. rewrite E.
    destruct q as [q|q|]; simpl in Hd; rewrite ?Pos2Nat.inj_succ in Hd.
    + eexists q, _, _. split; [reflexivity|lia].
    + eexists q, _, _. split; [reflexivity|lia].
    + simpl in Hd. lia.
Qed.

Lemma shr_fexp_pos (m : positive) (e : Z) (l : location) :
  emin F32.prec F32.emax <= e ->
  exists q r s e',
    shr_fexp F32.prec F32.emax (Zpos m) e l = (Build_shr_record (Zpos q) r s, e') /\
    emin F32.prec F32.emax <= e'.
Proof.
  intros He. unfold shr_fexp, shr.
  assert (Hrec : exists r s,
             shr_record_of_loc (Zpos m) l = Build_shr_record (Zpos m) r s).
  { destruct l as [|[]]; simpl; eauto. }
  destruct Hrec as (r & s & ->).
  destruct (fexp F32.prec F32.emax (Zdigits2 (Zpos m) + e) - e) as [|n|n] eqn:En.
  - eauto 10.
  - assert (Hn : (Pos.to_nat n < Pos.to_nat (digits2_pos m))%nat).
    { unfold fexp, emin, F32.prec, F32.emax in *. simpl Zdigits2 in En. lia. }
    rewrite iter_pos_nat.
    destruct (iter_shr_1_pos _ m r s Hn) as (q & r' & s' & -> & _).
    exists q, r', s', (e + Zpos n). split; [reflexivity|lia].
  - eauto 10.
Qed.

Lemma round_nearest_even_pos (q : positive) (l : location) :
  exists q', round_nearest_even (Zpos q) l = Zpos q'.
Proof.
  destruct l as [|[]]; simpl; eauto.
  destruct q; simpl; eauto.
Qed.

Lemma binary_round_aux_pos (m : positive) (e : Z) :
  emin F32.prec F32.emax <= e ->
  F32.gt0 (binary_round_aux F32.prec F32.emax false (Zpos m) e loc_Exact) = true.
Proof.
  intros He. unfold binary_round_aux.
  destruct (shr_fexp_pos m e loc_Exact He) as (q & r & s & e' & -> & He').
  cbn [shr_m].
  destruct (round_nearest_even_pos q
              (loc_of_shr_record (Build_shr_record (Zpos q) r s))) as [q' ->].
  destruct (shr_fexp_pos q' e' loc_Exact He') as (q'' & r'' & s'' & e'' & -> & _).
  cbn [shr_m]. now destruct (e'' <=? F32.emax - F32.prec).
Qed.

Lemma binary_round_pos (m : positive) (e : Z) :
  emin F32.prec F32.emax <= e ->
  F32.gt0 (binary_round F32.prec F32.emax false m e) = true.
Proof.
  intros He. unfold binary_round, shl_align.
  destruct (fexp F32.prec F32.emax (Zpos (digits2_pos m) + e) - e) eqn:E.
  - now apply binary_round_aux_pos.
  - now apply binary_round_aux_pos.
  - apply binary_round_aux_pos. unfold fexp. lia.
Qed.

(** A number that is not negative, plus the epsilon, is strictly
    positive. *)
Lemma gt0_add_eps (x : F32.t) :
  F32.valid x = true -> F32.ge0 x = true ->
  F32.gt0 (F32.add x F32.eps) = true.
Proof.
  destruct x as [s|s| |s m e]; simpl.
  - reflexivity.
  - now destruct s.
  - discriminate.
  - intros Hv Hs. destruct s; [discriminate|].
    unfold F32.add, SFadd. cbn [cond_Zopp].
    assert (He : emin F32.prec F32.emax <= e).
    { unfold F32.valid, valid_binary, bounded, canonical_mantissa in Hv.
      apply andb_prop in Hv as [Hc _]. apply Z.eqb_eq in Hc.
      unfold fexp in Hc. lia. }
    simpl Z.add. apply binary_round_pos.
    unfold emin, F32.prec, F32.emax in *. lia.
Qed.

Lemma patch_positive (sd : list F32.t) :
  forallb F32.valid sd = true -> forallb F32.ge0 sd = true ->
  forallb F32.gt0 (patch sd) = true.
Proof.
  induction sd as [|x sd IH]; simpl; [done|].
  intros Hv Hg.
  apply andb_prop in Hv as [Hvx Hv]. apply andb_prop in Hg as [Hgx Hg].
  now rewrite gt0_add_eps, IH.
Qed.

Lemma existsb_zero_not_positive (sd : list F32.t) :
  existsb F32.is_zero sd = true -> forallb F32.gt0 sd = false.
Proof.
  induction sd as [|x sd IH]; simpl; [discriminate|].
  destruct (F32.is_zero x) eqn:Hx; simpl.
  - intros _. now rewrite (gt0_zero _ Hx).
  - intros H. rewrite (IH H). apply andb_false_r.
Qed.

(** ** [Normalisation.transform] *)

(** With every entry of [stddev] positive nothing is written and
    nothing is logged. *)
Lemma normalisation_transform_positive w self v mu sd xs :
  attr_of w self "is_fitted" = Some v -> truthy v = Ok true ->
  attr_of w self "mean" = Some (VTensor mu) ->
  attr_of w self "stddev" = Some (VTensor sd) ->
  forallb F32.gt0 sd = true ->
  Normalisation.transform self (VTensor xs) w = (normalise xs mu sd, w).
Proof.
  intros Hf Ht Hmu Hsd Hpos. unfold Normalisation.transform.
  rewrite (bind_ok _ _ _ _ _ (load_unless_fitted_fitted _ _ _ Hf Ht)).
  rewrite (bind_ok _ _ _ _ _ (getattr_attr_of _ _ _ _ Hsd)).
  unfold lift at 1, bind at 1. simpl. rewrite Hpos. simpl.
  unfold bind at 1, ret.
  rewrite (bind_ok _ _ _ _ _ (getattr_attr_of _ _ _ _ Hmu)).
  unfold normalise, lift, bind. cbn [tensor_sub tensor_op].
  destruct (broadcast2 F32.sub xs mu) as [c|e]; [|done].
  now rewrite (getattr_attr_of _ _ _ _ Hsd).
Qed.

(** With an entry that is not positive the stage warns and replaces its
    [stddev] by the patched one before it computes, whatever the datum
    is, and also when the computation then raises. *)
Lemma normalisation_transform_patch w self o v sd datum :
  heap w !! self = Some o ->
  attrs o !! "is_fitted" = Some v -> truthy v = Ok true ->
  attrs o !! "stddev" = Some (VTensor sd) ->
  forallb F32.gt0 sd = false ->
  let o' := Obj (class_name o) (<["stddev" := VTensor (patch sd)]> (attrs o)) in
  let w' := World (<[self := o']> (heap w)) (fs w)
                  (trace w ++ [EvWarn Normalisation.zeros_warning]) in
  Normalisation.transform self datum w =
    (match attrs o !! "mean" with
     | Some mean =>
         match tensor_sub datum mean with
         | Ok centred => tensor_div centred (VTensor (patch sd))
         | Raise e => Raise e
         end
     | None => Raise AttributeError
     end, w').
Proof.
  intros Ho Hf Ht Hsd Hneg o' w'. unfold Normalisation.transform.
  erewrite bind_ok.
  2:{ eapply load_unless_fitted_fitted; [|done]. unfold attr_of. now rewrite Ho. }
  rewrite (bind_ok _ _ _ _ _ (getattr_ok _ _ _ _ _ Ho Hsd)).
  unfold lift at 1, bind at 1. simpl. rewrite Hneg. simpl.
  assert (Hw' : heap w' !! self = Some o') by apply lookup_insert_eq.
  assert (Hsd' : attrs o' !! "stddev" = Some (VTensor (patch sd)))
    by apply lookup_insert_eq.
  erewrite (bind_ok _ _ _ tt w').
  2:{ unfold getattr, setattr. mrun. rewrite Ho. cbn. rewrite Hsd. cbn.
      now rewrite Ho. }
  assert (Hmean : attrs o' !! "mean" = attrs o !! "mean")
    by now apply lookup_insert_ne.
  destruct (attrs o !! "mean") as [mean|].
  - rewrite (bind_ok _ _ _ _ _ (getattr_ok _ _ _ _ _ Hw' Hmean)).
    unfold lift, bind.
    destruct (tensor_sub datum mean) as [c|e]; [|done].
    now rewrite (getattr_ok _ _ _ _ _ Hw' Hsd').
  - apply bind_raise. unfold getattr.
    rewrite (bind_ok _ _ _ _ _ (get_obj_ok _ _ _ Hw')). now rewrite Hmean.
Qed.

Lemma normalisation_transform_keeps self datum name v :
  name <> "stddev" ->
  keeps (attr_is self name v) (Normalisation.transform self datum).
Proof.
  intros Hne. pose proof (attr_is_stable self name v) as HP.
  unfold Normalisation.transform.
  apply keeps_bind; [apply keeps_load_unless_fitted|]. intros _.
  apply keeps_bind; [apply (keeps_getattr _ HP)|]. intros stddev.
  apply keeps_bind; [apply keeps_lift|]. intros positive.
  apply keeps_bind.
  { apply keeps_when.
    apply keeps_bind; [apply (keeps_log _ HP)|]. intros _.
    apply keeps_bind; [apply (keeps_getattr _ HP)|]. intros stddev'.
    apply keeps_bind; [apply keeps_lift|]. intros patched.
    apply keeps_setattr_ne. congruence. }
  intros _. keeps_steps HP.
Qed.

(** With every entry positive the world is left as it was, whatever
    the datum and whether the computation returns or raises. *)
Lemma normalisation_transform_positive_world w self v sd datum :
  attr_of w self "is_fitted" = Some v -> truthy v = Ok true ->
  attr_of w self "stddev" = Some (VTensor sd) ->
  forallb F32.gt0 sd = true ->
  snd (Normalisation.transform self datum w) = w.
Proof.
  intros Hf Ht Hsd Hpos. unfold Normalisation.transform.
  rewrite (bind_ok _ _ _ _ _ (load_unless_fitted_fitted _ _ _ Hf Ht)).
  rewrite (bind_ok _ _ _ _ _ (getattr_attr_of _ _ _ _ Hsd)).
  unfold lift at 1, bind at 1. simpl. rewrite Hpos. simpl.
  unfold bind at 1, ret. unfold getattr, bind, get_obj, lift, ret, raise.
  repeat (case_match; simplify_eq; simpl; try done).
Qed.

(** A [stddev] of rank 2, as a batch of images gives, stops [transform]
    at [all(self.stddev > 0)]: the items [all] goes through are the rows
    of the comparison, and a row of several entries has no truth value.
    Nothing is patched and nothing is returned. *)
Lemma normalisation_transform_matrix w self v row rows datum :
  attr_of w self "is_fitted" = Some v -> truthy v = Ok true ->
  attr_of w self "stddev" = Some (VMatrix (row :: rows)) ->
  length row <> 1%nat ->
  Normalisation.transform self datum w = (Raise RuntimeError, w).
Proof.
  intros Hf Ht Hsd Hrow. unfold Normalisation.transform.
  rewrite (bind_ok _ _ _ _ _ (load_unless_fitted_fitted _ _ _ Hf Ht)).
  rewrite (bind_ok _ _ _ _ _ (getattr_attr_of _ _ _ _ Hsd)).
  apply bind_raise. unfold lift. simpl.
  destruct row as [|x [|y row]]; simpl; try done.
Qed.

Lemma patch_zero sd i x :
  sd !! i = Some x -> F32.is_zero x = true -> patch sd !! i = Some F32.eps.
Proof.
  intros Hi Hx. unfold patch. rewrite list_lookup_fmap, Hi. simpl.
  now rewrite add_zero_eps.
Qed.

Lemma broadcast2_same_length f (xs ys : list F32.t) :
  length xs = length ys -> broadcast2 f xs ys = Ok (zip_with f xs ys).
Proof. intros H. unfold broadcast2. now rewrite H, Nat.eqb_refl. Qed.

(** C6, as the code has it: a fitted [Normalisation] stage whose
    [stddev], a vector, has a zero entry warns, stores [stddev + 1e-7]
    (every entry gets the epsilon) and returns [(datum - mean) / stddev]
    with the patched tensor.  In a dimension whose [stddev] was zero the
    divisor is the epsilon itself and the result is zero when the datum
    equals the mean there; when no entry of [stddev] was negative or
    NaN every divisor is strictly positive, so nothing is divided by
    zero.  Nothing more is promised on finiteness. *)
Theorem normalisation_transform_zero_std (w : world) (self : loc) (o : obj)
    (mu sd xs : list F32.t) :
  heap w !! self = Some o ->
  attrs o !! "is_fitted" = Some (VBool true) ->
  attrs o !! "mean" = Some (VTensor mu) ->
  attrs o !! "stddev" = Some (VTensor sd) ->
  existsb F32.is_zero sd = true ->
  length xs = length sd -> length mu = length sd ->
  let r := Normalisation.transform self (VTensor xs) w in
  let out := zip_with F32.div (zip_with F32.sub xs mu) (patch sd) in
  trace (snd r) = (trace w ++ [EvWarn Normalisation.zeros_warning])%list /\
  attr_of (snd r) self "stddev" = Some (VTensor (patch sd)) /\
  fst r = Ok (VTensor out) /\
  (forall i s, sd !! i = Some s -> F32.is_zero s = true ->
     patch sd !! i = Some F32.eps /\
     forall x, xs !! i = Some x -> mu !! i = Some x -> F32.is_finite x = true ->
       exists z, out !! i = Some z /\ F32.is_zero z = true) /\
  (forallb F32.valid sd = true -> forallb F32.ge0 sd = true ->
   forallb F32.gt0 (patch sd) = true).
Proof.
  intros Ho Hf Hmu Hsd Hzero Hlx Hlm r out. subst r.
  rewrite (normalisation_transform_patch w self o (VBool true) sd (VTensor xs));
    try done; [|now apply existsb_zero_not_positive].
  rewrite Hmu. simpl. split_and!.
  - done.
  - unfold attr_of. simpl. rewrite lookup_insert_eq. simpl. apply lookup_insert_eq.
  - unfold tensor_sub, tensor_div, tensor_op.
    rewrite broadcast2_same_length by congruence.
    rewrite broadcast2_same_length; [done|].
    unfold patch. rewrite length_zip_with, length_map. lia.
  - intros i s Hi Hs. split; [now apply (patch_zero _ _ s)|].
    intros x Hx Hm Hfin. exists (F32.div (F32.sub x x) F32.eps). split.
    + subst out. rewrite lookup_zip_with, lookup_zip_with, Hx. simpl.
      rewrite Hm. simpl. now rewrite (patch_zero _ _ s).
    + now apply div_zero_eps, sub_diag.
  - apply patch_positive.
Qed.

(** C10, as the code has it: [transform] never changes [mean] nor
    [is_fitted].  On a fitted stage whose [stddev] is a vector it
    replaces the stored [stddev] by [stddev + 1e-7] exactly when some
    entry is not strictly positive, with a warning.  When no entry was
    negative or NaN, every entry is strictly positive after the patch
    and no later call changes the world again; and when every entry is
    positive from the start the call changes nothing. *)
Theorem normalisation_transform_frame (w : world) (self : loc) (datum : value) :
  let w' := snd (Normalisation.transform self datum w) in
  attr_of w' self "mean" = attr_of w self "mean" /\
  attr_of w' self "is_fitted" = attr_of w self "is_fitted" /\
  (forall sd,
     attr_of w self "is_fitted" = Some (VBool true) ->
     attr_of w self "stddev" = Some (VTensor sd) ->
     (forallb F32.gt0 sd = false ->
        attr_of w' self "stddev" = Some (VTensor (patch sd)) /\
        trace w' = (trace w ++ [EvWarn Normalisation.zeros_warning])%list /\
        (forallb F32.valid sd = true -> forallb F32.ge0 sd = true ->
         forallb F32.gt0 (patch sd) = true /\
         forall datum', snd (Normalisation.transform self datum' w') = w')) /\
     (forallb F32.gt0 sd = true -> w' = w)).
Proof.
  intros w'.
  assert (Hmean : attr_of w' self "mean" = attr_of w self "mean")
    by now apply (normalisation_transform_keeps self datum "mean" _ ltac:(done) w).
  assert (Hflag : attr_of w' self "is_fitted" = attr_of w self "is_fitted")
    by now apply (normalisation_transform_keeps self datum "is_fitted" _
                    ltac:(done) w).
  split_and!; try done.
  intros sd Hf Hsd. split.
  - intros Hneg.
    assert (Hsd' : attr_of w' self "stddev" = Some (VTensor (patch sd)) /\
                   trace w' = (trace w ++ [EvWarn Normalisation.zeros_warning])%list).
    { apply attr_of_Some in Hf as (o & Ho & Hf).
      apply attr_of_Some in Hsd as (o' & Ho' & Hsd).
      assert (o' = o) as -> by congruence.
      subst w'.
      rewrite (normalisation_transform_patch w self o (VBool true) sd datum);
        try done.
      simpl. split; [|done].
      unfold attr_of. simpl. rewrite lookup_insert_eq. simpl.
      apply lookup_insert_eq. }
    destruct Hsd' as [Hsd' Htrace]. split_and!; try done.
    intros Hv Hg. pose proof (patch_positive sd Hv Hg) as Hpos. split; [done|].
    intros datum'.
    apply (normalisation_transform_positive_world w' self (VBool true) (patch sd));
      try done.
    now rewrite Hflag.
  - intros Hpos.
    now apply (normalisation_transform_positive_world w self (VBool true) sd).
Qed.

(** * The module at work *)

Import Examples.

(** [F32.eps] is normal and within half a unit in the last place of
    10^-7. *)
Lemma eps_nearest :
  exists m, F32.eps = S754_finite false m (-47) /\
            2 ^ 23 <= Zpos m < 2 ^ 24 /\
            2 * Z.abs (Zpos m * 10 ^ 7 - 2 ^ 47) <= 10 ^ 7.
Proof. exists 14073749%positive. split; [reflexivity|]. vm_compute. intuition discriminate. Qed.

(** ** Saving and loading *)

(** C1 fails on the code: a [PreprocessTextData] stage is fitted on the
    reviews and saved; the file holds its snapshot; a new stage of the
    class loads from the same directory and is left as it was built,
    not fitted, without vocabulary and with [MAX_LENGTH] 0, while the
    saved one is fitted, has a vocabulary and [MAX_LENGTH] 4. *)
Theorem save_then_load_restores_nothing :
  fst (run save_then_load) = Ok (1%positive, 2%positive) /\
  (exists o, heap (snd (run save_then_load)) !! 1%positive = Some o /\
             fs (snd (run save_then_load)) !! "/tmp/model/PreprocessTextData.json"
             = Some (Encoded o)) /\
  attr_of (snd (run save_then_load)) 1%positive "is_fitted" = Some (VBool true) /\
  attr_of (snd (run save_then_load)) 2%positive "is_fitted" = Some (VBool false) /\
  attr_of (snd (run save_then_load)) 1%positive "MAX_LENGTH" = Some (VInt 4) /\
  attr_of (snd (run save_then_load)) 2%positive "MAX_LENGTH" = Some (VInt 0) /\
  (exists stoi, attr_of (snd (run save_then_load)) 1%positive "vocabulary"
                = Some (VVocab stoi)) /\
  attr_of (snd (run save_then_load)) 2%positive "vocabulary" = Some VNone.
Proof.
  split_and!; try (vm_compute; reflexivity).
  - eexists. split; vm_compute; reflexivity.
  - eexists. vm_compute. reflexivity.
Qed.

(** The same for any two stages and any directory: saving one and
    loading into the other leaves the other one as it was. *)
Lemma save_then_load_receiver (w : world) (saved fresh : loc) (path : string) :
  heap (snd ((save_pretrained saved path ;; load_pretrained fresh path) w)) !! fresh
  = heap w !! fresh.
Proof.
  unfold bind at 1.
  destruct (save_pretrained saved path w) as [[[]|e] w1] eqn:E.
  - rewrite load_pretrained_lookup.
    pose proof (keeps_save_pretrained (fun w' => heap w' !! fresh = heap w !! fresh)
                  ltac:(now intros ? ? -> _) saved path w eq_refl) as Hk.
    now rewrite E in Hk.
  - pose proof (keeps_save_pretrained (fun w' => heap w' !! fresh = heap w !! fresh)
                  ltac:(now intros ? ? -> _) saved path w eq_refl) as Hk.
    now rewrite E in Hk.
Qed.

(** ** The target of a translation *)

(** C2 fails on the code: on a translation stage with an English and a
    French vocabulary, the target text "le chat" comes back as the ids
    the English vocabulary gives its tokens (0 and 0, both unknown),
    padded with the id of ["."] in the French vocabulary (11); the
    French vocabulary would have given 12 and 13, through
    [text_pipeline_target], which [transform] defines and never calls. *)
Theorem translation_target_through_source_vocabulary :
  fst (PreprocessTextTranslation.transform 1%positive
         (VSeq [VStr "the cat"; VStr "le chat"]) fitted_translation)
  = Ok (VSeq [VIds [2; 3; 1]; VIds [0; 0; 11]]) /\
  fst (PreprocessTextTranslation.text_pipeline_target 1%positive
         (VStr "le chat") fitted_translation)
  = Ok [12; 13] /\
  attr_of fitted_translation 1%positive "is_fitted" = Some (VBool true) /\
  attr_of fitted_translation 1%positive "MAX_LENGTH" = Some (VInt 3).
Proof. split_and!; vm_compute; reflexivity. Qed.

(** A pipeline that runs the stage fitted on rows of zeros twice: the
    first pass patches the standard deviation of the stage and warns,
    the second pass finds it patched, as when the two halves are run
    one after the other. *)
Lemma pipeline_shares_stages :
  let A := PreprocessingPipeline.Pipeline [(1%positive, tt)] in
  let x := VTensor [F32.zero; F32.zero] in
  fst (PreprocessingPipeline.transform stage_transform
         (PreprocessingPipeline.__add__ A A) x fitted_constant)
  = Ok (VTensor [F32.zero; F32.zero]) /\
  warnings_of (snd (PreprocessingPipeline.transform stage_transform
                      (PreprocessingPipeline.__add__ A A) x fitted_constant))
  = [Normalisation.zeros_warning] /\
  PreprocessingPipeline.transform stage_transform
    (PreprocessingPipeline.__add__ A A) x fitted_constant
  = (y <- PreprocessingPipeline.transform stage_transform A x ;;
     PreprocessingPipeline.transform stage_transform A y) fitted_constant.
Proof.
  intros A x. split_and!; [vm_compute; reflexivity..|].
  apply pipeline_add_transform_eq.
Qed.

(** ** Instances *)

Lemma fit_to_data_flag_witness :
  attr_of fitted_qa 1%positive "is_fitted" = Some (VBool false) /\
  trace_from (trace fitted_qa ++ [EvOpenRead "./PreprocessTextQA.json"])
    (snd (PreprocessTextQA.transform 1%positive
            (VSeq [VStr "the cat"; VStr "the"]) fitted_qa)) /\
  attr_of fitted_constant 1%positive "is_fitted" = Some (VBool true) /\
  attr_of fitted_reviews 1%positive "is_fitted" = Some (VBool true) /\
  attr_of fitted_translation 1%positive "is_fitted" = Some (VBool true).
Proof.
  split_and!.
  - apply (proj1 (fit_to_data_flag 1%positive new_qa fitted_qa) squad).
    vm_compute. reflexivity.
  - apply (proj1 (proj2 (fit_to_data_flag 1%positive fitted_qa fitted_qa))
             (VSeq [VStr "the cat"; VStr "the"])
             (object_at fitted_qa 1%positive));
      vm_compute; reflexivity.
  - apply (proj1 (proj2 (proj2 (fit_to_data_flag 1%positive
                                  (snd (run Normalisation.__init__))
                                  fitted_constant)))
             (Normalisation.Batch [VTensor [F32.zero; F32.zero];
                                   VTensor [F32.zero; F32.zero]])).
    vm_compute. reflexivity.
  - apply (proj1 (proj2 (proj2 (proj2 (fit_to_data_flag 1%positive
             (snd (run (PreprocessTextData.__init__ VNone VNone)))
             fitted_reviews))))
             reviews).
    vm_compute. reflexivity.
  - apply (proj1 (proj2 (proj2 (proj2 (proj2 (fit_to_data_flag 1%positive
             (snd (run (PreprocessTextTranslation.__init__
                          (VVocab en_vocab) (VVocab fr_vocab) VNone VNone)))
             fitted_translation)))))
             [VSeq [VStr "the cat ."; VStr "le chat ."]]).
    vm_compute. reflexivity.
Defined.



Lemma qa_target_transform_span_witness :
  PreprocessTextQATarget.transform 1%positive
    (VSeq [VStr "the quick brown fox"; VStr "which fox"; VSeq [VStr "brown"];
           VSeq [VInt 10]]) new_qa_target
  = (Ok (VSeq [VLong 2; VLong 3]), new_qa_target).
Proof.
  apply (qa_target_transform_span new_qa_target 1%positive String.words
           "the quick brown fox" "brown" (VStr "which fox") (VInt 10) [] [] [] 10).
  - vm_compute. reflexivity.
  - reflexivity.
  - lia.
Defined.

Lemma normalisation_transform_zero_std_witness :
  fst (Normalisation.transform 1%positive (VTensor [F32.pow2 0; F32.zero])
         fitted_constant)
  = Ok (VTensor (zip_with F32.div
                   (zip_with F32.sub [F32.pow2 0; F32.zero] [F32.zero; F32.zero])
                   (patch [F32.zero; F32.zero]))).
Proof.
  destruct (normalisation_transform_zero_std fitted_constant 1%positive
              (object_at fitted_constant 1%positive)
              [F32.zero; F32.zero] [F32.zero; F32.zero] [F32.pow2 0; F32.zero])
    as (_ & _ & H & _).
  - vm_compute. reflexivity.
  - vm_compute. reflexivity.
  - vm_compute. reflexivity.
  - vm_compute. reflexivity.
  - reflexivity.
  - reflexivity.
  - reflexivity.
  - exact H.
Defined.

Lemma normalisation_transform_frame_witness :
  attr_of (snd (Normalisation.transform 1%positive
                  (VTensor [F32.pow2 0; F32.zero]) fitted_constant))
          1%positive "stddev"
  = Some (VTensor [F32.eps; F32.eps]).
Proof.
  destruct (normalisation_transform_frame fitted_constant 1%positive
              (VTensor [F32.pow2 0; F32.zero])) as (_ & _ & H).
  destruct (H [F32.zero; F32.zero]) as [Hpatch _].
  - vm_compute. reflexivity.
  - vm_compute. reflexivity.
  - destruct Hpatch as [Hsd _]; [reflexivity|]. exact Hsd.
Defined.

(** ** Where the stated properties stop *)

(** Against C6 as stated: the stage fitted on two rows of zeros has a
    [stddev] of zeros; it is patched, and the datum whose first entry is
    2^120 comes back with an infinite first entry, since 2^120 divided
    by 1e-7 is above the largest single precision number. *)
Lemma normalisation_result_not_finite :
  attr_of fitted_constant 1%positive "is_fitted" = Some (VBool true) /\
  attr_of fitted_constant 1%positive "stddev"
  = Some (VTensor [F32.zero; F32.zero]) /\
  fst (Normalisation.transform 1%positive (VTensor [F32.pow2 120; F32.zero])
         fitted_constant)
  = Ok (VTensor [F32.inf; F32.zero]) /\
  forallb F32.is_finite [F32.pow2 120; F32.zero] = true /\
  forallb F32.is_finite [F32.inf; F32.zero] = false.
Proof. split_and!; vm_compute; reflexivity. Qed.

(** The stage fitted on two images of zeros raises on the first
    image it is given. *)
Lemma normalisation_images_raise :
  attr_of fitted_images 1%positive "is_fitted" = Some (VBool true) /\
  Normalisation.transform 1%positive
    (VMatrix [[F32.zero; F32.zero]; [F32.zero; F32.zero]]) fitted_images
  = (Raise RuntimeError, fitted_images).
Proof.
  split; [vm_compute; reflexivity|].
  eapply normalisation_transform_matrix; try (vm_compute; reflexivity).
  simpl. lia.
Qed.

(** Against C10 as stated: the stage fitted on two rows of which one
    holds a NaN has a [stddev] that is NaN in that dimension.  The
    first [transform] adds the epsilon; the entry is still NaN and not
    strictly positive, so the next call warns and adds the epsilon
    again, also to the entry that was positive after the first
    patch. *)
Lemma normalisation_patches_again :
  attr_of fitted_with_nan 1%positive "stddev"
  = Some (VTensor [F32.nan; F32.zero]) /\
  attr_of (snd (Normalisation.transform 1%positive
                  (VTensor [F32.pow2 0; F32.pow2 1]) fitted_with_nan))
          1%positive "stddev"
  = Some (VTensor [F32.nan; F32.eps]) /\
  forallb F32.gt0 [F32.nan; F32.eps] = false /\
  attr_of
    (snd ((Normalisation.transform 1%positive (VTensor [F32.pow2 0; F32.pow2 1]) ;;
           Normalisation.transform 1%positive (VTensor [F32.pow2 0; F32.pow2 1]))
          fitted_with_nan))
    1%positive "stddev"
  = Some (VTensor [F32.nan; F32.add F32.eps F32.eps]) /\
  warnings_of
    (snd ((Normalisation.transform 1%positive (VTensor [F32.pow2 0; F32.pow2 1]) ;;
           Normalisation.transform 1%positive (VTensor [F32.pow2 0; F32.pow2 1]))
          fitted_with_nan))
  = [Normalisation.zeros_warning; Normalisation.zeros_warning].
Proof. split_and!; vm_compute; reflexivity. Qed.



(** Against C8 as stated: on a sample whose offset is a plain integer
    [transform] raises, and on one whose answer is a plain string the
    answer is measured by its first character: the end is one token
    after the start, where the answer has two tokens. *)
Lemma qa_target_plain_sample :
  fst (PreprocessTextQATarget.transform 1%positive
         (VSeq [VStr "the quick brown fox"; VStr "which fox";
                VStr "brown fox"; VInt 10]) new_qa_target)
  = Raise TypeError /\
  fst (PreprocessTextQATarget.transform 1%positive
         (VSeq [VStr "the quick brown fox"; VStr "which fox";
                VStr "brown fox"; VSeq [VInt 10]]) new_qa_target)
  = Ok (VSeq [VLong 2; VLong 3]) /\
  length (String.words "brown fox") = 2%nat.
Proof. split_and!; vm_compute; reflexivity. Qed.

(** * More of the module *)

(** ** Computations that only read *)

Lemma readonly_ret {A} (a : A) : readonly (ret a).
Proof. now intros w. Qed.

Lemma readonly_raise {A} e : readonly (@raise A e).
Proof. now intros w. Qed.

Lemma readonly_lift {A} (r : result A) : readonly (lift r).
Proof. now intros w. Qed.

Lemma readonly_bind {A B} (m : M A) (k : A -> M B) :
  readonly m -> (forall a, readonly (k a)) -> readonly (bind m k).
Proof.
  intros Hm Hk w. unfold bind. specialize (Hm w).
  destruct (m w) as [[a|e] w1]; simpl in *; subst w1; [apply Hk|done].
Qed.

Lemma readonly_get_obj self : readonly (get_obj self).
Proof. intros w. unfold get_obj. now destruct (heap w !! self). Qed.

Lemma readonly_getattr self name : readonly (getattr self name).
Proof.
  apply readonly_bind; [apply readonly_get_obj|]. intros o.
  destruct (attrs o !! name); [apply readonly_ret|apply readonly_raise].
Qed.

Lemma readonly_map_m {A B} (f : A -> M B) xs :
  (forall x, readonly (f x)) -> readonly (map_m f xs).
Proof.
  intros Hf. induction xs as [|x xs IH]; simpl.
  - apply readonly_ret.
  - apply readonly_bind; [apply Hf|]. intros y.
    apply readonly_bind; [apply IH|]. intros ys. apply readonly_ret.
Qed.

Lemma readonly_tokenize self name text : readonly (tokenize self name text).
Proof.
  apply readonly_bind; [apply readonly_getattr|]. intros t. apply readonly_lift.
Qed.

Lemma readonly_tokenize_arg self name arg :
  readonly arg -> readonly (tokenize_arg self name arg).
Proof.
  intros Ha. apply readonly_bind; [apply readonly_getattr|]. intros t.
  apply readonly_bind; [done|]. intros text. apply readonly_lift.
Qed.

Lemma readonly_text_pipeline_of self tokenizer vocabulary x :
  readonly (text_pipeline_of self tokenizer vocabulary x).
Proof.
  apply readonly_bind; [apply readonly_tokenize|]. intros tokens.
  apply readonly_map_m. intros token.
  apply readonly_bind; [apply readonly_getattr|]. intros v. apply readonly_lift.
Qed.

Lemma readonly_pad_item_of self vocabulary : readonly (pad_item_of self vocabulary).
Proof.
  apply readonly_bind; [apply readonly_getattr|]. intros v. apply readonly_lift.
Qed.

Lemma readonly_pad_to_max_length self processed pad_item :
  readonly (pad_to_max_length self processed pad_item).
Proof.
  apply readonly_bind; [apply readonly_getattr|]. intros v.
  apply readonly_bind; [apply readonly_lift|]. intros m.
  apply readonly_bind; [apply readonly_lift|]. intros ones.
  apply readonly_bind; [apply readonly_lift|]. intros p. apply readonly_ret.
Qed.

Lemma readonly_unwrap x : readonly (unwrap x).
Proof.
  unfold unwrap. destruct (is_seq x); [apply readonly_lift|apply readonly_ret].
Qed.

(** Closes goals [readonly m] for an [m] made of the steps above. *)
Ltac readonly_steps :=
  repeat first
    [ apply readonly_ret | apply readonly_raise | apply readonly_lift
    | apply readonly_getattr | apply readonly_tokenize
    | apply readonly_text_pipeline_of | apply readonly_pad_item_of
    | apply readonly_pad_to_max_length | apply readonly_unwrap
    | apply readonly_tokenize_arg
    | apply readonly_bind; [|intros ?] ].

(** What follows the reload in the transforms of the text stages only
    reads. *)
Lemma after_reload_readonly {A} (self : loc) (k : M A) w v :
  attr_of w self "is_fitted" = Some v -> truthy v = Ok true ->
  readonly k ->
  snd ((load_unless_fitted self ;; k) w) = w.
Proof.
  intros Hf Ht Hk.
  rewrite (bind_ok _ _ _ _ _ (load_unless_fitted_fitted _ _ _ Hf Ht)). apply Hk.
Qed.

(** A stage of text flagged as fitted transforms without a trace: no
    file is opened, no warning is emitted and no object changes,
    whatever the datum is and whether [transform] returns or raises. *)
Theorem fitted_text_transform_readonly (w : world) (self : loc) (v datum : value) :
  attr_of w self "is_fitted" = Some v ->
  truthy v = Ok true ->
  snd (PreprocessTextData.transform self datum w) = w /\
  snd (PreprocessTextTranslation.transform self datum w) = w /\
  snd (PreprocessTextQA.transform self datum w) = w.
Proof.
  intros Hf Ht. split_and!.
  - apply (after_reload_readonly self _ w v Hf Ht).
    unfold PreprocessTextData.text_pipeline. readonly_steps.
  - apply (after_reload_readonly self _ w v Hf Ht).
    unfold PreprocessTextTranslation.text_pipeline. readonly_steps.
  - apply (after_reload_readonly self _ w v Hf Ht).
    unfold PreprocessTextQA.text_pipeline. readonly_steps.
Qed.

(** [PreprocessTextQATarget.transform] needs no fitted state: it never
    reloads, opens no file and changes nothing, for every datum; and
    when it returns, it returns two scalar positions with
    [0 <= start <= end]. *)
Theorem qa_target_transform_readonly (w : world) (self : loc) (datum : value) :
  snd (PreprocessTextQATarget.transform self datum w) = w /\
  (forall r, fst (PreprocessTextQATarget.transform self datum w) = Ok r ->
     exists pos_init pos_end,
       r = VSeq [VLong pos_init; VLong pos_end] /\ 0 <= pos_init <= pos_end).
Proof.
  split.
  - unfold PreprocessTextQATarget.transform. revert w. readonly_steps.
  - intros r. unfold PreprocessTextQATarget.transform.
    unfold bind at 1. destruct (lift (getitem datum 3) w) as [[positions|e] w1];
      [|discriminate].
    unfold bind at 1. destruct (lift (getitem positions 0) w1) as [[p|e] w2];
      [|discriminate].
    unfold bind at 1. destruct (tokenize_arg _ _ _ w2) as [[tokens|e] w3];
      [|discriminate].
    unfold bind at 1. destruct (tokenize_arg _ _ _ w3) as [[atokens|e] w4];
      [|discriminate].
    simpl. inversion 1; subst r. eexists _, _. split; [reflexivity|lia].
Qed.

(** ** Persisting a stage *)

Lemma save_pretrained_ok w self o path :
  heap w !! self = Some o ->
  save_pretrained self path w =
    (Ok tt,
     World (heap w)
           (<[os_path_join path (class_name o +:+ ".json") := Encoded o]> (fs w))
           (trace w ++ [EvOpenWrite (os_path_join path (class_name o +:+ ".json"))])).
Proof.
  intros Ho. unfold save_pretrained. mrun. rewrite Ho, Ho. cbn [heap fs trace].
  now rewrite insert_insert_eq.
Qed.

(** [save_pretrained(".")], as every fit calls it, writes one file,
    named after the class of the stage, in the current directory: the
    file then holds the snapshot of the stage as it is at the call,
    whatever it held before; no other file and no object changes. *)
Theorem save_pretrained_writes_snapshot (w : world) (self : loc) (o : obj) :
  heap w !! self = Some o ->
  let file := os_path_join "." (class_name o +:+ ".json") in
  let w' := snd (save_pretrained self "." w) in
  fst (save_pretrained self "." w) = Ok tt /\
  fs w' !! file = Some (Encoded o) /\
  (forall other, other <> file -> fs w' !! other = fs w !! other) /\
  heap w' = heap w /\
  trace w' = (trace w ++ [EvOpenWrite file])%list.
Proof.
  intros Ho file w'. subst w'. rewrite (save_pretrained_ok _ _ _ _ Ho). simpl.
  split_and!; try done.
  - apply lookup_insert_eq.
  - intros other Hne. now apply lookup_insert_ne.
Qed.

(** What a stage saved in the current directory is found by the reload
    of every stage of its class: after [save_pretrained(".")], a
    [load_pretrained(".")] by a stage of the same class opens the file
    that was written and returns without a warning; the objects that
    existed are as they were and the files are as the save left
    them. *)
Theorem save_then_load_finds_snapshot (w : world) (saved other : loc)
    (o o' : obj) :
  heap w !! saved = Some o ->
  heap w !! other = Some o' ->
  class_name o' = class_name o ->
  let file := os_path_join "." (class_name o +:+ ".json") in
  let w' := snd ((save_pretrained saved "." ;; load_pretrained other ".") w) in
  fst ((save_pretrained saved "." ;; load_pretrained other ".") w) = Ok tt /\
  trace w' = (trace w ++ [EvOpenWrite file; EvOpenRead file])%list /\
  warnings_of w' = warnings_of w /\
  heap w ⊆ heap w' /\
  fs w' = <[file := Encoded o]> (fs w).
Proof.
  intros Ho Ho' Hc file w'. subst w'.
  rewrite (bind_ok _ _ _ _ _ (save_pretrained_ok _ _ _ _ Ho)).
  erewrite load_pretrained_encoded; simpl; [|exact Ho'|].
  - rewrite Hc. fold file. split_and!; try done.
    + now rewrite <- app_assoc.
    + unfold warnings_of. cbn [trace].
      rewrite <- app_assoc, omap_app. simpl. now rewrite app_nil_r.
    + apply insert_subseteq, fresh_loc_None.
  - rewrite Hc. apply lookup_insert_eq.
Qed.

(** Two stages of one class share the file in the current directory:
    when both persist themselves, as two fitted stages of one class in
    a pipeline do, the second snapshot replaces the first. *)
Theorem save_pretrained_last_writer_wins (w : world) (first second : loc)
    (o1 o2 : obj) :
  heap w !! first = Some o1 ->
  heap w !! second = Some o2 ->
  class_name o1 = class_name o2 ->
  let file := os_path_join "." (class_name o2 +:+ ".json") in
  fst ((save_pretrained first "." ;; save_pretrained second ".") w) = Ok tt /\
  fs (snd ((save_pretrained first "." ;; save_pretrained second ".") w))
  = <[file := Encoded o2]> (fs w).
Proof.
  intros H1 H2 Hc file.
  rewrite (bind_ok _ _ _ _ _ (save_pretrained_ok _ _ _ _ H1)).
  erewrite save_pretrained_ok by exact H2. simpl. split; [done|].
  rewrite Hc. apply insert_insert_eq.
Qed.

(** A file that is there and cannot be decoded is not a missing file:
    [load_pretrained] lets the error of [json.load] through, with no
    warning, and so does the [transform] of every stage that reloads
    when its flag is false. *)
Theorem load_pretrained_corrupt_file (w : world) (self : loc) (o : obj)
    (path : string) :
  heap w !! self = Some o ->
  fs w !! os_path_join path (class_name o +:+ ".json") = Some Undecodable ->
  let opened :=
    World (heap w) (fs w)
      (trace w ++ [EvOpenRead (os_path_join path (class_name o +:+ ".json"))]) in
  load_pretrained self path w = (Raise JSONDecodeError, opened) /\
  (path = "." ->
   forall v, attrs o !! "is_fitted" = Some v -> truthy v = Ok false ->
   forall datum,
     Normalisation.transform self datum w = (Raise JSONDecodeError, opened) /\
     PreprocessTextData.transform self datum w = (Raise JSONDecodeError, opened) /\
     PreprocessTextTranslation.transform self datum w
     = (Raise JSONDecodeError, opened) /\
     PreprocessTextQA.transform self datum w = (Raise JSONDecodeError, opened)).
Proof.
  intros Ho Hf opened. split; [now apply load_pretrained_undecodable|].
  intros -> v Hv Ht datum.
  assert (Hl : load_unless_fitted self w = (Raise JSONDecodeError, opened)).
  { unfold load_unless_fitted.
    rewrite (bind_ok _ _ _ _ _ (getattr_ok _ _ _ _ _ Ho Hv)).
    unfold lift, bind at 1. rewrite Ht. simpl.
    now apply load_pretrained_undecodable. }
  split_and!; now apply bind_raise.
Qed.

(** ** Stages that were never fitted *)

(** A new stage whose flag is false goes through the reload with the
    attributes its constructor gave it, whether a snapshot is on disk or
    not. *)
Lemma reload_of_new_stage w o v :
  attrs o !! "is_fitted" = Some v -> truthy v = Ok false ->
  fs w !! os_path_join "." (class_name o +:+ ".json") <> Some Undecodable ->
  open_failure (fs w) (os_path_join "." (class_name o +:+ ".json"))
  = FileNotFoundError ->
  exists w0 w1,
    alloc o w = (Ok (fresh (dom (heap w))), w0) /\
    load_unless_fitted (fresh (dom (heap w))) w0 = (Ok tt, w1) /\
    heap w1 !! fresh (dom (heap w)) = Some o.
Proof.
  intros Hv Ht Hr He.
  set (l := fresh (dom (heap w))).
  set (w0 := World (<[l := o]> (heap w)) (fs w) (trace w)).
  assert (Ho : heap w0 !! l = Some o) by apply lookup_insert_eq.
  exists w0.
  destruct (fs w !! os_path_join "." (class_name o +:+ ".json")) as [[s|]|] eqn:E.
  - eexists. split; [done|]. split.
    + now apply (load_unless_fitted_encoded w0 l o v s Ho Hv Ht E).
    + simpl. rewrite lookup_insert_ne; [done|].
      apply (fresh_loc_ne _ _ _ Ho).
  - done.
  - eexists. split; [done|]. split.
    + now apply (load_unless_fitted_absent w0 l o v Ho Hv Ht E).
    + done.
Qed.

(** A [Normalisation] stage that was never fitted cannot transform: its
    constructor sets no [stddev], the reload installs none even when a
    snapshot of a fitted stage is on disk, and [transform] raises
    [AttributeError] for every datum. *)
Theorem new_normalisation_transform_raises (w : world) (datum : value) :
  fs w !! "./Normalisation.json" <> Some Undecodable ->
  fst ((self <- Normalisation.__init__ ;; Normalisation.transform self datum) w)
  = Raise AttributeError.
Proof.
  intros Hr. unfold Normalisation.__init__.
  destruct (reload_of_new_stage w
              (Obj Normalisation.name {[ "is_fitted" := VBool false ]})
              (VBool false)) as (w0 & w1 & Ea & El & Ho);
    [done|done|exact Hr|reflexivity|].
  rewrite (bind_ok _ _ _ _ _ Ea). unfold Normalisation.transform.
  rewrite (bind_ok _ _ _ _ _ El).
  erewrite bind_raise; [done|].
  unfold getattr. now rewrite (bind_ok _ _ _ _ _ (get_obj_ok _ _ _ Ho)).
Qed.

(** A text stage built without a vocabulary and never fitted cannot
    transform either: the vocabulary is still [None] after the reload,
    and looking up the padding token in it raises [TypeError], for every
    datum, for [PreprocessTextData] and [PreprocessTextTranslation]. *)
Theorem new_text_stage_transform_raises `{Libs} (w : world)
    (tokenizer tokenizer_target vocabulary_target datum : value) :
  (fs w !! "./PreprocessTextData.json" <> Some Undecodable ->
   fst ((self <- PreprocessTextData.__init__ tokenizer VNone ;;
         PreprocessTextData.transform self datum) w) = Raise TypeError) /\
  (fs w !! "./PreprocessTextTranslation.json" <> Some Undecodable ->
   fst ((self <- PreprocessTextTranslation.__init__
                   VNone vocabulary_target tokenizer tokenizer_target ;;
         PreprocessTextTranslation.transform self datum) w) = Raise TypeError).
Proof.
  split; intros Hr.
  - unfold PreprocessTextData.__init__.
    match goal with |- context [alloc ?o] =>
      destruct (reload_of_new_stage w o (VBool false))
        as (w0 & w1 & Ea & El & Ho); [done|done|exact Hr|reflexivity|] end.
    rewrite (bind_ok _ _ _ _ _ Ea). unfold PreprocessTextData.transform.
    rewrite (bind_ok _ _ _ _ _ El).
    erewrite bind_raise; [done|].
    unfold pad_item_of.
    erewrite bind_ok; [|eapply getattr_ok; [exact Ho|reflexivity]]. done.
  - unfold PreprocessTextTranslation.__init__.
    match goal with |- context [alloc ?o] =>
      destruct (reload_of_new_stage w o (VBool false))
        as (w0 & w1 & Ea & El & Ho); [done|done|exact Hr|reflexivity|] end.
    rewrite (bind_ok _ _ _ _ _ Ea). unfold PreprocessTextTranslation.transform.
    rewrite (bind_ok _ _ _ _ _ El).
    erewrite bind_raise; [done|].
    unfold pad_item_of.
    erewrite bind_ok; [|eapply getattr_ok; [exact Ho|reflexivity]]. done.
Qed.

(** ** What [fit_to_data] computes *)

Lemma max_length_set_refl self w m :
  attr_of w self "MAX_LENGTH" = Some (VInt m) -> max_length_set self w m w.
Proof. intros Hm. now split_and!. Qed.

Lemma max_length_set_trans self w w1 w2 m1 m2 :
  max_length_set self w m1 w1 -> max_length_set self w1 m2 w2 ->
  max_length_set self w m2 w2.
Proof.
  intros (_ & Ha1 & Hf1 & Ht1) (Hm2 & Ha2 & Hf2 & Ht2). split_and!.
  - done.
  - intros name Hne. now rewrite Ha2, Ha1.
  - congruence.
  - congruence.
Qed.

Lemma update_max_length_ok w self tokenizer tok m s :
  attr_of w self tokenizer = Some (VTokenizer tok) ->
  attr_of w self "MAX_LENGTH" = Some (VInt m) ->
  exists w',
    update_max_length self tokenizer (VStr s) w = (Ok tt, w') /\
    max_length_set self w (Z.max m (Z.of_nat (length (tok s)))) w'.
Proof.
  intros Ht Hm. unfold update_max_length.
  rewrite (bind_ok _ _ _ _ _ (getattr_attr_of _ _ _ _ Hm)).
  rewrite (bind_ok _ _ _ _ _ (tokenize_ok _ _ _ _ _ Ht)).
  erewrite bind_ok by reflexivity.
  apply attr_of_Some in Hm as (o & Ho & _).
  eexists. split; [apply (setattr_ok _ _ _ _ _ Ho)|].
  pose proof (attr_of_setattr_eq w self o "MAX_LENGTH"
                (VInt (Z.max m (Z.of_nat (length (tok s))))) Ho) as Heq.
  rewrite (setattr_ok _ _ _ _ _ Ho) in Heq. simpl in Heq.
  split_and!; try done.
  intros name Hne.
  pose proof (attr_of_setattr_ne w self "MAX_LENGTH" name
                (VInt (Z.max m (Z.of_nat (length (tok s))))) ltac:(done)) as Hn.
  now rewrite (setattr_ok _ _ _ _ _ Ho) in Hn.
Qed.

Lemma update_counter_ok w self tokenizer tok counter s :
  attr_of w self tokenizer = Some (VTokenizer tok) ->
  update_counter self tokenizer counter (VStr s) w
  = (Ok (counter_update counter (tok s)), w).
Proof.
  intros Ht. unfold update_counter.
  now rewrite (bind_ok _ _ _ _ _ (tokenize_ok _ _ _ _ _ Ht)).
Qed.

Lemma max_tokens_ge tok m texts : m <= max_tokens tok m texts.
Proof.
  revert m. induction texts as [|s texts IH]; intros m; simpl; [lia|].
  etrans; [|apply IH]. lia.
Qed.

Lemma max_tokens_elem tok m texts s :
  s ∈ texts -> Z.of_nat (length (tok s)) <= max_tokens tok m texts.
Proof.
  revert m. induction texts as [|s' texts IH]; intros m Hs; simpl.
  - by apply elem_of_nil in Hs.
  - apply elem_of_cons in Hs as [->|Hs].
    + etrans; [|apply max_tokens_ge]. lia.
    + now apply IH.
Qed.

(** Counting the texts again from their own maximum changes nothing. *)
Lemma max_tokens_idem tok m texts :
  max_tokens tok (max_tokens tok m texts) texts = max_tokens tok m texts.
Proof.
  assert (H : forall n, (forall s, s ∈ texts -> Z.of_nat (length (tok s)) <= n) ->
                        max_tokens tok n texts = n).
  { induction texts as [|s texts IH]; intros n Hn; simpl; [done|].
    rewrite Z.max_l by (apply Hn; left).
    apply IH. intros s' Hs'. apply Hn. now right. }
  apply H. intros s Hs. now apply max_tokens_elem.
Qed.

(** The loop of [PreprocessTextData.fit_to_data]. *)
Lemma text_data_loop_spec self tok data texts :
  Forall2 (fun item s => sample_text item = Some s) data texts ->
  forall counter w m,
    attr_of w self "tokenizer" = Some (VTokenizer tok) ->
    attr_of w self "MAX_LENGTH" = Some (VInt m) ->
    exists w',
      fold_m (fun counter item =>
          fields <- lift (unpack 2 item) ;;
          text <- unwrap (nth 1 fields VNone) ;;
          counter <- update_counter self "tokenizer" counter text ;;
          update_max_length self "tokenizer" text ;;
          ret counter) data counter w
      = (Ok (count_tokens tok counter texts), w') /\
      max_length_set self w (max_tokens tok m texts) w'.
Proof.
  induction 1 as [|item s data texts Hs _ IH]; intros counter w m Ht Hm.
  - exists w. split; [done|]. now apply max_length_set_refl.
  - destruct item as [| | | |[|label [|text [|? ?]]]| | | | | | |]; try discriminate.
    simpl in Hs. cbn [fold_m].
    destruct (update_max_length_ok w self "tokenizer" tok m s Ht Hm)
      as (w1 & E1 & H1).
    rewrite (bind_ok _ _ _ (counter_update counter (tok s)) w1).
    2:{ erewrite bind_ok by reflexivity. cbn [nth].
        rewrite (bind_ok _ _ _ _ _ (unwrap_text _ _ _ Hs)).
        rewrite (bind_ok _ _ _ _ _ (update_counter_ok _ _ _ _ _ _ Ht)).
        now rewrite (bind_ok _ _ _ _ _ E1). }
    pose proof H1 as (Hm1 & Ha1 & _).
    destruct (IH (counter_update counter (tok s)) w1 _
                ltac:(rewrite Ha1; done) Hm1) as (w' & E & H').
    exists w'. split; [exact E|].
    eapply max_length_set_trans; [exact H1|exact H'].
Qed.

Lemma setattr_spec w self name v name0 v0 :
  attr_of w self name0 = Some v0 ->
  exists w',
    setattr self name v w = (Ok tt, w') /\
    attr_of w' self name = Some v /\
    (forall n, n <> name -> attr_of w' self n = attr_of w self n) /\
    fs w' = fs w /\ trace w' = trace w.
Proof.
  intros H0. apply attr_of_Some in H0 as (o & Ho & _).
  eexists. split; [apply (setattr_ok _ _ _ _ _ Ho)|].
  pose proof (attr_of_setattr_eq w self o name v Ho) as Heq.
  rewrite (setattr_ok _ _ _ _ _ Ho) in Heq. simpl in Heq.
  split_and!; try done.
  intros n Hne.
  pose proof (attr_of_setattr_ne w self name n v ltac:(done)) as Hn.
  now rewrite (setattr_ok _ _ _ _ _ Ho) in Hn.
Qed.

Lemma save_pretrained_spec w self name0 v0 :
  attr_of w self name0 = Some v0 ->
  exists w',
    save_pretrained self "." w = (Ok tt, w') /\
    (forall n, attr_of w' self n = attr_of w self n) /\
    persisted w' self.
Proof.
  intros H0. apply attr_of_Some in H0 as (o & Ho & _).
  eexists. split; [apply (save_pretrained_ok _ _ _ _ Ho)|]. split.
  - done.
  - exists o. simpl. split; [done|]. apply lookup_insert_eq.
Qed.

Lemma build_vocabulary_spec `{Libs} w self name counter v0 :
  attr_of w self name = Some v0 ->
  exists w',
    build_vocabulary self name counter w = (Ok tt, w') /\
    attr_of w' self name = Some (fitted_vocabulary v0 counter) /\
    (forall n, n <> name -> attr_of w' self n = attr_of w self n) /\
    fs w' = fs w /\ trace w' = trace w.
Proof.
  intros Hv. unfold build_vocabulary.
  rewrite (bind_ok _ _ _ _ _ (getattr_attr_of _ _ _ _ Hv)).
  destruct v0; try (exists w; now split_and!).
  apply (setattr_spec w self name _ name VNone Hv).
Qed.

(** [PreprocessTextData.fit_to_data] on a list of (label, text)
    samples, run to its end. *)
Lemma text_data_fit_run `{Libs} self tok data texts w m v0 :
  Forall2 (fun item s => sample_text item = Some s) data texts ->
  attr_of w self "tokenizer" = Some (VTokenizer tok) ->
  attr_of w self "MAX_LENGTH" = Some (VInt m) ->
  attr_of w self "vocabulary" = Some v0 ->
  exists w',
    PreprocessTextData.fit_to_data self data w = (Ok tt, w') /\
    attr_of w' self "MAX_LENGTH" = Some (VInt (max_tokens tok m texts)) /\
    attr_of w' self "vocabulary"
    = Some (fitted_vocabulary v0 (count_tokens tok ∅ texts)) /\
    attr_of w' self "tokenizer" = Some (VTokenizer tok) /\
    attr_of w' self "is_fitted" = Some (VBool true) /\
    persisted w' self.
Proof.
  intros Hd Ht Hm Hv. unfold PreprocessTextData.fit_to_data.
  destruct (text_data_loop_spec self tok data texts Hd ∅ w m Ht Hm)
    as (w1 & E1 & Hm1 & Ha1 & _).
  rewrite (bind_ok _ _ _ _ _ E1).
  destruct (build_vocabulary_spec w1 self "vocabulary"
              (count_tokens tok ∅ texts) v0 ltac:(rewrite Ha1; done))
    as (w2 & E2 & Hv2 & Ha2 & _).
  rewrite (bind_ok _ _ _ _ _ E2).
  destruct (setattr_spec w2 self "is_fitted" (VBool true) _ _ Hv2)
    as (w3 & E3 & Hf3 & Ha3 & _).
  rewrite (bind_ok _ _ _ _ _ E3).
  destruct (save_pretrained_spec w3 self _ _ Hf3) as (w4 & E4 & Ha4 & Hp4).
  exists w4. split; [exact E4|]. rewrite !Ha4. split_and!; try done.
  - rewrite Ha3, Ha2 by done. exact Hm1.
  - now rewrite Ha3.
  - rewrite Ha3, Ha2, Ha1 by done. exact Ht.
Qed.

(** [PreprocessTextData.fit_to_data] on a list of (label, text) samples
    returns and leaves the stage with: [MAX_LENGTH] the greatest number
    of tokens among the texts and the [MAX_LENGTH] it had (the length is
    not reset, a fit can only raise it); the vocabulary it had, or the
    one [Vocab] builds from the counts of all the tokens when it had
    [None]; the flag [True]; and on disk a snapshot of exactly this
    state. *)
Theorem text_data_fit_to_data_spec `{Libs} (w : world) (self : loc)
    (tok : string -> list string) (data : list value) (texts : list string)
    (m : Z) (v0 : value) :
  Forall2 (fun item s => sample_text item = Some s) data texts ->
  attr_of w self "tokenizer" = Some (VTokenizer tok) ->
  attr_of w self "MAX_LENGTH" = Some (VInt m) ->
  attr_of w self "vocabulary" = Some v0 ->
  let w' := snd (PreprocessTextData.fit_to_data self data w) in
  fst (PreprocessTextData.fit_to_data self data w) = Ok tt /\
  attr_of w' self "MAX_LENGTH" = Some (VInt (max_tokens tok m texts)) /\
  m <= max_tokens tok m texts /\
  attr_of w' self "vocabulary"
  = Some (fitted_vocabulary v0 (count_tokens tok ∅ texts)) /\
  attr_of w' self "is_fitted" = Some (VBool true) /\
  persisted w' self.
Proof.
  intros Hd Ht Hm Hv w'. subst w'.
  destruct (text_data_fit_run self tok data texts w m v0 Hd Ht Hm Hv)
    as (w' & -> & ? & ? & ? & ? & ?).
  simpl. split_and!; try done. apply max_tokens_ge.
Qed.

(** The padding invariant on the fitted samples: after
    [fit_to_data], [transform] returns, for every text of the dataset, a
    sequence of exactly [MAX_LENGTH] ids; it does not raise and it does
    not touch the world.  The stage must have had a vocabulary or
    [None]. *)
Theorem text_data_fit_then_transform `{Libs} (w : world) (self : loc)
    (tok : string -> list string) (data : list value) (texts : list string)
    (m : Z) (v0 : value) :
  Forall2 (fun item s => sample_text item = Some s) data texts ->
  attr_of w self "tokenizer" = Some (VTokenizer tok) ->
  attr_of w self "MAX_LENGTH" = Some (VInt m) ->
  attr_of w self "vocabulary" = Some v0 ->
  (v0 = VNone \/ exists stoi, v0 = VVocab stoi) ->
  let w' := snd (PreprocessTextData.fit_to_data self data w) in
  forall datum s,
    text_of datum = Some s -> s ∈ texts ->
    exists out,
      PreprocessTextData.transform self datum w' = (Ok (VIds out), w') /\
      Z.of_nat (length out) = max_tokens tok m texts.
Proof.
  intros Hd Ht Hm Hv Hv0 w' datum s Hs Hin. subst w'.
  destruct (text_data_fit_run self tok data texts w m v0 Hd Ht Hm Hv)
    as (w' & -> & Hm' & Hv' & Ht' & Hf' & _).
  simpl.
  assert (exists stoi, fitted_vocabulary v0 (count_tokens tok ∅ texts)
                       = VVocab stoi) as [stoi Hstoi].
  { destruct Hv0 as [->|[stoi ->]]; simpl; eauto. }
  rewrite Hstoi in Hv'.
  pose proof (max_tokens_elem tok m texts s Hin) as Hle.
  eexists. split.
  - apply (text_data_transform_spec w' w' self tok stoi (max_tokens tok m texts) datum s); try done.
    now apply (load_unless_fitted_fitted _ _ _ Hf').
  - destruct (padded_ids (float32_id stoi) (tok s) (max_tokens tok m texts)
                (float32_id stoi ".") Hle)
      as [[Hlen _] _]. exact Hlen.
Qed.

(** Fitting again: a second [fit_to_data] keeps the vocabulary of the
    first, whatever the new samples are (their tokens are not added),
    never lowers [MAX_LENGTH], and on the same samples changes neither. *)
Theorem text_data_refit `{Libs} (w : world) (self : loc)
    (tok : string -> list string) (data data2 : list value)
    (texts texts2 : list string) (m : Z) (v0 : value) :
  Forall2 (fun item s => sample_text item = Some s) data texts ->
  Forall2 (fun item s => sample_text item = Some s) data2 texts2 ->
  attr_of w self "tokenizer" = Some (VTokenizer tok) ->
  attr_of w self "MAX_LENGTH" = Some (VInt m) ->
  attr_of w self "vocabulary" = Some v0 ->
  (v0 = VNone \/ exists stoi, v0 = VVocab stoi) ->
  let w1 := snd (PreprocessTextData.fit_to_data self data w) in
  let w2 := snd (PreprocessTextData.fit_to_data self data2 w1) in
  fst (PreprocessTextData.fit_to_data self data2 w1) = Ok tt /\
  attr_of w2 self "vocabulary" = attr_of w1 self "vocabulary" /\
  (exists m1 m2, attr_of w1 self "MAX_LENGTH" = Some (VInt m1) /\
                 attr_of w2 self "MAX_LENGTH" = Some (VInt m2) /\
                 m1 <= m2 /\ (texts2 = texts -> m2 = m1)).
Proof.
  intros Hd Hd2 Ht Hm Hv Hv0 w1 w2. subst w2 w1.
  destruct (text_data_fit_run self tok data texts w m v0 Hd Ht Hm Hv)
    as (w1 & -> & Hm1 & Hv1 & Ht1 & _).
  simpl.
  destruct (text_data_fit_run self tok data2 texts2 w1 _ _ Hd2 Ht1 Hm1 Hv1)
    as (w2 & -> & Hm2 & Hv2 & _).
  simpl. split_and!; [done| |].
  - rewrite Hv2, Hv1. f_equal.
    destruct Hv0 as [->|[stoi ->]]; reflexivity.
  - eexists _, _. split_and!; [exact Hm1|exact Hm2|apply max_tokens_ge|].
    intros ->. apply max_tokens_idem.
Qed.

(** A text of more tokens than [MAX_LENGTH] is not truncated: a fitted
    [PreprocessTextData] stage raises [RuntimeError] on it (the padding
    asks [torch.ones] for a negative size), and the world is as it
    was. *)
Theorem text_data_transform_long_text_raises (w : world) (self : loc)
    (tok : string -> list string) (stoi : string -> Z) (m : Z)
    (datum : value) (s : string) :
  attr_of w self "is_fitted" = Some (VBool true) ->
  attr_of w self "tokenizer" = Some (VTokenizer tok) ->
  attr_of w self "vocabulary" = Some (VVocab stoi) ->
  attr_of w self "MAX_LENGTH" = Some (VInt m) ->
  text_of datum = Some s ->
  m < Z.of_nat (length (tok s)) ->
  PreprocessTextData.transform self datum w = (Raise RuntimeError, w).
Proof.
  intros Hf Ht Hv Hm Hs Hlt.
  apply (text_data_transform_too_long w w self tok stoi m datum s); try done.
  now apply (load_unless_fitted_fitted _ _ _ Hf).
Qed.

(** ** [PreprocessTextLabel] *)

Lemma wrap64_in_range (z : Z) : - 2 ^ 63 <= z < 2 ^ 63 -> wrap64 z = z.
Proof.
  intros Hz. unfold wrap64. rewrite Z.mod_small; lia.
Qed.

(** A label that [torch.tensor] converts is returned less one, as an
    int64 has it: the least int64 wraps around to the greatest, every
    other label [n] gives [n - 1].  A list of labels that it converts
    is not unwrapped: every entry is returned less one in the same way.
    The world is untouched. *)
Theorem text_label_transform_converts `{Libs} (w : world) (self : loc)
    (datum : value) :
  (forall n, torch_tensor_long datum = Ok (VLong n) ->
     PreprocessTextLabel.transform self datum w
     = (Ok (VLong (wrap64 (n - 1))), w)) /\
  (forall ids, torch_tensor_long datum = Ok (VIds ids) ->
     PreprocessTextLabel.transform self datum w
     = (Ok (VIds (map (fun n => wrap64 (n - 1)) ids)), w)) /\
  (forall n, - 2 ^ 63 < n < 2 ^ 63 -> wrap64 (n - 1) = n - 1) /\
  wrap64 (- 2 ^ 63 - 1) = 2 ^ 63 - 1.
Proof.
  split_and!.
  - intros x Hx.
    unfold PreprocessTextLabel.transform, PreprocessTextLabel.label_pipeline,
      try_except, bind, lift, ret; simpl; now rewrite !Hx.
  - intros x Hx.
    unfold PreprocessTextLabel.transform, PreprocessTextLabel.label_pipeline,
      try_except, bind, lift, ret; simpl; now rewrite !Hx.
  - intros n Hn. apply wrap64_in_range. lia.
  - reflexivity.
Qed.

(** A tuple or list that [torch.tensor] refuses with [TypeError] is
    replaced by its first element, whatever follows it: the result is
    that of the conversion of the first element alone. *)
Theorem text_label_transform_first_of_sequence `{Libs} (w : world)
    (self : loc) (x : value) (rest : list value) :
  torch_tensor_long (VSeq (x :: rest)) = Raise TypeError ->
  PreprocessTextLabel.transform self (VSeq (x :: rest)) w
  = PreprocessTextLabel.label_pipeline x w.
Proof.
  intros Hx.
  unfold PreprocessTextLabel.transform, try_except, bind at 1.
  unfold PreprocessTextLabel.label_pipeline at 1. unfold bind at 1, lift at 1.
  rewrite Hx. simpl. now destruct (decide (TypeError = TypeError)).
Qed.

(** What [transform] raises: an exception of the conversion other than
    [TypeError] as it is; [TypeError] for a label that is neither a
    number nor a sequence, from the second conversion; [IndexError] for
    an empty sequence that is refused.  In each case the world is
    untouched. *)
Theorem text_label_transform_errors `{Libs} (w : world) (self : loc)
    (datum : value) (e : exn) :
  torch_tensor_long datum = Raise e ->
  (e <> TypeError ->
     PreprocessTextLabel.transform self datum w = (Raise e, w)) /\
  (e = TypeError -> is_seq datum = false ->
     PreprocessTextLabel.transform self datum w = (Raise TypeError, w)) /\
  (e = TypeError -> datum = VSeq [] ->
     PreprocessTextLabel.transform self datum w = (Raise IndexError, w)).
Proof.
  intros He.
  unfold PreprocessTextLabel.transform, PreprocessTextLabel.label_pipeline,
    try_except, unwrap, bind, lift, ret.
  rewrite He. split_and!.
  - intros Hne. now destruct (decide (e = TypeError)).
  - intros -> Hseq. destruct (decide (TypeError = TypeError)); [|done].
    rewrite Hseq. now rewrite He.
  - intros -> ->. now destruct (decide (TypeError = TypeError)).
Qed.

(** ** [PreprocessingPipeline] as a sequence *)

(** Decides the comparisons of integers a goal branches on. *)
Ltac z_cases :=
  repeat match goal with
         | |- context [Z.ltb ?a ?b] => destruct (Z.ltb_spec a b); try lia
         | |- context [Z.leb ?a ?b] => destruct (Z.leb_spec a b); try lia
         end; cbn [orb].

(** Indexing a pipeline of [n] stages: an index from [-n] to [n - 1]
    gives the stage at the position [index mod n] of the iteration
    order, so that a negative index counts from the end; any other
    index raises [IndexError]. *)
Theorem pipeline_getitem_bounds {Marker : Type}
    (p : PreprocessingPipeline.t Marker) (index : Z) :
  let n := Z.of_nat (PreprocessingPipeline.__len__ p) in
  (- n <= index < n ->
   exists stage,
     PreprocessingPipeline.__getitem__ p index = Ok stage /\
     PreprocessingPipeline.__iter__ p !! Z.to_nat (index mod n) = Some stage) /\
  (index < - n \/ n <= index ->
   PreprocessingPipeline.__getitem__ p index = Raise IndexError).
Proof.
  destruct p as [l].
  unfold PreprocessingPipeline.__len__, PreprocessingPipeline.__getitem__,
    PreprocessingPipeline.__iter__. cbn [PreprocessingPipeline.list_of_cls].
  cbv zeta. split.
  - intros Hi.
    assert (index mod Z.of_nat (length l)
            = if index <? 0 then index + Z.of_nat (length l) else index) as ->.
    { destruct (Z.ltb_spec index 0).
      - rewrite <- (Z_mod_plus_full index 1). rewrite Z.mul_1_l.
        apply Z.mod_small. lia.
      - apply Z.mod_small. lia. }
    set (i := if index <? 0 then _ else _).
    assert (0 <= i < Z.of_nat (length l)) as Hr.
    { subst i. destruct (Z.ltb_spec index 0); lia. }
    destruct (Z.ltb_spec i 0); [lia|].
    destruct (Z.leb_spec (Z.of_nat (length l)) i); [lia|]. simpl.
    destruct (lookup_lt_is_Some_2 l (Z.to_nat i) ltac:(lia)) as [stage Hs].
    exists stage. now rewrite Hs.
  - intros Hi.
    set (i := if index <? 0 then _ else _).
    assert (i < 0 \/ Z.of_nat (length l) <= i) as Hr.
    { subst i. destruct (Z.ltb_spec index 0); lia. }
    destruct (Z.ltb_spec i 0); [done|].
    destruct (Z.leb_spec (Z.of_nat (length l)) i); [done|lia].
Qed.

(** The pipeline [a + b] as a sequence: its length is the sum of the
    lengths; an index into the part of [a] gives the stage of [a]; an
    index past it gives the stage of [b] at the index less the length
    of [a]; and a negative index that stays within [b] gives the stage
    [b] has there. *)
Theorem pipeline_getitem_add {Marker : Type}
    (a b : PreprocessingPipeline.t Marker) (index : Z) :
  let la := Z.of_nat (PreprocessingPipeline.__len__ a) in
  let lb := Z.of_nat (PreprocessingPipeline.__len__ b) in
  let ab := PreprocessingPipeline.__add__ a b in
  PreprocessingPipeline.__len__ ab
  = (PreprocessingPipeline.__len__ a + PreprocessingPipeline.__len__ b)%nat /\
  (0 <= index < la ->
   PreprocessingPipeline.__getitem__ ab index
   = PreprocessingPipeline.__getitem__ a index) /\
  (la <= index < la + lb ->
   PreprocessingPipeline.__getitem__ ab index
   = PreprocessingPipeline.__getitem__ b (index - la)) /\
  (- lb <= index < 0 ->
   PreprocessingPipeline.__getitem__ ab index
   = PreprocessingPipeline.__getitem__ b index).
Proof.
  destruct a as [la], b as [lb].
  unfold PreprocessingPipeline.__len__, PreprocessingPipeline.__getitem__,
    PreprocessingPipeline.__add__. cbn [PreprocessingPipeline.list_of_cls].
  cbv zeta. rewrite length_app, Nat2Z.inj_add. split_and!.
  - reflexivity.
  - intros Hi. z_cases. rewrite lookup_app_l by lia. reflexivity.
  - intros Hi. z_cases. rewrite lookup_app_r by lia.
    now replace (Z.to_nat index - length la)%nat
      with (Z.to_nat (index - Z.of_nat (length la))) by lia.
  - intros Hi. z_cases. rewrite lookup_app_r by lia.
    now replace (Z.to_nat (index + (Z.of_nat (length la) + Z.of_nat (length lb)))
                 - length la)%nat
      with (Z.to_nat (index + Z.of_nat (length lb))) by lia.
Qed.

(** [+] on pipelines is associative and the pipeline of no stage is
    neutral on both sides, so pipelines can be composed in any
    grouping. *)
Theorem pipeline_add_assoc {Marker : Type}
    (a b c : PreprocessingPipeline.t Marker) :
  PreprocessingPipeline.__add__ (PreprocessingPipeline.__add__ a b) c
  = PreprocessingPipeline.__add__ a (PreprocessingPipeline.__add__ b c) /\
  PreprocessingPipeline.__add__ (PreprocessingPipeline.Pipeline []) a = a /\
  PreprocessingPipeline.__add__ a (PreprocessingPipeline.Pipeline []) = a.
Proof.
  destruct a as [la], b as [lb], c as [lc].
  unfold PreprocessingPipeline.__add__. cbn [PreprocessingPipeline.list_of_cls].
  split_and!; f_equal.
  - symmetry. apply app_assoc.
  - apply app_nil_r.
Qed.

(** Fitting [a + b]: the stages of [a] are fitted in order, each on the
    data as the dataset classes of the stages before it re-wrapped
    them, and then [b] is fitted on the data that come out of [a]: the
    data are threaded through the whole list, not restarted for [b]. *)
Theorem pipeline_fit_add {Data Marker : Type}
    (stage_fit_to_data : loc -> Data -> M unit)
    (data_type_class : Marker -> Data -> loc -> M Data)
    (a b : PreprocessingPipeline.t Marker) (data : Data) (w : world) :
  PreprocessingPipeline.fit_to_data stage_fit_to_data data_type_class
    (PreprocessingPipeline.__add__ a b) data w
  = (data' <- fold_m (fun data '(preproc_cls, dt) =>
                        stage_fit_to_data preproc_cls data ;;
                        data_type_class dt data preproc_cls)
                     (PreprocessingPipeline.list_of_cls a) data ;;
     PreprocessingPipeline.fit_to_data stage_fit_to_data data_type_class
       b data') w.
Proof.
  unfold PreprocessingPipeline.fit_to_data, PreprocessingPipeline.__add__.
  cbn [PreprocessingPipeline.list_of_cls].
  unfold bind at 1. rewrite fold_m_app. unfold bind.
  destruct (fold_m _ (PreprocessingPipeline.list_of_cls a) data w)
    as [[data'|e] w1]; reflexivity.
Qed.

(** When a stage of [a] raises, [transform] of [a + b] raises the same
    exception in the world that stage left: no stage of [b] runs. *)
Theorem pipeline_transform_stops_at_raise {Batch Marker : Type}
    (stage_transform : loc -> Batch -> M Batch)
    (a b : PreprocessingPipeline.t Marker) (x : Batch) (w w' : world)
    (e : exn) :
  PreprocessingPipeline.transform stage_transform a x w = (Raise e, w') ->
  PreprocessingPipeline.transform stage_transform
    (PreprocessingPipeline.__add__ a b) x w = (Raise e, w').
Proof.
  intros Ha. rewrite pipeline_add_transform_eq. now apply bind_raise.
Qed.

(** ** [Normalisation.fit_to_data] *)

Lemma normalisation_fit_run `{Libs} w self f d :
  attr_of w self "is_fitted" = Some f ->
  d <> Normalisation.Dataset [] ->
  exists w',
    Normalisation.fit_to_data self d w = (Ok tt, w') /\
    attr_of w' self "mean" = Some (torch_mean (batch_of d) 0 false) /\
    attr_of w' self "stddev" = Some (torch_std (batch_of d) 0 false) /\
    attr_of w' self "is_fitted" = Some (VBool true) /\
    persisted w' self.
Proof.
  intros Hf Hd.
  assert (Hmat : forall w0, Normalisation.materialise d w0 = (Ok (batch_of d), w0)).
  { destruct d as [items|[|x items]]; done. }
  unfold Normalisation.fit_to_data, Normalisation._mean, Normalisation._stddev.
  rewrite (bind_ok _ _ w (torch_mean (batch_of d) 0 false) w)
    by now rewrite (bind_ok _ _ _ _ _ (Hmat w)).
  destruct (setattr_spec w self "mean" (torch_mean (batch_of d) 0 false) _ _ Hf)
    as (w1 & E1 & Hm1 & Ha1 & _).
  rewrite (bind_ok _ _ _ _ _ E1).
  rewrite (bind_ok _ _ w1 (torch_std (batch_of d) 0 false) w1)
    by now rewrite (bind_ok _ _ _ _ _ (Hmat w1)).
  destruct (setattr_spec w1 self "stddev" (torch_std (batch_of d) 0 false) _ _ Hm1)
    as (w2 & E2 & Hs2 & Ha2 & _).
  rewrite (bind_ok _ _ _ _ _ E2).
  destruct (setattr_spec w2 self "is_fitted" (VBool true) _ _ Hs2)
    as (w3 & E3 & Hf3 & Ha3 & _).
  rewrite (bind_ok _ _ _ _ _ E3).
  destruct (save_pretrained_spec w3 self _ _ Hf3) as (w4 & E4 & Ha4 & Hp4).
  exists w4. split; [exact E4|]. rewrite !Ha4. split_and!; try done.
  - rewrite Ha3, Ha2 by done. exact Hm1.
  - now rewrite Ha3.
Qed.

(** [Normalisation.fit_to_data] stores the mean and the standard
    deviation along the first dimension, with the dimension dropped, of
    the tensor it is given or of the first components of a dataset (the
    labels play no part); it sets the flag and persists exactly this
    state.  On a dataset of no item it raises [ValueError] before it
    stores anything: the stage and the files are as they were. *)
Theorem normalisation_fit_to_data_spec `{Libs} (w : world) (self : loc)
    (f : value) (d : Normalisation.data) :
  attr_of w self "is_fitted" = Some f ->
  let w' := snd (Normalisation.fit_to_data self d w) in
  (d = Normalisation.Dataset [] ->
   Normalisation.fit_to_data self d w = (Raise ValueError, w)) /\
  (d <> Normalisation.Dataset [] ->
   fst (Normalisation.fit_to_data self d w) = Ok tt /\
   attr_of w' self "mean" = Some (torch_mean (batch_of d) 0 false) /\
   attr_of w' self "stddev" = Some (torch_std (batch_of d) 0 false) /\
   attr_of w' self "is_fitted" = Some (VBool true) /\
   persisted w' self).
Proof.
  intros Hf w'. subst w'. split.
  - intros ->. reflexivity.
  - intros Hd.
    destruct (normalisation_fit_run w self f d Hf Hd) as (w' & -> & ?).
    now split.
Qed.

(** Fitting and then transforming: when the standard deviation of the
    fitted batch is a one-dimensional tensor of positive entries,
    [transform] returns [(datum - mean) / stddev] with the statistics
    of that batch; it reads no file, gives no warning and changes
    nothing. *)
Theorem normalisation_fit_then_transform `{Libs} (w : world) (self : loc)
    (f : value) (d : Normalisation.data) (mu sd : list F32.t) :
  attr_of w self "is_fitted" = Some f ->
  d <> Normalisation.Dataset [] ->
  torch_mean (batch_of d) 0 false = VTensor mu ->
  torch_std (batch_of d) 0 false = VTensor sd ->
  forallb F32.gt0 sd = true ->
  let w' := snd (Normalisation.fit_to_data self d w) in
  forall xs,
    Normalisation.transform self (VTensor xs) w' = (normalise xs mu sd, w').
Proof.
  intros Hf Hd Hmu Hsd Hpos w' xs. subst w'.
  destruct (normalisation_fit_run w self f d Hf Hd)
    as (w' & -> & Hm' & Hs' & Hf' & _).
  simpl. rewrite Hmu in Hm'. rewrite Hsd in Hs'.
  now apply (normalisation_transform_positive w' self (VBool true)).
Qed.

(** A stage fitted on a batch of images cannot transform: when the
    standard deviation of the fitted batch has two dimensions and rows
    of more or less than one entry, every [transform] raises
    [RuntimeError], at the test [all(self.stddev > 0)], and changes
    nothing. *)
Theorem normalisation_fit_images_then_transform `{Libs} (w : world)
    (self : loc) (f : value) (d : Normalisation.data)
    (row : list F32.t) (rows : list (list F32.t)) :
  attr_of w self "is_fitted" = Some f ->
  d <> Normalisation.Dataset [] ->
  torch_std (batch_of d) 0 false = VMatrix (row :: rows) ->
  length row <> 1%nat ->
  let w' := snd (Normalisation.fit_to_data self d w) in
  forall datum,
    Normalisation.transform self datum w' = (Raise RuntimeError, w').
Proof.
  intros Hf Hd Hsd Hrow w' datum. subst w'.
  destruct (normalisation_fit_run w self f d Hf Hd)
    as (w' & -> & _ & Hs' & Hf' & _).
  simpl. rewrite Hsd in Hs'.
  now apply (normalisation_transform_matrix w' self (VBool true) row rows).
Qed.

(** ** The fits of the stages that take two texts *)

Lemma max_pair_tokens_ge tok tok_target m pairs :
  m <= max_pair_tokens tok tok_target m pairs.
Proof.
  revert m. induction pairs as [|[a b] pairs IH]; intros m; simpl; [lia|].
  etrans; [|apply IH]. lia.
Qed.

Lemma max_pair_tokens_elem tok tok_target m pairs a b :
  (a, b) ∈ pairs ->
  Z.of_nat (length (tok a)) <= max_pair_tokens tok tok_target m pairs /\
  Z.of_nat (length (tok_target b)) <= max_pair_tokens tok tok_target m pairs.
Proof.
  revert m. induction pairs as [|[a' b'] pairs IH]; intros m Hp; simpl.
  - by apply elem_of_nil in Hp.
  - apply elem_of_cons in Hp as [Heq|Hp].
    + inversion Heq; subst a' b'.
      pose proof (max_pair_tokens_ge tok tok_target
                    (Z.max (Z.max m (Z.of_nat (length (tok a))))
                           (Z.of_nat (length (tok_target b)))) pairs).
      lia.
    + now apply IH.
Qed.

Lemma update_max_length_item_ok w self tokenizer tok m text i s :
  attr_of w self tokenizer = Some (VTokenizer tok) ->
  attr_of w self "MAX_LENGTH" = Some (VInt m) ->
  getitem text i = Ok (VStr s) ->
  exists w',
    PreprocessTextTranslation.update_max_length_item self tokenizer text i w
    = (Ok tt, w') /\
    max_length_set self w (Z.max m (Z.of_nat (length (tok s)))) w'.
Proof.
  intros Ht Hm Hi. unfold PreprocessTextTranslation.update_max_length_item.
  rewrite (bind_ok _ _ _ _ _ (getattr_attr_of _ _ _ _ Hm)).
  assert (lift (getitem text i) w = (Ok (VStr s), w)) as Harg
    by (unfold lift; now rewrite Hi).
  rewrite (bind_ok _ _ _ _ _ (tokenize_arg_ok _ _ _ _ _ s Ht Harg)).
  erewrite bind_ok by reflexivity.
  destruct (setattr_spec w self "MAX_LENGTH"
              (VInt (Z.max m (Z.of_nat (length (tok s))))) _ _ Hm)
    as (w' & E & ? & ? & ? & ?).
  exists w'. now split_and!.
Qed.

(** The loop of [PreprocessTextTranslation.fit_to_data]. *)
Lemma translation_loop_spec self tok tok_target data pairs :
  Forall2 (fun item p => pair_texts item = Some p) data pairs ->
  forall counter counter_target w m,
    attr_of w self "tokenizer" = Some (VTokenizer tok) ->
    attr_of w self "tokenizer_target" = Some (VTokenizer tok_target) ->
    attr_of w self "MAX_LENGTH" = Some (VInt m) ->
    exists w',
      fold_m (fun '(counter, counter_target) text =>
          tokens <- tokenize_arg self "tokenizer" (lift (getitem text 0)) ;;
          let counter := counter_update counter tokens in
          tokens_target <-
            tokenize_arg self "tokenizer_target" (lift (getitem text 1)) ;;
          let counter_target := counter_update counter_target tokens_target in
          PreprocessTextTranslation.update_max_length_item
            self "tokenizer" text 0 ;;
          PreprocessTextTranslation.update_max_length_item
            self "tokenizer_target" text 1 ;;
          ret (counter, counter_target))
        data (counter, counter_target) w
      = (Ok (count_tokens tok counter pairs.*1,
             count_tokens tok_target counter_target pairs.*2), w') /\
      max_length_set self w (max_pair_tokens tok tok_target m pairs) w'.
Proof.
  induction 1 as [|item [a b] data pairs Hs _ IH];
    intros counter counter_target w m Ht Htt Hm.
  - exists w. split; [done|]. now apply max_length_set_refl.
  - destruct item as [| | | |[|[] [|[] rest]]| | | | | | |]; try discriminate.
    simpl in Hs. inversion Hs; subst. cbn [fold_m].
    destruct (update_max_length_item_ok w self "tokenizer" tok m
                (VSeq (VStr a :: VStr b :: rest)) 0 a Ht Hm eq_refl)
      as (w1 & E1 & H1).
    pose proof H1 as (Hm1 & Ha1 & _).
    destruct (update_max_length_item_ok w1 self "tokenizer_target" tok_target _
                (VSeq (VStr a :: VStr b :: rest)) 1 b
                ltac:(rewrite Ha1; done) Hm1 eq_refl)
      as (w2 & E2 & H2).
    pose proof H2 as (Hm2 & Ha2 & _).
    rewrite (bind_ok _ _ _ (counter_update counter (tok a),
                            counter_update counter_target (tok_target b)) w2).
    2:{ rewrite (bind_ok _ _ _ _ _
                   (tokenize_arg_ok w self "tokenizer" tok
                      (lift (getitem (VSeq (VStr a :: VStr b :: rest)) 0)) a
                      Ht eq_refl)).
        rewrite (bind_ok _ _ _ _ _
                   (tokenize_arg_ok w self "tokenizer_target" tok_target
                      (lift (getitem (VSeq (VStr a :: VStr b :: rest)) 1)) b
                      Htt eq_refl)).
        rewrite (bind_ok _ _ _ _ _ E1).
        now rewrite (bind_ok _ _ _ _ _ E2). }
    destruct (IH (counter_update counter (tok a))
                (counter_update counter_target (tok_target b)) w2 _
                ltac:(rewrite Ha2, Ha1; done) ltac:(rewrite Ha2, Ha1; done) Hm2)
      as (w' & E & H').
    exists w'. split; [exact E|].
    eapply max_length_set_trans; [|exact H'].
    eapply max_length_set_trans; [exact H1|exact H2].
Qed.

Lemma translation_fit_run `{Libs} self tok tok_target data pairs w m v0 v1 :
  Forall2 (fun item p => pair_texts item = Some p) data pairs ->
  attr_of w self "tokenizer" = Some (VTokenizer tok) ->
  attr_of w self "tokenizer_target" = Some (VTokenizer tok_target) ->
  attr_of w self "MAX_LENGTH" = Some (VInt m) ->
  attr_of w self "vocabulary" = Some v0 ->
  attr_of w self "vocabulary_target" = Some v1 ->
  exists w',
    PreprocessTextTranslation.fit_to_data self data w = (Ok tt, w') /\
    attr_of w' self "MAX_LENGTH"
    = Some (VInt (max_pair_tokens tok tok_target m pairs)) /\
    attr_of w' self "vocabulary"
    = Some (fitted_vocabulary v0 (count_tokens tok ∅ pairs.*1)) /\
    attr_of w' self "vocabulary_target"
    = Some (fitted_vocabulary v1 (count_tokens tok_target ∅ pairs.*2)) /\
    attr_of w' self "tokenizer" = Some (VTokenizer tok) /\
    attr_of w' self "is_fitted" = Some (VBool true) /\
    persisted w' self.
Proof.
  intros Hd Ht Htt Hm Hv Hvt. unfold PreprocessTextTranslation.fit_to_data.
  destruct (translation_loop_spec self tok tok_target data pairs Hd ∅ ∅ w m
              Ht Htt Hm) as (w1 & E1 & Hm1 & Ha1 & _).
  rewrite (bind_ok _ _ _ _ _ E1). cbn [fst snd].
  destruct (build_vocabulary_spec w1 self "vocabulary"
              (count_tokens tok ∅ pairs.*1) v0 ltac:(rewrite Ha1; done))
    as (w2 & E2 & Hv2 & Ha2 & _).
  rewrite (bind_ok _ _ _ _ _ E2).
  destruct (build_vocabulary_spec w2 self "vocabulary_target"
              (count_tokens tok_target ∅ pairs.*2) v1
              ltac:(rewrite Ha2, Ha1; done))
    as (w3 & E3 & Hv3 & Ha3 & _).
  rewrite (bind_ok _ _ _ _ _ E3).
  destruct (setattr_spec w3 self "is_fitted" (VBool true) _ _ Hv3)
    as (w4 & E4 & Hf4 & Ha4 & _).
  rewrite (bind_ok _ _ _ _ _ E4).
  destruct (save_pretrained_spec w4 self _ _ Hf4) as (w5 & E5 & Ha5 & Hp5).
  exists w5. split; [exact E5|]. rewrite !Ha5. split_and!; try done.
  - rewrite Ha4, Ha3, Ha2 by done. exact Hm1.
  - rewrite Ha4, Ha3 by done. exact Hv2.
  - now rewrite Ha4.
  - rewrite Ha4, Ha3, Ha2, Ha1 by done. exact Ht.
Qed.

(** [PreprocessTextTranslation.fit_to_data] on a list of (source,
    target) pairs returns and leaves: one [MAX_LENGTH] for both sides,
    the greatest number of tokens among the sources under [tokenizer],
    the targets under [tokenizer_target] and the length it had; each
    vocabulary as it was, or built from the counts of its own side
    where it was [None]; the flag [True]; and a snapshot of this state
    on disk. *)
Theorem translation_fit_to_data_spec `{Libs} (w : world) (self : loc)
    (tok tok_target : string -> list string) (data : list value)
    (pairs : list (string * string)) (m : Z) (v0 v1 : value) :
  Forall2 (fun item p => pair_texts item = Some p) data pairs ->
  attr_of w self "tokenizer" = Some (VTokenizer tok) ->
  attr_of w self "tokenizer_target" = Some (VTokenizer tok_target) ->
  attr_of w self "MAX_LENGTH" = Some (VInt m) ->
  attr_of w self "vocabulary" = Some v0 ->
  attr_of w self "vocabulary_target" = Some v1 ->
  let w' := snd (PreprocessTextTranslation.fit_to_data self data w) in
  fst (PreprocessTextTranslation.fit_to_data self data w) = Ok tt /\
  attr_of w' self "MAX_LENGTH"
  = Some (VInt (max_pair_tokens tok tok_target m pairs)) /\
  attr_of w' self "vocabulary"
  = Some (fitted_vocabulary v0 (count_tokens tok ∅ pairs.*1)) /\
  attr_of w' self "vocabulary_target"
  = Some (fitted_vocabulary v1 (count_tokens tok_target ∅ pairs.*2)) /\
  attr_of w' self "is_fitted" = Some (VBool true) /\
  persisted w' self.
Proof.
  intros Hd Ht Htt Hm Hv Hvt w'. subst w'.
  destruct (translation_fit_run self tok tok_target data pairs w m v0 v1
              Hd Ht Htt Hm Hv Hvt) as (w' & -> & ? & ? & ? & ? & ? & ?).
  simpl. now split_and!.
Qed.

(** Fitting and then transforming a fitted pair: [transform] tokenizes
    the target with the source tokenizer, while [fit_to_data] measured
    it with the target tokenizer; when the two tokenizers are the same
    function, every fitted pair is transformed, without an exception,
    to two sequences of [MAX_LENGTH] ids each. *)
Theorem translation_fit_then_transform `{Libs} (w : world) (self : loc)
    (tok : string -> list string) (data : list value)
    (pairs : list (string * string)) (m : Z) (v0 v1 : value) :
  Forall2 (fun item p => pair_texts item = Some p) data pairs ->
  attr_of w self "tokenizer" = Some (VTokenizer tok) ->
  attr_of w self "tokenizer_target" = Some (VTokenizer tok) ->
  attr_of w self "MAX_LENGTH" = Some (VInt m) ->
  attr_of w self "vocabulary" = Some v0 ->
  attr_of w self "vocabulary_target" = Some v1 ->
  (v0 = VNone \/ exists stoi, v0 = VVocab stoi) ->
  (v1 = VNone \/ exists stoi, v1 = VVocab stoi) ->
  let w' := snd (PreprocessTextTranslation.fit_to_data self data w) in
  forall a b rest,
    (a, b) ∈ pairs ->
    exists out out_target,
      PreprocessTextTranslation.transform self
        (VSeq (VStr a :: VStr b :: rest)) w'
      = (Ok (VSeq [VIds out; VIds out_target]), w') /\
      Z.of_nat (length out) = max_pair_tokens tok tok m pairs /\
      Z.of_nat (length out_target) = max_pair_tokens tok tok m pairs.
Proof.
  intros Hd Ht Htt Hm Hv Hvt Hv0 Hv1 w' a b rest Hin. subst w'.
  destruct (translation_fit_run self tok tok data pairs w m v0 v1
              Hd Ht Htt Hm Hv Hvt)
    as (w' & -> & Hm' & Hv' & Hvt' & Ht' & Hf' & _).
  simpl.
  assert (exists stoi, fitted_vocabulary v0 (count_tokens tok ∅ pairs.*1)
                       = VVocab stoi) as [stoi Hstoi].
  { destruct Hv0 as [->|[stoi ->]]; simpl; eauto. }
  assert (exists stoi, fitted_vocabulary v1 (count_tokens tok ∅ pairs.*2)
                       = VVocab stoi) as [stoi_target Hstoi_target].
  { destruct Hv1 as [->|[stoi' ->]]; simpl; eauto. }
  rewrite Hstoi in Hv'. rewrite Hstoi_target in Hvt'.
  destruct (max_pair_tokens_elem tok tok m pairs a b Hin) as [Hla Hlb].
  eexists _, _. split.
  - apply (translation_transform_spec w' w' self tok stoi stoi_target
             (max_pair_tokens tok tok m pairs) a b rest); try done.
    now apply (load_unless_fitted_fitted _ _ _ Hf').
  - destruct (padded_ids (float32_id stoi) (tok a) _ (float32_id stoi ".") Hla)
      as [[Hlen _] _].
    destruct (padded_ids (float32_id stoi) (tok b) _
                (float32_id stoi_target ".") Hlb) as [[Hlen' _] _].
    done.
Qed.

(** The loop of [PreprocessTextQA.fit_to_data]. *)
Lemma qa_loop_spec self tok data pairs :
  Forall2 (fun item p => qa_texts item = Some p) data pairs ->
  forall counter w m,
    attr_of w self "tokenizer" = Some (VTokenizer tok) ->
    attr_of w self "MAX_LENGTH" = Some (VInt m) ->
    exists w',
      fold_m (fun counter item =>
          fields <- lift (unpack 4 item) ;;
          context <- unwrap (nth 0 fields VNone) ;;
          counter <- update_counter self "tokenizer" counter context ;;
          update_max_length self "tokenizer" context ;;
          question <- unwrap (nth 1 fields VNone) ;;
          counter <- update_counter self "tokenizer" counter question ;;
          update_max_length self "tokenizer" question ;;
          ret counter) data counter w
      = (Ok (count_pair_tokens tok counter pairs), w') /\
      max_length_set self w (max_pair_tokens tok tok m pairs) w'.
Proof.
  induction 1 as [|item [c q] data pairs Hs _ IH]; intros counter w m Ht Hm.
  - exists w. split; [done|]. now apply max_length_set_refl.
  - destruct item as [| | | |[|c0 [|q0 [|a0 [|p0 [|? ?]]]]]| | | | | | |];
      try discriminate.
    simpl in Hs.
    destruct (text_of c0) as [c'|] eqn:Hc; [|discriminate].
    destruct (text_of q0) as [q'|] eqn:Hq; [|discriminate].
    inversion Hs; subst c' q'. cbn [fold_m].
    destruct (update_max_length_ok w self "tokenizer" tok m c Ht Hm)
      as (w1 & E1 & H1).
    pose proof H1 as (Hm1 & Ha1 & _).
    assert (attr_of w1 self "tokenizer" = Some (VTokenizer tok)) as Ht1
      by (rewrite Ha1; done).
    destruct (update_max_length_ok w1 self "tokenizer" tok _ q Ht1 Hm1)
      as (w2 & E2 & H2).
    pose proof H2 as (Hm2 & Ha2 & _).
    rewrite (bind_ok _ _ _
               (counter_update (counter_update counter (tok c)) (tok q)) w2).
    2:{ erewrite bind_ok by reflexivity. cbn [nth].
        rewrite (bind_ok _ _ _ _ _ (unwrap_text _ _ _ Hc)).
        rewrite (bind_ok _ _ _ _ _ (update_counter_ok _ _ _ _ _ _ Ht)).
        rewrite (bind_ok _ _ _ _ _ E1).
        rewrite (bind_ok _ _ _ _ _ (unwrap_text _ _ _ Hq)).
        rewrite (bind_ok _ _ _ _ _ (update_counter_ok _ _ _ _ _ _ Ht1)).
        now rewrite (bind_ok _ _ _ _ _ E2). }
    destruct (IH (counter_update (counter_update counter (tok c)) (tok q)) w2 _
                ltac:(rewrite Ha2; done) Hm2) as (w' & E & H').
    exists w'. split; [exact E|].
    eapply max_length_set_trans; [|exact H'].
    eapply max_length_set_trans; [exact H1|exact H2].
Qed.

Lemma qa_fit_run `{Libs} self tok data pairs w m v0 :
  Forall2 (fun item p => qa_texts item = Some p) data pairs ->
  attr_of w self "tokenizer" = Some (VTokenizer tok) ->
  attr_of w self "MAX_LENGTH" = Some (VInt m) ->
  attr_of w self "vocabulary" = Some v0 ->
  forall stoi,
    fitted_vocabulary v0 (count_pair_tokens tok ∅ pairs) = VVocab stoi ->
    exists w',
      PreprocessTextQA.fit_to_data self data w = (Ok tt, w') /\
      attr_of w' self "MAX_LENGTH"
      = Some (VInt (max_pair_tokens tok tok m pairs)) /\
      attr_of w' self "vocabulary" = Some (VVocab stoi) /\
      attr_of w' self "pad_item" = Some (VInt (stoi ".")) /\
      attr_of w' self "tokenizer" = Some (VTokenizer tok) /\
      attr_of w' self "is_fitted" = Some (VBool false) /\
      persisted w' self.
Proof.
  intros Hd Ht Hm Hv stoi Hstoi. unfold PreprocessTextQA.fit_to_data.
  destruct (qa_loop_spec self tok data pairs Hd ∅ w m Ht Hm)
    as (w1 & E1 & Hm1 & Ha1 & _).
  rewrite (bind_ok _ _ _ _ _ E1).
  destruct (build_vocabulary_spec w1 self "vocabulary"
              (count_pair_tokens tok ∅ pairs) v0 ltac:(rewrite Ha1; done))
    as (w2 & E2 & Hv2 & Ha2 & _).
  rewrite (bind_ok _ _ _ _ _ E2). rewrite Hstoi in Hv2.
  rewrite (bind_ok _ _ _ _ _ (pad_item_of_ok _ _ _ _ Hv2)).
  destruct (setattr_spec w2 self "pad_item" (VInt (stoi ".")) _ _ Hv2)
    as (w3 & E3 & Hp3 & Ha3 & _).
  rewrite (bind_ok _ _ _ _ _ E3).
  destruct (setattr_spec w3 self "is_fitted" (VBool false) _ _ Hp3)
    as (w4 & E4 & Hf4 & Ha4 & _).
  rewrite (bind_ok _ _ _ _ _ E4).
  destruct (save_pretrained_spec w4 self _ _ Hf4) as (w5 & E5 & Ha5 & Hp5).
  exists w5. split; [exact E5|]. rewrite !Ha5. split_and!; try done.
  - rewrite Ha4, Ha3, Ha2 by done. exact Hm1.
  - rewrite Ha4, Ha3 by done. exact Hv2.
  - now rewrite Ha4.
  - rewrite Ha4, Ha3, Ha2, Ha1 by done. exact Ht.
Qed.

(** [PreprocessTextQA.fit_to_data] on (context, question, answer,
    position) samples looks at the contexts and the questions only: it
    leaves [MAX_LENGTH] the greatest number of tokens among them and
    the length it had, the vocabulary it had or one built from the
    counts of both, [pad_item] the id of ["."] in that vocabulary, the
    flag [False], and a snapshot of this state on disk.  The answers
    and the positions are neither counted nor measured. *)
Theorem qa_fit_to_data_spec `{Libs} (w : world) (self : loc)
    (tok : string -> list string) (data : list value)
    (pairs : list (string * string)) (m : Z) (v0 : value)
    (stoi : string -> Z) :
  Forall2 (fun item p => qa_texts item = Some p) data pairs ->
  attr_of w self "tokenizer" = Some (VTokenizer tok) ->
  attr_of w self "MAX_LENGTH" = Some (VInt m) ->
  attr_of w self "vocabulary" = Some v0 ->
  fitted_vocabulary v0 (count_pair_tokens tok ∅ pairs) = VVocab stoi ->
  let w' := snd (PreprocessTextQA.fit_to_data self data w) in
  fst (PreprocessTextQA.fit_to_data self data w) = Ok tt /\
  attr_of w' self "MAX_LENGTH"
  = Some (VInt (max_pair_tokens tok tok m pairs)) /\
  attr_of w' self "vocabulary" = Some (VVocab stoi) /\
  attr_of w' self "pad_item" = Some (VInt (stoi ".")) /\
  attr_of w' self "is_fitted" = Some (VBool false) /\
  persisted w' self.
Proof.
  intros Hd Ht Hm Hv Hstoi w'. subst w'.
  destruct (qa_fit_run self tok data pairs w m v0 Hd Ht Hm Hv stoi Hstoi)
    as (w' & -> & ? & ? & ? & ? & ? & ?).
  simpl. now split_and!.
Qed.

(** Fitting and then transforming a fitted sample: although the flag
    is [False] after the fit, [transform] of a (context, question, ...)
    sample whose two texts were fitted returns two sequences of
    [MAX_LENGTH] ids each; the reload it attempts finds the snapshot
    the fit wrote, and what it changes is not the stage: the attributes
    of the stage and the files are as the fit left them. *)
Theorem qa_fit_then_transform `{Libs} (w : world) (self : loc)
    (tok : string -> list string) (data : list value)
    (pairs : list (string * string)) (m : Z) (v0 : value)
    (stoi : string -> Z) :
  Forall2 (fun item p => qa_texts item = Some p) data pairs ->
  attr_of w self "tokenizer" = Some (VTokenizer tok) ->
  attr_of w self "MAX_LENGTH" = Some (VInt m) ->
  attr_of w self "vocabulary" = Some v0 ->
  fitted_vocabulary v0 (count_pair_tokens tok ∅ pairs) = VVocab stoi ->
  let w' := snd (PreprocessTextQA.fit_to_data self data w) in
  forall c q rest,
    (c, q) ∈ pairs ->
    let datum := VSeq (VStr c :: VStr q :: rest) in
    exists out_context out_question,
      fst (PreprocessTextQA.transform self datum w')
      = Ok (VSeq [VIds out_context; VIds out_question]) /\
      Z.of_nat (length out_context) = max_pair_tokens tok tok m pairs /\
      Z.of_nat (length out_question) = max_pair_tokens tok tok m pairs /\
      (forall name,
         attr_of (snd (PreprocessTextQA.transform self datum w')) self name
         = attr_of w' self name) /\
      fs (snd (PreprocessTextQA.transform self datum w')) = fs w'.
Proof.
  intros Hd Ht Hm Hv Hstoi w' c q rest Hin datum. subst w' datum.
  destruct (qa_fit_run self tok data pairs w m v0 Hd Ht Hm Hv stoi Hstoi)
    as (w' & -> & Hm' & Hv' & Hp' & Ht' & Hf' & (o & Ho & Hfile)).
  simpl.
  apply attr_of_Some in Hf' as (o' & Ho' & Hflag).
  assert (o' = o) as -> by congruence.
  pose proof (load_unless_fitted_encoded w' self o (VBool false) o
                Ho Hflag eq_refl Hfile) as Hl.
  destruct (max_pair_tokens_elem tok tok m pairs c q Hin) as [Hlc Hlq].
  rewrite (qa_transform_spec w' _ self tok stoi
             (max_pair_tokens tok tok m pairs) (VInt (stoi ".")) (stoi ".")
             c q rest Hl Ht' Hv' Hm' Hp' eq_refl Hlc Hlq).
  eexists _, _. split; [reflexivity|]. cbn [snd fs].
  destruct (padded_ids (float32_id stoi) (tok c) _ (float32_id stoi ".") Hlc)
    as [[Hlen _] _].
  destruct (padded_ids (float32_id stoi) (tok q) _ (float32_id stoi ".") Hlq)
    as [[Hlen' _] _].
  split_and!; try done.
  intros name. apply (load_unless_fitted_attrs _ _ _ Hl).
Qed.

(** ** More of [Normalisation.transform] *)

(** A transform that fails has still patched the stage: with a
    standard deviation that is not positive everywhere and a datum
    whose size meets the mean in no way, [transform] raises
    [RuntimeError] at the subtraction, after it has warned and
    overwritten the stored standard deviation. *)
Theorem normalisation_transform_failure_patches (w : world) (self : loc)
    (mu sd xs : list F32.t) :
  attr_of w self "is_fitted" = Some (VBool true) ->
  attr_of w self "mean" = Some (VTensor mu) ->
  attr_of w self "stddev" = Some (VTensor sd) ->
  forallb F32.gt0 sd = false ->
  length xs <> length mu -> length xs <> 1%nat -> length mu <> 1%nat ->
  let w' := snd (Normalisation.transform self (VTensor xs) w) in
  fst (Normalisation.transform self (VTensor xs) w) = Raise RuntimeError /\
  attr_of w' self "stddev" = Some (VTensor (patch sd)) /\
  trace w' = (trace w ++ [EvWarn Normalisation.zeros_warning])%list.
Proof.
  intros Hf Hmu Hsd Hneg Hlen Hx Hm w'. subst w'.
  apply attr_of_Some in Hf as (o & Ho & Hf).
  unfold attr_of in Hmu, Hsd. rewrite Ho in Hmu, Hsd. simpl in Hmu, Hsd.
  rewrite (normalisation_transform_patch w self o (VBool true) sd (VTensor xs)
             Ho Hf eq_refl Hsd Hneg).
  rewrite Hmu. cbn [fst snd trace]. split_and!.
  - unfold tensor_sub, tensor_op, broadcast2.
    destruct (Nat.eqb_spec (length xs) (length mu)); [done|].
    destruct xs as [|x [|x' xs]], mu as [|y [|y' mu]]; simpl in *; done.
  - unfold attr_of. cbn [heap]. rewrite lookup_insert_eq. simpl.
    apply lookup_insert_eq.
  - reflexivity.
Qed.

Lemma sequence_map_ok {A B} (g : A -> result B) (h : A -> B) (l : list A) :
  Forall (fun x => g x = Ok (h x)) l -> sequence (map g l) = Ok (map h l).
Proof.
  induction 1 as [|x l Hx _ IH]; simpl; [done|]. now rewrite Hx, IH.
Qed.

Lemma broadcast2_same f xs ys :
  length xs = length ys -> broadcast2 f xs ys = Ok (zip_with f xs ys).
Proof.
  intros Hlen. unfold broadcast2. now rewrite Hlen, Nat.eqb_refl.
Qed.

Lemma broadcast_rows_tensor f rows ys :
  Forall (fun r => length r = length ys) rows ->
  broadcast_rows f rows [ys] = Ok (map (fun r => zip_with f r ys) rows).
Proof.
  intros Hrows.
  assert (sequence (map (fun r => broadcast2 f r ys) rows)
          = Ok (map (fun r => zip_with f r ys) rows)) as Hseq.
  { apply sequence_map_ok. eapply Forall_impl; [exact Hrows|].
    intros r Hr. now apply broadcast2_same. }
  unfold broadcast_rows.
  destruct rows as [|r [|r' rows]]; simpl in *; try done.
Qed.

(** A batch is normalised sample by sample: for a fitted stage with a
    positive standard deviation and rows of the size of the mean,
    [transform] of the matrix of the rows returns a matrix with as many
    rows, whose row [i] is what [transform] returns for row [i] alone;
    neither call changes anything. *)
Theorem normalisation_transform_batch (w : world) (self : loc)
    (mu sd : list F32.t) (rows : list (list F32.t)) :
  attr_of w self "is_fitted" = Some (VBool true) ->
  attr_of w self "mean" = Some (VTensor mu) ->
  attr_of w self "stddev" = Some (VTensor sd) ->
  forallb F32.gt0 sd = true ->
  length sd = length mu ->
  Forall (fun r => length r = length mu) rows ->
  exists out,
    Normalisation.transform self (VMatrix rows) w = (Ok (VMatrix out), w) /\
    length out = length rows /\
    forall i r, rows !! i = Some r ->
      exists o, out !! i = Some o /\
        Normalisation.transform self (VTensor r) w = (Ok (VTensor o), w).
Proof.
  intros Hf Hmu Hsd Hpos Hlen Hrows.
  exists (map (fun r => zip_with F32.div (zip_with F32.sub r mu) sd) rows).
  split_and!.
  - unfold Normalisation.transform.
    rewrite (bind_ok _ _ _ _ _ (load_unless_fitted_fitted _ _ _ Hf eq_refl)).
    rewrite (bind_ok _ _ _ _ _ (getattr_attr_of _ _ _ _ Hsd)).
    unfold lift at 1, bind at 1. simpl. rewrite Hpos. simpl.
    unfold bind at 1, ret.
    rewrite (bind_ok _ _ _ _ _ (getattr_attr_of _ _ _ _ Hmu)).
    unfold lift, bind. cbn [tensor_sub tensor_op].
    rewrite (broadcast_rows_tensor F32.sub rows mu Hrows).
    rewrite (getattr_attr_of _ _ _ _ Hsd).
    unfold tensor_div. cbn [tensor_op].
    rewrite (broadcast_rows_tensor F32.div).
    + now rewrite map_map.
    + apply Forall_map. eapply Forall_impl; [exact Hrows|].
      intros r Hr. simpl in Hr. rewrite length_zip_with. lia.
  - apply length_map.
  - intros i r Hi. eexists. split.
    + rewrite list_lookup_fmap, Hi. reflexivity.
    + rewrite (normalisation_transform_positive w self (VBool true) mu sd r
                 Hf eq_refl Hmu Hsd Hpos).
      pose proof (proj1 (Forall_lookup _ _) Hrows i r Hi) as Hr. simpl in Hr.
      unfold normalise, tensor_sub, tensor_div. cbn [tensor_op].
      rewrite (broadcast2_same F32.sub r mu Hr). cbn [tensor_op].
      rewrite broadcast2_same by (rewrite length_zip_with; lia).
      reflexivity.
Qed.

(** ** The theorems above at the examples *)

Lemma fitted_text_transform_readonly_witness :
  snd (PreprocessTextData.transform 1%positive (VStr "the cat") fitted_reviews)
  = fitted_reviews.
Proof.
  apply (proj1 (fitted_text_transform_readonly fitted_reviews 1%positive
                  (VBool true) (VStr "the cat")
                  ltac:(vm_compute; reflexivity) eq_refl)).
Defined.

Lemma save_pretrained_writes_snapshot_witness :
  fst (save_pretrained 1%positive "." unfitted_text) = Ok tt /\
  heap (snd (save_pretrained 1%positive "." unfitted_text))
  = heap unfitted_text.
Proof.
  pose proof (save_pretrained_writes_snapshot unfitted_text 1%positive
                (object_at unfitted_text 1%positive)
                ltac:(vm_compute; reflexivity)) as H.
  cbv zeta in H. destruct H as (H1 & _ & _ & H2 & _). split; assumption.
Defined.

Lemma save_then_load_finds_snapshot_witness :
  fst ((save_pretrained 1%positive "." ;;
        load_pretrained 2%positive ".") two_text_stages) = Ok tt.
Proof.
  pose proof (save_then_load_finds_snapshot two_text_stages
                1%positive 2%positive
                (object_at two_text_stages 1%positive)
                (object_at two_text_stages 2%positive)
                ltac:(vm_compute; reflexivity) ltac:(vm_compute; reflexivity)
                ltac:(vm_compute; reflexivity)) as H.
  cbv zeta in H. exact (proj1 H).
Defined.

Lemma save_pretrained_last_writer_wins_witness :
  fst ((save_pretrained 1%positive "." ;;
        save_pretrained 2%positive ".") two_text_stages) = Ok tt.
Proof.
  apply (proj1 (save_pretrained_last_writer_wins two_text_stages
                  1%positive 2%positive
                  (object_at two_text_stages 1%positive)
                  (object_at two_text_stages 2%positive)
                  ltac:(vm_compute; reflexivity) ltac:(vm_compute; reflexivity)
                  ltac:(vm_compute; reflexivity))).
Defined.

Lemma load_pretrained_corrupt_file_witness :
  fst (Normalisation.transform 1%positive (VTensor [F32.zero]) corrupt_snapshot)
  = Raise JSONDecodeError.
Proof.
  destruct (load_pretrained_corrupt_file corrupt_snapshot 1%positive
              (object_at corrupt_snapshot 1%positive) "."
              ltac:(vm_compute; reflexivity) ltac:(vm_compute; reflexivity))
    as [_ H].
  destruct (H eq_refl (VBool false) ltac:(vm_compute; reflexivity) eq_refl
              (VTensor [F32.zero])) as [H' _].
  rewrite H'. reflexivity.
Defined.

Lemma new_normalisation_transform_raises_witness :
  fst ((self <- Normalisation.__init__ ;;
        Normalisation.transform self (VTensor [F32.zero])) empty_world)
  = Raise AttributeError.
Proof.
  apply (new_normalisation_transform_raises empty_world (VTensor [F32.zero])).
  vm_compute. discriminate.
Defined.

Lemma text_data_fit_to_data_spec_witness :
  fst (PreprocessTextData.fit_to_data 1%positive reviews new_text) = Ok tt /\
  attr_of (snd (PreprocessTextData.fit_to_data 1%positive reviews new_text))
          1%positive "MAX_LENGTH" = Some (VInt 4).
Proof.
  pose proof (text_data_fit_to_data_spec new_text 1%positive String.words
                reviews ["the cat sat"; "a dog ran fast"] 0 VNone
                ltac:(repeat constructor) ltac:(vm_compute; reflexivity)
                ltac:(vm_compute; reflexivity) ltac:(vm_compute; reflexivity))
    as H.
  cbv zeta in H. destruct H as (H1 & H2 & _). split; [exact H1|].
  rewrite H2. vm_compute. reflexivity.
Defined.

Lemma text_data_fit_then_transform_witness :
  exists out,
    fst (PreprocessTextData.transform 1%positive (VStr "the cat sat")
           (snd (PreprocessTextData.fit_to_data 1%positive reviews new_text)))
    = Ok (VIds out) /\
    length out = 4%nat.
Proof.
  pose proof (text_data_fit_then_transform new_text 1%positive String.words
                reviews ["the cat sat"; "a dog ran fast"] 0 VNone
                ltac:(repeat constructor) ltac:(vm_compute; reflexivity)
                ltac:(vm_compute; reflexivity) ltac:(vm_compute; reflexivity)
                ltac:(left; reflexivity)) as H.
  cbv zeta in H.
  destruct (H (VStr "the cat sat") "the cat sat" eq_refl ltac:(left))
    as (out & E & Hlen).
  exists out. rewrite E. split; [reflexivity|].
  assert (max_tokens String.words 0 ["the cat sat"; "a dog ran fast"] = 4) as Hm
    by (vm_compute; reflexivity).
  rewrite Hm in Hlen. lia.
Defined.

Lemma text_data_refit_witness :
  fst (PreprocessTextData.fit_to_data 1%positive reviews
         (snd (PreprocessTextData.fit_to_data 1%positive reviews new_text)))
  = Ok tt.
Proof.
  pose proof (text_data_refit new_text 1%positive String.words
                reviews reviews
                ["the cat sat"; "a dog ran fast"]
                ["the cat sat"; "a dog ran fast"] 0 VNone
                ltac:(repeat constructor) ltac:(repeat constructor)
                ltac:(vm_compute; reflexivity)
                ltac:(vm_compute; reflexivity) ltac:(vm_compute; reflexivity)
                ltac:(left; reflexivity)) as H.
  cbv zeta in H. exact (proj1 H).
Defined.

Lemma text_data_transform_long_text_raises_witness :
  PreprocessTextData.transform 1%positive (VStr "a b c d e") fitted_reviews
  = (Raise RuntimeError, fitted_reviews).
Proof.
  apply (text_data_transform_long_text_raises fitted_reviews 1%positive
           String.words reviews_vocab 4 (VStr "a b c d e") "a b c d e");
    vm_compute; reflexivity.
Defined.

Lemma text_label_transform_first_of_sequence_witness :
  PreprocessTextLabel.transform 1%positive (VSeq [VInt 3; VInt 9]) empty_world
  = (Ok (VLong 2), empty_world).
Proof.
  rewrite (@text_label_transform_first_of_sequence toy_libs empty_world 1%positive
             (VInt 3) [VInt 9] eq_refl).
  reflexivity.
Defined.

Lemma text_label_transform_errors_witness :
  PreprocessTextLabel.transform 1%positive (VStr "spam") empty_world
  = (Raise TypeError, empty_world).
Proof.
  apply (proj1 (proj2 (@text_label_transform_errors toy_libs empty_world 1%positive
                         (VStr "spam") TypeError eq_refl))
               eq_refl eq_refl).
Defined.

Lemma pipeline_transform_stops_at_raise_witness :
  PreprocessingPipeline.transform stage_transform
    (PreprocessingPipeline.__add__
       (PreprocessingPipeline.Pipeline [(1%positive, tt)])
       (PreprocessingPipeline.Pipeline [(1%positive, tt)]))
    (VStr "a b c d e") fitted_reviews
  = (Raise RuntimeError, fitted_reviews).
Proof.
  apply (pipeline_transform_stops_at_raise stage_transform
           (PreprocessingPipeline.Pipeline [(1%positive, tt)])
           (PreprocessingPipeline.Pipeline [(1%positive, tt)])
           (VStr "a b c d e") fitted_reviews fitted_reviews RuntimeError).
  vm_compute. reflexivity.
Defined.

Lemma normalisation_fit_to_data_spec_witness :
  attr_of (snd (Normalisation.fit_to_data 1%positive
                  (Normalisation.Batch images) new_normalisation))
          1%positive "is_fitted" = Some (VBool true).
Proof.
  pose proof (normalisation_fit_to_data_spec new_normalisation 1%positive
                (VBool false) (Normalisation.Batch images)
                ltac:(vm_compute; reflexivity)) as H.
  cbv zeta in H. destruct H as [_ H].
  destruct (H ltac:(discriminate)) as (_ & _ & _ & Hf & _). exact Hf.
Defined.

Lemma normalisation_fit_then_transform_witness :
  Normalisation.transform 1%positive (VTensor [F32.pow2 1; F32.pow2 0])
    fitted_two_rows
  = (normalise [F32.pow2 1; F32.pow2 0] [F32.pow2 1; F32.pow2 1]
       [F32.pow2 0; F32.pow2 0], fitted_two_rows).
Proof.
  apply (@normalisation_fit_then_transform two_rows_libs new_normalisation
           1%positive (VBool false) (Normalisation.Batch two_rows)
           [F32.pow2 1; F32.pow2 1] [F32.pow2 0; F32.pow2 0]
           ltac:(vm_compute; reflexivity) ltac:(discriminate)
           eq_refl eq_refl ltac:(vm_compute; reflexivity)).
Defined.

Lemma normalisation_fit_images_then_transform_witness :
  Normalisation.transform 1%positive
    (VMatrix [[F32.zero; F32.zero]; [F32.zero; F32.zero]])
    (snd (Normalisation.fit_to_data 1%positive (Normalisation.Batch images)
            new_normalisation))
  = (Raise RuntimeError,
     snd (Normalisation.fit_to_data 1%positive (Normalisation.Batch images)
            new_normalisation)).
Proof.
  apply (normalisation_fit_images_then_transform new_normalisation 1%positive
           (VBool false) (Normalisation.Batch images)
           [F32.zero; F32.zero] [[F32.zero; F32.zero]]
           ltac:(vm_compute; reflexivity) ltac:(discriminate)
           eq_refl ltac:(discriminate)).
Defined.

Lemma translation_fit_to_data_spec_witness :
  fst (PreprocessTextTranslation.fit_to_data 1%positive translations
         new_translation) = Ok tt /\
  attr_of (snd (PreprocessTextTranslation.fit_to_data 1%positive translations
                  new_translation)) 1%positive "MAX_LENGTH" = Some (VInt 3).
Proof.
  pose proof (translation_fit_to_data_spec new_translation 1%positive
                String.words String.words translations
                [("the cat .", "le chat .")] 0 (VVocab en_vocab) (VVocab fr_vocab)
                ltac:(repeat constructor) ltac:(vm_compute; reflexivity)
                ltac:(vm_compute; reflexivity) ltac:(vm_compute; reflexivity)
                ltac:(vm_compute; reflexivity) ltac:(vm_compute; reflexivity))
    as H.
  cbv zeta in H. destruct H as (H1 & H2 & _). split; [exact H1|].
  rewrite H2. vm_compute. reflexivity.
Defined.

Lemma translation_fit_then_transform_witness :
  exists out out_target,
    fst (PreprocessTextTranslation.transform 1%positive
           (VSeq [VStr "the cat ."; VStr "le chat ."])
           (snd (PreprocessTextTranslation.fit_to_data 1%positive translations
                   new_translation)))
    = Ok (VSeq [VIds out; VIds out_target]) /\
    length out = 3%nat /\ length out_target = 3%nat.
Proof.
  pose proof (translation_fit_then_transform new_translation 1%positive
                String.words translations
                [("the cat .", "le chat .")] 0 (VVocab en_vocab) (VVocab fr_vocab)
                ltac:(repeat constructor) ltac:(vm_compute; reflexivity)
                ltac:(vm_compute; reflexivity) ltac:(vm_compute; reflexivity)
                ltac:(vm_compute; reflexivity) ltac:(vm_compute; reflexivity)
                ltac:(right; eexists; reflexivity)
                ltac:(right; eexists; reflexivity)) as H.
  cbv zeta in H.
  destruct (H "the cat ." "le chat ." [] ltac:(left))
    as (out & out_target & E & Hlen & Hlen').
  exists out, out_target. rewrite E. split; [reflexivity|].
  assert (max_pair_tokens String.words String.words 0
            [("the cat .", "le chat .")] = 3) as Hm
    by (vm_compute; reflexivity).
  rewrite Hm in Hlen, Hlen'. lia.
Defined.

Lemma qa_fit_to_data_spec_witness :
  fst (PreprocessTextQA.fit_to_data 1%positive squad new_qa) = Ok tt /\
  attr_of (snd (PreprocessTextQA.fit_to_data 1%positive squad new_qa))
          1%positive "MAX_LENGTH" = Some (VInt 4).
Proof.
  pose proof (qa_fit_to_data_spec new_qa 1%positive String.words squad
                [("the quick brown fox", "which fox")] 0 (VVocab en_vocab)
                en_vocab
                ltac:(repeat constructor) ltac:(vm_compute; reflexivity)
                ltac:(vm_compute; reflexivity) ltac:(vm_compute; reflexivity)
                eq_refl) as H.
  cbv zeta in H. destruct H as (H1 & H2 & _). split; [exact H1|].
  rewrite H2. vm_compute. reflexivity.
Defined.

Lemma qa_fit_then_transform_witness :
  exists out_context out_question,
    fst (PreprocessTextQA.transform 1%positive
           (VSeq [VStr "the quick brown fox"; VStr "which fox"])
           (snd (PreprocessTextQA.fit_to_data 1%positive squad new_qa)))
    = Ok (VSeq [VIds out_context; VIds out_question]) /\
    length out_context = 4%nat /\ length out_question = 4%nat.
Proof.
  pose proof (qa_fit_then_transform new_qa 1%positive String.words squad
                [("the quick brown fox", "which fox")] 0 (VVocab en_vocab)
                en_vocab
                ltac:(repeat constructor) ltac:(vm_compute; reflexivity)
                ltac:(vm_compute; reflexivity) ltac:(vm_compute; reflexivity)
                eq_refl) as H.
  cbv zeta in H.
  destruct (H "the quick brown fox" "which fox" [] ltac:(left))
    as (out_context & out_question & E & Hlen & Hlen' & _).
  exists out_context, out_question. split; [exact E|].
  assert (max_pair_tokens String.words String.words 0
            [("the quick brown fox", "which fox")] = 4) as Hm
    by (vm_compute; reflexivity).
  rewrite Hm in Hlen, Hlen'. lia.
Defined.

Lemma normalisation_transform_failure_patches_witness :
  fst (Normalisation.transform 1%positive
         (VTensor [F32.zero; F32.zero; F32.zero]) fitted_constant)
  = Raise RuntimeError /\
  attr_of (snd (Normalisation.transform 1%positive
                  (VTensor [F32.zero; F32.zero; F32.zero]) fitted_constant))
          1%positive "stddev" = Some (VTensor [F32.eps; F32.eps]).
Proof.
  pose proof (normalisation_transform_failure_patches fitted_constant 1%positive
                [F32.zero; F32.zero] [F32.zero; F32.zero]
                [F32.zero; F32.zero; F32.zero]
                ltac:(vm_compute; reflexivity) ltac:(vm_compute; reflexivity)
                ltac:(vm_compute; reflexivity) ltac:(vm_compute; reflexivity)
                ltac:(discriminate) ltac:(discriminate) ltac:(discriminate))
    as H.
  cbv zeta in H. destruct H as (H1 & H2 & _). split; [exact H1|].
  rewrite H2. vm_compute. reflexivity.
Defined.

Lemma normalisation_transform_batch_witness :
  exists out,
    Normalisation.transform 1%positive
      (VMatrix [[F32.pow2 0; F32.pow2 0]; [F32.pow2 1; F32.pow2 0]])
      fitted_two_rows
    = (Ok (VMatrix out), fitted_two_rows) /\
    length out = 2%nat.
Proof.
  destruct (normalisation_transform_batch fitted_two_rows 1%positive
              [F32.pow2 1; F32.pow2 1] [F32.pow2 0; F32.pow2 0]
              [[F32.pow2 0; F32.pow2 0]; [F32.pow2 1; F32.pow2 0]]
              ltac:(vm_compute; reflexivity) ltac:(vm_compute; reflexivity)
              ltac:(vm_compute; reflexivity) ltac:(vm_compute; reflexivity)
              eq_refl ltac:(repeat constructor))
    as (out & E & Hlen & _).
  exists out. split; [exact E|exact Hlen].
Defined.
